(** * apeittrakerbot: the token analysis pipeline

    A shallow embedding of [deep_analyzer.py] (class [DeepTokenAnalyzer]) and
    of the chain detection and scan entry point of [bot.py] (class
    [MemeCoinBot]), followed by the properties of the holder heuristics, the
    security scorer and the aggregator.

    Modelling conventions.
    - Python [int] is [Z]; [len] is [length] on [nat].
    - Python [float] is binary64.  A finite float is the rational it denotes,
      in [Qc], so comparisons are exact; in the holder heuristics (the sums,
      shares and the 5% test of [detect_bundles],
      [classify_holder_distribution], [process_holder_data], the Helius
      analysis and the cluster loop of Bubblemaps) each arithmetic operation
      is the exact operation followed by [fl], rounding to the nearest value
      with a 53-bit significand, ties to even.  The exponent range is not
      modelled: overflow and underflow (magnitudes beyond 1e308 or below
      1e-308, and [OverflowError] on [float] of such an integer) are outside
      the model.  [float z] is the value of the integer [z], used for
      literals; Python's [float(n)] is [py_float].  [sum] adds from left to
      right, starting from the integer 0, as CPython does up to version 3.11
      (later versions compensate the rounding errors of a float sum).  A
      division whose divisor may be zero is written [py_div] and raises
      [ZeroDivisionError] (here [None]).
    - The figures read from a market-data reply and the shares of the
      Bubblemaps nodes are rationals, and the arithmetic on them (the holder
      estimate, the sums of node shares) is exact.
    - Python [str] is [string]; one element of the string stands for one
      character.
    - A dictionary with a fixed set of keys is a record; a key that only some
      producers set is an [option] field.
    - A function whose body is wrapped in [try/except] runs in the [option]
      monad and its [None] is mapped to the value of the [except] branch.
    - A network call is an argument: the reply the remote service gives to
      that call, [None] when the call raises. *)

From Stdlib Require Import QArith Qcanon Qround Qpower Lqa Ascii.
From stdpp Require Import gmap strings list sorting numbers.

Local Open Scope Qc_scope.

(** ** Python numerics *)

Definition float (z : Z) : Qc := Qc_of_Z z.

(** *** Rounding to binary64 *)

Definition pow2 (e : Z) : Q := (2 ^ e)%Q.

(** The exponent [e] with [2^e <= x < 2^(e+1)], for a positive [x]. *)
Definition binade (x : Q) : Z :=
  let k := (Z.log2 (Qnum x) - Z.log2 (Zpos (Qden x)))%Z in
  if Qle_bool (pow2 k) x then k else (k - 1)%Z.

(** The nearest integer, the even one of two that are equally near. *)
Definition rne (y : Q) : Z :=
  let f := Qfloor y in
  match (y - inject_Z f ?= 1 # 2)%Q with
  | Lt => f
  | Gt => (f + 1)%Z
  | Eq => if Z.even f then f else (f + 1)%Z
  end.

(** A positive [x] rounded to 53 significant bits: the significand is the
    integer nearest to [x / 2^(e-52)]. *)
Definition round_pos (x : Q) : Q :=
  let u := (binade x - 52)%Z in (inject_Z (rne (x / pow2 u)) * pow2 u)%Q.

Definition fl_Q (x : Q) : Q :=
  match Qnum x with
  | Z0 => 0%Q
  | Zpos _ => round_pos x
  | Zneg _ => (- round_pos (- x))%Q
  end.

(** The binary64 value nearest to [x]. *)
Definition fl (x : Qc) : Qc := Q2Qc (fl_Q x).

(** *** Arithmetic on floats *)

(** [float(n)] for an integer [n] *)
Definition py_float (z : Z) : Qc := fl (float z).

Definition fadd (x y : Qc) : Qc := fl (x + y).
Definition fsub (x y : Qc) : Qc := fl (x - y).
Definition fmul (x y : Qc) : Qc := fl (x * y).

(** [x / y] with a divisor known to be non-zero; on two integers this is
    Python's true division, which rounds the exact quotient once. *)
Definition fdiv (x y : Qc) : Qc := fl (x / y).

Definition py_abs (x : Qc) : Qc := if decide (x < 0) then - x else x.

(** True division of floats; [None] stands for [ZeroDivisionError]. *)
Definition py_div (x y : Qc) : option Qc :=
  if decide (y = 0) then None else Some (fdiv x y).

(** The literal [0.05] *)
Definition five_percent : Qc := fl (float 5 / float 100).

(** [sorted(l, key=..., reverse=True)] and [l.sort(key=..., reverse=True)]:
    [R x y] says that the key of [x] is at least that of [y]; elements with
    equal keys keep the order they had, the sort being stable. *)
Fixpoint stable_insert {A} (R : relation A) `{!RelDecision R}
    (x : A) (l : list A) : list A :=
  match l with
  | [] => [x]
  | y :: l' => if decide (R x y) then x :: y :: l' else y :: stable_insert R x l'
  end.

Definition stable_sort {A} (R : relation A) `{!RelDecision R}
    (l : list A) : list A :=
  foldr (stable_insert R) [] l.
Arguments stable_sort : simpl never.

(** ** Holder dictionaries *)

(** The entries of a holder list: the keys [amount], [owner] and [address]
    are the ones the analyzer writes and reads. *)
Record holder := Holder {
  amount : Z;
  owner : string;
  address : string
}.

#[global] Instance holder_eq_dec : EqDecision holder.
Proof. solve_decision. Defined.

(** [sum(float(h.get('amount', 0)) for h in hs)] *)
Definition sum_amounts (hs : list holder) : Qc :=
  foldl (λ acc h, fadd acc (py_float (amount h))) 0 hs.

(** [sum(h['amount'] for h in hs)], on integers *)
Definition sum_int_amounts (hs : list holder) : Z :=
  foldl (λ acc h, (acc + amount h)%Z) 0%Z hs.

(** [holders.index(holder)]: the first position holding an equal
    dictionary, [None] for [ValueError]. *)
Fixpoint index (x : holder) (l : list holder) : option nat :=
  match l with
  | [] => None
  | y :: l' => if decide (y = x) then Some 0%nat else S <$> index x l'
  end.

(** ** Bundle detection *)

(** The test [other_amount > 0 and abs(amount - other_amount) / amount < 0.05];
    the conjunction is short-circuit, so the division is only reached with
    a positive [other_amount]. *)
Definition similar_amount (amount_i other_amount : Qc) : option bool :=
  if decide (0 < other_amount) then
    r ← py_div (py_abs (fsub amount_i other_amount)) amount_i;
    Some (bool_decide (r < five_percent))
  else Some false.

(** The inner loop [for j, other_holder in enumerate(holders[i+1:], i+1)]. *)
Fixpoint collect_similar (amount_i : Qc) (j : nat) (others : list holder)
    (bundle : list holder) (used_indices : gset nat)
  : option (list holder * gset nat) :=
  match others with
  | [] => Some (bundle, used_indices)
  | other_holder :: others' =>
      if decide (j ∈ used_indices) then
        collect_similar amount_i (S j) others' bundle used_indices
      else
        similar ← similar_amount amount_i (py_float (amount other_holder));
        if similar : bool then
          collect_similar amount_i (S j) others'
            (bundle ++ [other_holder]) ({[j]} ∪ used_indices)
        else collect_similar amount_i (S j) others' bundle used_indices
  end.

(** [for holder in bundle: used_indices.add(holders.index(holder))] *)
Fixpoint mark_bundle (holders bundle : list holder) (used_indices : gset nat)
  : option (gset nat) :=
  match bundle with
  | [] => Some used_indices
  | h :: bundle' =>
      k ← index h holders;
      mark_bundle holders bundle' ({[k]} ∪ used_indices)
  end.

(** The outer loop [for i, holder in enumerate(holders)]; [rest] is
    [holders[i:]]. *)
Fixpoint group_holders (holders : list holder) (i : nat) (rest : list holder)
    (bundles : list (list holder)) (used_indices : gset nat)
  : option (list (list holder)) :=
  match rest with
  | [] => Some bundles
  | holder_i :: rest' =>
      if decide (i ∈ used_indices) then
        group_holders holders (S i) rest' bundles used_indices
      else
        '(bundle, used1) ←
          collect_similar (py_float (amount holder_i)) (S i) rest'
            [holder_i] used_indices;
        if decide (3 ≤ length bundle)%nat then
          used2 ← mark_bundle holders bundle used1;
          group_holders holders (S i) rest' (bundles ++ [bundle]) used2
        else group_holders holders (S i) rest' bundles used1
  end.

Definition detect_bundles (holders : list holder) : bool * Qc :=
  if decide (length holders < 5)%nat then (false, 0)
  else
    match group_holders holders 0 holders [] ∅ with
    | None => (false, 0)
    | Some [] => (false, 0)
    | Some bundles =>
        let total_bundle_amount :=
          foldl (λ acc bundle, fadd acc (sum_amounts bundle)) 0 bundles in
        let total_supply := sum_amounts holders in
        let bundle_percentage :=
          if decide (0 < total_supply)
          then fmul (fdiv total_bundle_amount total_supply) (float 100)
          else 0 in
        (true, bundle_percentage)
    end.

(** ** Concentration classification *)

(** [top_5_amount / total_supply * 100] *)
Definition top_5_percentage (holders : list holder) : Qc :=
  fmul (fdiv (sum_amounts (take 5 holders)) (sum_amounts holders)) (float 100).

Definition classify_holder_distribution (holders : list holder) : string :=
  match holders with
  | [] => "unknown"
  | _ =>
      let total_supply := sum_amounts holders in
      if decide (total_supply = 0) then "unknown"
      else
        let top_5_percentage := top_5_percentage holders in
        if decide (float 80 < top_5_percentage) then "highly_concentrated"
        else if decide (float 50 < top_5_percentage) then "concentrated"
        else if decide (float 20 < top_5_percentage) then "moderate"
        else "distributed"
  end.

(** ** Holder analysis *)

(** An element of [top_10_holders]: keys [address], [balance], [percentage]. *)
Record holder_entry := HolderEntry {
  entry_address : string;
  balance : Z;
  percentage : Qc
}.

(** The holder-analysis dictionary.  [total_supply] and [top_10_holders] are
    keys that only the Helius producer sets. *)
Record holder_analysis := HolderAnalysis {
  total_holders : nat;
  total_supply : option Z;
  top_10_percentage : Qc;
  top_50_percentage : Qc;
  dev_wallet_percentage : Qc;
  dev_has_sold : bool;
  bundle_detected : bool;
  bundle_percentage : Qc;
  holder_distribution : string;
  top_10_holders : option (list holder_entry)
}.

Definition get_default_holder_analysis : holder_analysis :=
  {| total_holders := 0;
     total_supply := None;
     top_10_percentage := 0;
     top_50_percentage := 0;
     dev_wallet_percentage := 0;
     dev_has_sold := false;
     bundle_detected := false;
     bundle_percentage := 0;
     holder_distribution := "unknown";
     top_10_holders := None |}.

Definition process_holder_data (holders : list holder) : holder_analysis :=
  match holders with
  | [] => get_default_holder_analysis
  | dev_wallet :: _ =>
      let total_supply := sum_amounts holders in
      if decide (total_supply = 0) then get_default_holder_analysis
      else
        let top_10_amount := sum_amounts (take 10 holders) in
        let top_50_amount := sum_amounts (take 50 holders) in
        let dev_percentage :=
          if decide (0 < total_supply)
          then fmul (fdiv (py_float (amount dev_wallet)) total_supply)
                 (float 100)
          else 0 in
        let '(bundle_detected, bundle_percentage) := detect_bundles holders in
        {| total_holders := length holders;
           total_supply := None;
           top_10_percentage :=
             if decide (0 < total_supply)
             then fmul (fdiv top_10_amount total_supply) (float 100) else 0;
           top_50_percentage :=
             if decide (0 < total_supply)
             then fmul (fdiv top_50_amount total_supply) (float 100) else 0;
           dev_wallet_percentage := dev_percentage;
           dev_has_sold := false;
           bundle_detected := bundle_detected;
           bundle_percentage := bundle_percentage;
           holder_distribution := classify_holder_distribution holders;
           top_10_holders := None |}
  end.

(** ** Upstream replies *)

(** What [session.get] / [session.post] hands back when it does not raise:
    the status code and the decoded JSON body. *)
Record response (A : Type) := Response {
  status_code : Z;
  json : A
}.
Arguments Response {A} _ _.
Arguments status_code {A} _.
Arguments json {A} _.

(** A reply is [None] when the request, or decoding its body, raises. *)
Definition reply (A : Type) : Type := option (response A).

(** Helius [getTokenAccounts]: the body is [None] when the key [result] is
    missing or falsy, else the list [result.get('token_accounts', [])]; an
    entry of that list is [None] when it is falsy or not a dictionary. *)
Definition helius_body : Type := option (list (option holder)).

(** Moralis [/owners]: the body is the list [data.get('result', [])]. *)
Definition moralis_body : Type := list holder.

(** ** Solana holders (Helius) *)

(** The loop over [token_accounts]: keeps the accounts with a positive
    amount, in the order received, and accumulates their sum. *)
Definition collect_accounts (token_accounts : list (option holder))
  : list holder * Z :=
  foldl (λ '(holders, total_supply) account,
           match account with
           | Some a =>
               if decide (amount a ≠ 0 ∧ 0 < amount a)%Z
               then (holders ++ [a], (total_supply + amount a)%Z)
               else (holders, total_supply)
           | None => (holders, total_supply)
           end)
        ([], 0%Z) token_accounts.

(** The order of [holders.sort(key=lambda x: x['amount'], reverse=True)]:
    larger amounts first. *)
Definition amount_ge (x y : holder) : Prop := (amount y ≤ amount x)%Z.

#[global] Instance amount_ge_dec : RelDecision amount_ge.
Proof. intros x y. unfold amount_ge. apply _. Defined.

(** [n / total_supply * 100 if total_supply > 0 else 0] on integers. *)
Definition share_of (n total_supply : Z) : Qc :=
  if decide (0 < total_supply)%Z
  then fmul (fdiv (float n) (float total_supply)) (float 100) else 0.

Definition get_holder_distribution_from_helius (r : reply helius_body)
  : option holder_analysis :=
  resp ← r;
  if decide (status_code resp = 200%Z) then
    token_accounts ← json resp;
    let '(holders0, total_supply) := collect_accounts token_accounts in
    match holders0 with
    | [] => None
    | _ =>
        let holders := stable_sort amount_ge holders0 in
        let top_10_holders := take 10 holders in
        let top_10_balance := sum_int_amounts top_10_holders in
        let top_10_percentage := share_of top_10_balance total_supply in
        let dev_percentage :=
          match holders with
          | dev_wallet :: _ => share_of (amount dev_wallet) total_supply
          | [] => 0
          end in
        let top_50_holders := take 50 holders in
        let top_50_balance := sum_int_amounts top_50_holders in
        let top_50_percentage := share_of top_50_balance total_supply in
        Some
          {| total_holders := length holders;
             total_supply := Some total_supply;
             top_10_percentage := top_10_percentage;
             top_50_percentage := top_50_percentage;
             dev_wallet_percentage := dev_percentage;
             dev_has_sold := false;
             bundle_detected := bool_decide (float 50 < top_10_percentage);
             bundle_percentage :=
               if decide (float 50 < top_10_percentage)
               then top_10_percentage else 0;
             holder_distribution := classify_holder_distribution holders;
             top_10_holders :=
               Some ((λ h, {| entry_address := address h;
                              balance := amount h;
                              percentage :=
                                share_of (amount h) total_supply |})
                       <$> top_10_holders) |}
    end
  else None.

Definition get_solana_holders_from_helius (r : reply helius_body)
  : option holder_analysis :=
  match get_holder_distribution_from_helius r with
  | Some holder_data =>
      if decide (0 < total_holders holder_data)%nat then Some holder_data
      else None
  | None => None
  end.

Definition analyze_solana_holders (r : reply helius_body)
  : option holder_analysis :=
  get_solana_holders_from_helius r.

(** ** Ethereum and BSC holders (Moralis) *)

Definition get_ethereum_holders_from_moralis (r : reply moralis_body)
  : holder_analysis :=
  match r with
  | Some resp =>
      if decide (status_code resp = 200%Z) then
        match json resp with
        | [] => get_default_holder_analysis
        | holders => process_holder_data holders
        end
      else get_default_holder_analysis
  | None => get_default_holder_analysis
  end.

Definition get_bsc_holders_from_moralis (r : reply moralis_body)
  : holder_analysis :=
  match r with
  | Some resp =>
      if decide (status_code resp = 200%Z) then
        match json resp with
        | [] => get_default_holder_analysis
        | holders => process_holder_data holders
        end
      else get_default_holder_analysis
  | None => get_default_holder_analysis
  end.

Definition analyze_ethereum_holders (r : reply moralis_body) : holder_analysis :=
  get_ethereum_holders_from_moralis r.

Definition analyze_bsc_holders (r : reply moralis_body) : holder_analysis :=
  get_bsc_holders_from_moralis r.

(** ** Chain dispatch *)

(** What the three holder services answer when asked about one token; the
    chain decides which of them is called. *)
Record holder_services := HolderServices {
  helius : reply helius_body;
  moralis_eth : reply moralis_body;
  moralis_bsc : reply moralis_body
}.

(** The result is [None] only on the Solana branch; a chain outside the
    three names falls through to the literal default dictionary. *)
Definition get_holder_analysis (chain : string) (up : holder_services)
  : option holder_analysis :=
  if decide (chain = "solana") then analyze_solana_holders (helius up)
  else if decide (chain = "ethereum") then
    Some (analyze_ethereum_holders (moralis_eth up))
  else if decide (chain = "bsc") then
    Some (analyze_bsc_holders (moralis_bsc up))
  else
    Some {| total_holders := 0;
            total_supply := None;
            top_10_percentage := 0;
            top_50_percentage := 0;
            dev_wallet_percentage := 0;
            dev_has_sold := false;
            bundle_detected := false;
            bundle_percentage := 0;
            holder_distribution := "unknown";
            top_10_holders := None |}.

(** ** Security scoring *)

(** The three static checks are methods of the analyzer; the scorer calls
    them with the token address and the chain. *)
Class SecurityChecks := {
  check_contract_verification : string → string → bool;
  check_honeypot_indicators : string → string → bool;
  check_rug_pull_indicators : string → string → bool
}.

(** The checks as shipped: each returns [False]. *)
Definition shipped_checks : SecurityChecks :=
  {| check_contract_verification := λ _ _, false;
     check_honeypot_indicators := λ _ _, false;
     check_rug_pull_indicators := λ _ _, false |}.

Definition classify_risk_level (security_score : Z) : string :=
  if decide (85 ≤ security_score)%Z then "low"
  else if decide (70 ≤ security_score)%Z then "medium"
  else if decide (50 ≤ security_score)%Z then "high"
  else "critical".

Record security_analysis := SecurityAnalysis {
  security_score : Z;
  is_verified : bool;
  is_honeypot : bool;
  rug_indicators : bool;
  warnings : list string;
  risk_level : string
}.

(** The running pair [(security_score, warnings)] of the scorer. *)
Definition tally : Type := Z * list string.

Definition penalise (t : tally) (points : Z) (warning : string) : tally :=
  ((t.1 - points)%Z, t.2 ++ [warning]).

(** The block guarded by [if holder_analysis:]. *)
Definition holder_concentration_checks (ha : holder_analysis) (t : tally)
  : tally :=
  let dev_pct := dev_wallet_percentage ha in
  let top_10_pct := top_10_percentage ha in
  let t :=
    if decide (float 50 < dev_pct) then
      penalise t 60 "CRITICAL: Dev holds >50% - Extreme rug risk"
    else if decide (float 30 < dev_pct) then
      penalise t 40 "HIGH RISK: Dev holds >30% - High rug risk"
    else if decide (float 20 < dev_pct) then
      penalise t 25 "MEDIUM RISK: Dev holds >20% - Moderate rug risk"
    else t in
  let t :=
    if decide (float 70 < top_10_pct) then
      penalise t 50 "CRITICAL: Top 10 hold >70% - Extreme concentration"
    else if decide (float 50 < top_10_pct) then
      penalise t 30 "HIGH RISK: Top 10 hold >50% - High concentration"
    else if decide (float 40 < top_10_pct) then
      penalise t 15 "MEDIUM RISK: Top 10 hold >40% - Moderate concentration"
    else t in
  if bundle_detected ha then
    let bundle_pct := bundle_percentage ha in
    if decide (float 30 < bundle_pct) then
      penalise t 40 "CRITICAL: Bundle manipulation detected"
    else if decide (float 15 < bundle_pct) then
      penalise t 25 "HIGH RISK: Bundle manipulation detected"
    else penalise t 10 "Bundle manipulation detected"
  else t.

(** The body of [get_security_analysis] once [holder_analysis] is bound. *)
Definition score_holder_analysis `{SecurityChecks}
    (token_address chain : string) (holder_analysis : option holder_analysis)
  : security_analysis :=
  let t : tally := (100%Z, []) in
  let is_verified := check_contract_verification token_address chain in
  let t := if negb is_verified then penalise t 20 "Contract not verified"
           else t in
  let t := match holder_analysis with
           | Some ha => holder_concentration_checks ha t
           | None => t
           end in
  let is_honeypot := check_honeypot_indicators token_address chain in
  let t := if is_honeypot then penalise t 50 "Potential honeypot detected"
           else t in
  let rug_indicators := check_rug_pull_indicators token_address chain in
  let t := if rug_indicators then penalise t 30 "Rug pull indicators detected"
           else t in
  {| security_score := Z.max 0 t.1;
     is_verified := is_verified;
     is_honeypot := is_honeypot;
     rug_indicators := rug_indicators;
     warnings := t.2;
     risk_level := classify_risk_level t.1 |}.

(** The scorer fetches the holder analysis anew: [up] is what the holder
    services answer to this second request. *)
Definition get_security_analysis `{SecurityChecks}
    (token_address chain : string) (up : holder_services)
  : security_analysis :=
  score_holder_analysis token_address chain (get_holder_analysis chain up).

(** ** Market data (DexScreener) *)

Record social_link := SocialLink { social_type : string; social_url : string }.
Record website_link := WebsiteLink { website_label : string; website_url : string }.

(** A trading pair of the [pairs] array, with the defaults of the [get]
    calls already applied to missing keys. *)
Record pair := Pair {
  base_name : string;
  base_symbol : string;
  priceUsd : Qc;
  marketCap : Qc;
  volume_h24 : Qc;
  liquidity_usd : Qc;
  liquidity_eth : Qc;
  liquidity_btc : Qc;
  priceChange_h24 : Qc;
  priceChange_h1 : Qc;
  priceChange_h6 : Qc;
  dexId : string;
  pairAddress : string;
  pairCreatedAt : Z;
  pair_fdv : Qc;
  boosts_active : Z;
  info_socials : list social_link;
  info_websites : list website_link
}.

(** The body is the list [data.get('pairs', [])]. *)
Definition dexscreener_body : Type := list pair.

Record basic_token_data := BasicTokenData {
  chain_of : string;
  address_of : string;
  name : string;
  symbol : string;
  price : Qc;
  market_cap : Qc;
  volume_24h : Qc;
  liquidity : Qc;
  price_change_24h : Qc;
  dex : string;
  pair_created_at : Z;
  fdv : Qc;
  price_change_1h : Qc;
  price_change_6h : Qc
}.

Definition get_basic_token_data (token_address chain : string)
    (r : reply dexscreener_body) : option basic_token_data :=
  resp ← r;
  if decide (status_code resp = 200%Z) then
    match json resp with
    | p :: _ =>
        Some {| chain_of := chain;
                address_of := token_address;
                name := base_name p;
                symbol := base_symbol p;
                price := priceUsd p;
                market_cap := marketCap p;
                volume_24h := volume_h24 p;
                liquidity := liquidity_usd p;
                price_change_24h := priceChange_h24 p;
                dex := dexId p;
                pair_created_at := pairCreatedAt p;
                fdv := pair_fdv p;
                price_change_1h := priceChange_h1 p;
                price_change_6h := priceChange_h6 p |}
    | [] => None
    end
  else None.

Record dex_pricing_info := DexPricingInfo {
  is_promoted : bool;
  promotion_type : string;
  boost_count : Z;
  dex_id : string;
  pair_address : string;
  pricing_pair_created_at : Z;
  pricing_liquidity_usd : Qc;
  pricing_liquidity_eth : Qc;
  pricing_liquidity_btc : Qc;
  social_links : list social_link;
  websites : list website_link
}.

Definition default_dex_pricing_info : dex_pricing_info :=
  {| is_promoted := false;
     promotion_type := "free";
     boost_count := 0;
     dex_id := "unknown";
     pair_address := "";
     pricing_pair_created_at := 0;
     pricing_liquidity_usd := 0;
     pricing_liquidity_eth := 0;
     pricing_liquidity_btc := 0;
     social_links := [];
     websites := [] |}.

Definition get_dex_pricing_info (r : reply dexscreener_body) : dex_pricing_info :=
  match r with
  | Some resp =>
      if decide (status_code resp = 200%Z) then
        match json resp with
        | p :: _ =>
            let is_promoted := bool_decide (0 < boosts_active p)%Z in
            {| is_promoted := is_promoted;
               promotion_type := if is_promoted then "paid" else "free";
               boost_count := boosts_active p;
               dex_id := dexId p;
               pair_address := pairAddress p;
               pricing_pair_created_at := pairCreatedAt p;
               pricing_liquidity_usd := liquidity_usd p;
               pricing_liquidity_eth := liquidity_eth p;
               pricing_liquidity_btc := liquidity_btc p;
               social_links := info_socials p;
               websites := info_websites p |}
        | [] => default_dex_pricing_info
        end
      else default_dex_pricing_info
  | None => default_dex_pricing_info
  end.

(** ** The aggregator *)

(** Everything the outside world contributes to one run of [analyze_token],
    in the order the calls are made: two DexScreener requests, the holder
    request of the aggregator, the holder request of the scorer, the clock. *)
Record upstream := Upstream {
  dexscreener_basic : reply dexscreener_body;
  dexscreener_pricing : reply dexscreener_body;
  holders_for_report : holder_services;
  holders_for_scorer : holder_services;
  clock : Z
}.

(** The merged dictionary [{**basic_data, 'dex_pricing': ..., ...}]. *)
Record token_report := TokenReport {
  basic_data : basic_token_data;
  dex_pricing : dex_pricing_info;
  report_holder_analysis : holder_analysis;
  report_security_analysis : security_analysis;
  analysis_timestamp : Z
}.

Definition analyze_token `{SecurityChecks}
    (token_address chain : string) (up : upstream) : option token_report :=
  match get_basic_token_data token_address chain (dexscreener_basic up) with
  | None => None
  | Some basic_data =>
      let dex_pricing := get_dex_pricing_info (dexscreener_pricing up) in
      match get_holder_analysis chain (holders_for_report up) with
      | None => None
      | Some holder_analysis =>
          let security_analysis :=
            get_security_analysis token_address chain (holders_for_scorer up) in
          Some {| basic_data := basic_data;
                  dex_pricing := dex_pricing;
                  report_holder_analysis := holder_analysis;
                  report_security_analysis := security_analysis;
                  analysis_timestamp := clock up |}
      end
  end.

(** ** The bot: chain detection and the scan command *)

Definition detect_chain (token_address : string) : string :=
  if bool_decide (32 ≤ String.length token_address)%nat
       && bool_decide (String.length token_address ≤ 44)%nat
       && negb (String.prefix "0x" token_address)
  then "solana"
  else if String.prefix "0x" token_address
            && bool_decide (String.length token_address = 42)%nat
  then "ethereum"
  else "unknown".

(** What a run of [scan_token] does, in order. *)
Inductive bot_event :=
  | reply_text (text : string)
  | send_chat_action (action : string)
  | call_analyze_token (token_address chain : string)
  | reply_analysis (analysis : token_report).

(** The line break [\n] of the message literals. *)
Definition nl : string := String (Ascii.ascii_of_nat 10) EmptyString.

Definition usage_message : string :=
  "❌ Please provide a token contract address." +:+ nl +:+ nl
  +:+ "Usage: /scan <contract_address>".

Definition invalid_address_message : string :=
  "❌ Could not determine the blockchain for this token address." +:+ nl
  +:+ "Please make sure the address is valid for Solana, Ethereum, or BSC.".

Definition no_data_message : string :=
  "❌ Could not retrieve real holder data from Helius API." +:+ nl
  +:+ "This token may not have sufficient holder data or the API is unavailable."
  +:+ nl +:+ "Please try a different token or check back later.".

(** [scan_token] with [context.args = args].  The formatted report is sent
    as one text message: the banner attempt always ends in its fallback. *)
Definition scan_token `{SecurityChecks}
    (args : list string) (up : upstream) : list bot_event :=
  match args with
  | [] => [reply_text usage_message]
  | token_address :: _ =>
      let chain := detect_chain token_address in
      if decide (chain = "unknown") then
        [send_chat_action "typing"; reply_text invalid_address_message]
      else
        match analyze_token token_address chain up with
        | None =>
            [send_chat_action "typing";
             call_analyze_token token_address chain;
             reply_text no_data_message]
        | Some token_analysis =>
            [send_chat_action "typing";
             call_analyze_token token_address chain;
             reply_analysis token_analysis]
        end
  end.

(** * Vocabulary of the properties *)

(** ** Float expressions *)

(** The expression [a / b * 100] on floats. *)
Definition percentage_of (a b : Qc) : Qc := fmul (fdiv a b) (float 100).

(** One step of [sum(float(h.get('amount', 0)) for h in hs)]. *)
Definition add_amount (acc : Qc) (h : holder) : Qc :=
  fadd acc (py_float (amount h)).

(** One step of the outer sum of [total_bundle_amount]. *)
Definition add_bundle (acc : Qc) (bundle : list holder) : Qc :=
  fadd acc (sum_amounts bundle).

(** ** The penalty table and the share thresholds *)

(** The penalty table of the scorer, one function per category: what a
    category takes off the score, as a function of its own input only. *)
Definition verification_penalty (is_verified : bool) : Z :=
  if is_verified then 0 else 20.

Definition dev_penalty (dev_pct : Qc) : Z :=
  if decide (float 50 < dev_pct) then 60
  else if decide (float 30 < dev_pct) then 40
  else if decide (float 20 < dev_pct) then 25
  else 0.

Definition top_10_penalty (top_10_pct : Qc) : Z :=
  if decide (float 70 < top_10_pct) then 50
  else if decide (float 50 < top_10_pct) then 30
  else if decide (float 40 < top_10_pct) then 15
  else 0.

Definition bundle_penalty (detected : bool) (bundle_pct : Qc) : Z :=
  if detected then
    if decide (float 30 < bundle_pct) then 40
    else if decide (float 15 < bundle_pct) then 25
    else 10
  else 0.

Definition honeypot_penalty (is_honeypot : bool) : Z :=
  if is_honeypot then 50 else 0.

Definition rug_penalty (rug_indicators : bool) : Z :=
  if rug_indicators then 30 else 0.

Definition holder_penalty (holder_analysis : option holder_analysis) : Z :=
  match holder_analysis with
  | Some ha =>
      dev_penalty (dev_wallet_percentage ha)
      + top_10_penalty (top_10_percentage ha)
      + bundle_penalty (bundle_detected ha) (bundle_percentage ha)
  | None => 0
  end.

(** The chain of comparisons of [classify_holder_distribution], as a
    function of the share alone. *)
Definition distribution_of_share (share : Qc) : string :=
  if decide (float 80 < share)%Qc then "highly_concentrated"
  else if decide (float 50 < share)%Qc then "concentrated"
  else if decide (float 20 < share)%Qc then "moderate"
  else "distributed".

Local Open Scope Z_scope.

(** ** Orderings on inputs, reply shapes and sample data *)

(** [worse_holders a b]: the holder analysis [b] is at least as bad as [a] in
    each input the scorer reads (raising one of them and keeping the others
    is the special case). *)
Definition worse_holders (a b : option holder_analysis) : Prop :=
  match a, b with
  | Some ha, Some hb =>
      (dev_wallet_percentage ha ≤ dev_wallet_percentage hb)%Qc ∧
      (top_10_percentage ha ≤ top_10_percentage hb)%Qc ∧
      (bundle_detected ha = true → bundle_detected hb = true) ∧
      (bundle_percentage ha ≤ bundle_percentage hb)%Qc
  | None, None => True
  | _, _ => False
  end.

(** [worse_checks a b]: a flag that is bad under [a] is bad under [b]. *)
Definition worse_checks (a b : SecurityChecks) (token_address chain : string)
  : Prop :=
  (@check_contract_verification b token_address chain = true →
   @check_contract_verification a token_address chain = true) ∧
  (@check_honeypot_indicators a token_address chain = true →
   @check_honeypot_indicators b token_address chain = true) ∧
  (@check_rug_pull_indicators a token_address chain = true →
   @check_rug_pull_indicators b token_address chain = true).

(** A holder analysis that triggers nothing but, possibly, the dev-wallet
    category. *)
Definition dev_only (dev_pct : Qc) : holder_analysis :=
  {| total_holders := 100;
     total_supply := None;
     top_10_percentage := 0;
     top_50_percentage := 0;
     dev_wallet_percentage := dev_pct;
     dev_has_sold := false;
     bundle_detected := false;
     bundle_percentage := 0;
     holder_distribution := "distributed";
     top_10_holders := None |}.

(** Checks that report a verified contract and nothing else. *)
Definition verified_checks : SecurityChecks :=
  {| check_contract_verification := λ _ _, true;
     check_honeypot_indicators := λ _ _, false;
     check_rug_pull_indicators := λ _ _, false |}.

(** The accounts of a Helius reply that carry a positive amount. *)
Fixpoint positive_accounts (token_accounts : list (option holder))
  : list holder :=
  match token_accounts with
  | [] => []
  | Some a :: l =>
      if decide (0 < amount a) then a :: positive_accounts l
      else positive_accounts l
  | None :: l => positive_accounts l
  end.

(** The entry of [top_10_holders] made from a holder. *)
Definition entry_of (total_supply : Z) (h : holder) : holder_entry :=
  {| entry_address := address h;
     balance := amount h;
     percentage := share_of (amount h) total_supply |}.

(** Larger balances first. *)
Definition balance_ge (x y : holder_entry) : Prop := balance y ≤ balance x.

(** [sum(e['balance'] for e in entries)] *)
Definition sum_balances (entries : list holder_entry) : Z :=
  foldl (λ acc e, acc + balance e) 0 entries.



(** A Helius reply listing twenty accounts of 10^18 units in all; the ten
    largest hold one unit more than half of them. *)
Definition half_plus_one : holder_services :=
  {| helius :=
       Some (Response 200
               (Some (Some (Holder 50000000000000001 "o01" "a01")
                      :: replicate 18 (Some (Holder 50000000000000000 "o" "a"))
                      ++ [Some (Holder 49999999999999999 "o20" "a20")])));
     moralis_eth := None;
     moralis_bsc := None |}.

Definition sample_pair : pair :=
  {| base_name := "Sample"; base_symbol := "SMPL";
     priceUsd := float 1; marketCap := float 5000000;
     volume_h24 := float 1000; liquidity_usd := float 50000;
     liquidity_eth := 0%Qc; liquidity_btc := 0%Qc;
     priceChange_h24 := float 3; priceChange_h1 := float 1;
     priceChange_h6 := float 2;
     dexId := "raydium"; pairAddress := "pair";
     pairCreatedAt := 1700000000000; pair_fdv := float 5000000;
     boosts_active := 0; info_socials := []; info_websites := [] |}.

Definition one_pair : reply dexscreener_body :=
  Some (Response 200 [sample_pair]).

(** Twelve accounts with a positive amount, 100 units in all, the largest
    holding 40; between them an empty account and a malformed entry. *)
Definition twelve_accounts : list (option holder) :=
  [Some (Holder 10 "o02" "a02"); Some (Holder 40 "o01" "a01");
   Some (Holder 9 "o03" "a03"); Some (Holder 0 "o00" "a00");
   Some (Holder 8 "o04" "a04"); Some (Holder 7 "o05" "a05"); None;
   Some (Holder 6 "o06" "a06"); Some (Holder 5 "o07" "a07");
   Some (Holder 4 "o08" "a08"); Some (Holder 4 "o09" "a09");
   Some (Holder 3 "o10" "a10"); Some (Holder 2 "o11" "a11");
   Some (Holder 2 "o12" "a12")].

Definition solana_services : holder_services :=
  {| helius := Some (Response 200 (Some twelve_accounts));
     moralis_eth := None;
     moralis_bsc := None |}.

Definition solana_upstream : upstream :=
  {| dexscreener_basic := one_pair;
     dexscreener_pricing := one_pair;
     holders_for_report := solana_services;
     holders_for_scorer := solana_services;
     clock := 1762000000 |}.

Definition solana_address : string :=
  "EHiuBorf3mGoja4RLXCy2LNRTf1wCmxXU1U7AB3ipump".

(** Moralis lists the same twelve holders, largest first. *)
Definition ethereum_services : holder_services :=
  {| helius := None;
     moralis_eth :=
       Some (Response 200
               (stable_sort amount_ge (positive_accounts twelve_accounts)));
     moralis_bsc := None |}.

Definition ethereum_upstream : upstream :=
  {| dexscreener_basic := one_pair;
     dexscreener_pricing := one_pair;
     holders_for_report := ethereum_services;
     holders_for_scorer := ethereum_services;
     clock := 1762000000 |}.

Definition ethereum_address : string :=
  "0x1234567890abcdef1234567890abcdef12345678".

(** The market-data fetch yields nothing: the request raised, the status is
    not 200, or the reply lists no pair. *)
Definition no_pairs (r : reply dexscreener_body) : Prop :=
  match r with
  | None => True
  | Some resp => status_code resp ≠ 200 ∨ json resp = []
  end.

(** The Solana holder fetch is unavailable: the request raised, the status
    is not 200, there is no result, or no account holds a positive amount. *)
Definition helius_unavailable (r : reply helius_body) : Prop :=
  match r with
  | None => True
  | Some resp =>
      status_code resp ≠ 200 ∨
      match json resp with
      | None => True
      | Some token_accounts => positive_accounts token_accounts = []
      end
  end.

(** The EVM holder fetch is unavailable: the request raised, the status is
    not 200, or the reply lists no holder. *)
Definition moralis_unavailable (r : reply moralis_body) : Prop :=
  match r with
  | None => True
  | Some resp => status_code resp ≠ 200 ∨ json resp = []
  end.

(** * Properties *)

(** ** Binary64 rounding *)

Local Open Scope Q_scope.
Lemma pow2_pos (e : Z) : 0 < pow2 e.
Proof. apply Qpower_0_lt. reflexivity. Qed.

Lemma pow2_nonzero (e : Z) : ¬ pow2 e == 0.
Proof. apply Qnot_eq_sym, Qlt_not_eq, pow2_pos. Qed.

Lemma pow2_add (a b : Z) : pow2 (a + b) == pow2 a * pow2 b.
Proof. apply Qpower_plus. discriminate. Qed.

Lemma pow2_le (a b : Z) : (a ≤ b)%Z → pow2 a <= pow2 b.
Proof. intros. apply Qpower_le_compat_l; [done | discriminate]. Qed.

Lemma pow2_lt (a b : Z) : (a < b)%Z → pow2 a < pow2 b.
Proof. intros. apply Qpower_lt_compat_l; [done | reflexivity]. Qed.

Lemma pow2_Z (e : Z) : (0 ≤ e)%Z → pow2 e == inject_Z (2 ^ e).
Proof. intros. unfold pow2. by rewrite Zpower_Qpower. Qed.

Lemma pow2_sub (a b : Z) : pow2 (a - b) == pow2 a / pow2 b.
Proof. apply Qpower_minus. discriminate. Qed.

(** The binade of a positive rational. *)
Lemma binade_spec (x : Q) :
  0 < x → pow2 (binade x) <= x ∧ x < pow2 (binade x + 1).
Proof.
  intros Hx. destruct x as [n d]. unfold binade. cbn [Qnum Qden].
  assert (0 < n)%Z as Hn by (unfold Qlt in Hx; simpl in Hx; lia).
  set (ln := Z.log2 n). set (ld := Z.log2 (Z.pos d)).
  destruct (Z.log2_spec n Hn) as [Hn1 Hn2]. fold ln in Hn1, Hn2.
  destruct (Z.log2_spec (Z.pos d) eq_refl) as [Hd1 Hd2]. fold ld in Hd1, Hd2.
  assert (0 ≤ ln)%Z as Hln by apply Z.log2_nonneg.
  assert (0 ≤ ld)%Z as Hld by apply Z.log2_nonneg.
  assert (pow2 (ln - ld - 1) < n # d ∧ n # d < pow2 (ln - ld + 1)) as [Hlo Hhi].
  { replace (ln - ld - 1)%Z with (ln - (ld + 1))%Z by lia.
    replace (ln - ld + 1)%Z with ((ln + 1) - ld)%Z by lia.
    rewrite !pow2_sub, !pow2_Z by lia.
    pose proof (pow2_pos ld) as Hp1. rewrite pow2_Z in Hp1 by lia.
    pose proof (pow2_pos (ld + 1)) as Hp2. rewrite pow2_Z in Hp2 by lia.
    split.
    - apply Qlt_shift_div_r; [done|].
      unfold Qlt, Qmult, inject_Z in *. simpl in *. nia.
    - apply Qlt_shift_div_l; [done|].
      unfold Qlt, Qmult, inject_Z in *. simpl in *. nia. }
  destruct (Qle_bool (pow2 (ln - ld)) (n # d)) eqn:Hb.
  - apply Qle_bool_iff in Hb. done.
  - assert (n # d < pow2 (ln - ld)) as Hlt.
    { apply Qnot_le_lt. intros Hle. apply Qle_bool_iff in Hle. congruence. }
    replace (ln - ld - 1 + 1)%Z with (ln - ld)%Z by lia.
    split; [by apply Qlt_le_weak | done].
Qed.

Lemma binade_mono (x y : Q) : 0 < x → x <= y → (binade x ≤ binade y)%Z.
Proof.
  intros Hx Hxy.
  assert (0 < y) as Hy by (by apply (Qlt_le_trans _ x)).
  destruct (binade_spec x Hx) as [Hx1 _].
  destruct (binade_spec y Hy) as [_ Hy2].
  destruct (Z_lt_le_dec (binade y) (binade x)) as [Hlt|]; [|done].
  exfalso. assert (pow2 (binade y + 1) <= pow2 (binade x)) as Hp
    by (apply pow2_le; lia).
  lra.
Qed.

Lemma binade_unique (x : Q) (e : Z) :
  pow2 e <= x → x < pow2 (e + 1) → binade x = e.
Proof.
  intros H1 H2.
  assert (0 < x) as Hx by (pose proof (pow2_pos e); lra).
  destruct (binade_spec x Hx) as [Hx1 Hx2].
  destruct (Z.lt_trichotomy (binade x) e) as [Hlt|[?|Hlt]]; [|done|].
  - assert (pow2 (binade x + 1) <= pow2 e) by (apply pow2_le; lia). lra.
  - assert (pow2 (e + 1) <= pow2 (binade x)) by (apply pow2_le; lia). lra.
Qed.


Lemma binade_compat (x y : Q) : 0 < x → x == y → binade x = binade y.
Proof.
  intros Hx Hxy. destruct (binade_spec x Hx). symmetry.
  apply binade_unique; by rewrite <-Hxy.
Qed.

Ltac qcompare H :=
  first [apply Qeq_alt in H | apply Qlt_alt in H | apply Qgt_alt in H].

(** Rounding to the nearest integer, ties to even. *)
Lemma rne_bounds (y : Q) : (Qfloor y ≤ rne y ≤ Qfloor y + 1)%Z.
Proof.
  unfold rne. destruct (_ ?= _); [destruct (Z.even _)| |]; lia.
Qed.

Lemma rne_Z (z : Z) : rne (inject_Z z) = z.
Proof.
  unfold rne. rewrite Qfloor_Z.
  destruct (inject_Z z - inject_Z z ?= 1 # 2) eqn:Hc;
    qcompare Hc; [lra | done | lra].
Qed.

Lemma rne_mono (x y : Q) : x <= y → (rne x ≤ rne y)%Z.
Proof.
  intros Hxy. pose proof (Qfloor_resp_le _ _ Hxy) as Hf.
  pose proof (rne_bounds x). pose proof (rne_bounds y).
  destruct (Z.eq_dec (Qfloor x) (Qfloor y)) as [Heq|]; [|lia].
  unfold rne in *. rewrite <-Heq in *. set (f := Qfloor x) in *.
  destruct (x - inject_Z f ?= 1 # 2) eqn:Hx;
    destruct (y - inject_Z f ?= 1 # 2) eqn:Hy;
    qcompare Hx; qcompare Hy;
    try destruct (Z.even f); try lia; lra.
Qed.

#[global] Instance rne_proper : Proper (Qeq ==> eq) rne.
Proof.
  intros x y Hxy. apply Z.le_antisymm; apply rne_mono; rewrite Hxy; lra.
Qed.

Lemma rne_ge (z : Z) (y : Q) : inject_Z z <= y → (z ≤ rne y)%Z.
Proof. intros H. rewrite <-(rne_Z z). by apply rne_mono. Qed.

Lemma rne_le (z : Z) (y : Q) : y <= inject_Z z → (rne y ≤ z)%Z.
Proof. intros H. rewrite <-(rne_Z z). by apply rne_mono. Qed.

(** The significand of a positive rational: between 2^52 and 2^53. *)
Definition significand (x : Q) : Z := rne (x / pow2 (binade x - 52)).

Lemma scaled_bounds (x : Q) :
  0 < x →
  inject_Z (2 ^ 52) <= x / pow2 (binade x - 52) ∧
  x / pow2 (binade x - 52) <= inject_Z (2 ^ 53).
Proof.
  intros Hx. destruct (binade_spec x Hx) as [H1 H2].
  pose proof (pow2_pos (binade x - 52)) as Hu.
  replace (binade x) with ((binade x - 52) + 52)%Z in H1 at 1 by lia.
  replace (binade x + 1)%Z with ((binade x - 52) + 53)%Z in H2 by lia.
  rewrite pow2_add in H1, H2.
  rewrite (pow2_Z 52) in H1 by lia. rewrite (pow2_Z 53) in H2 by lia.
  split.
  - apply Qle_shift_div_l; [done|]. lra.
  - apply Qle_shift_div_r; [done|]. lra.
Qed.

Lemma significand_bounds (x : Q) :
  0 < x → (2 ^ 52 ≤ significand x ≤ 2 ^ 53)%Z.
Proof.
  intros Hx. destruct (scaled_bounds x Hx). unfold significand.
  split; [by apply rne_ge | by apply rne_le].
Qed.

Lemma round_pos_eq (x : Q) :
  round_pos x = inject_Z (significand x) * pow2 (binade x - 52).
Proof. reflexivity. Qed.

Lemma round_pos_pos (x : Q) : 0 < x → 0 < round_pos x.
Proof.
  intros Hx. rewrite round_pos_eq.
  pose proof (significand_bounds x Hx) as [Hm _].
  pose proof (pow2_pos (binade x - 52)).
  apply Qmult_lt_0_compat; [|done].
  rewrite <-(Zlt_Qlt 0). lia.
Qed.

Lemma round_pos_mono (x y : Q) :
  0 < x → x <= y → round_pos x <= round_pos y.
Proof.
  intros Hx Hxy.
  assert (0 < y) as Hy by lra.
  pose proof (binade_mono x y Hx Hxy) as Hb.
  rewrite !round_pos_eq.
  pose proof (pow2_pos (binade x - 52)) as Hux.
  pose proof (pow2_pos (binade y - 52)) as Huy.
  destruct (Z.eq_dec (binade x) (binade y)) as [Heq|Hne].
  - unfold significand. rewrite Heq.
    apply Qmult_le_compat_r; [|lra].
    rewrite <-Zle_Qle. apply rne_mono. unfold Qdiv.
    apply Qmult_le_compat_r; [done|].
    by apply Qlt_le_weak, Qinv_lt_0_compat.
  - pose proof (significand_bounds x Hx) as [_ Hmx].
    pose proof (significand_bounds y Hy) as [Hmy _].
    rewrite Zle_Qle in Hmx, Hmy.
    assert (pow2 (binade x - 52 + 53) <= pow2 (binade y - 52 + 52)) as Hp
      by (apply pow2_le; lia).
    rewrite !pow2_add, (pow2_Z 52), (pow2_Z 53) in Hp by lia.
    nra.
Qed.

Lemma round_pos_compat (x y : Q) :
  0 < x → x == y → round_pos x == round_pos y.
Proof.
  intros Hx Hxy. rewrite !round_pos_eq. unfold significand.
  rewrite <-(binade_compat x y Hx Hxy).
  assert (rne (x / pow2 (binade x - 52)) = rne (y / pow2 (binade x - 52)))
    as ->; [|reflexivity].
  apply rne_proper. unfold Qdiv. apply Qmult_comp; [exact Hxy | reflexivity].
Qed.

(** A value that is already rounded is left as it is. *)
Lemma round_pos_idem (x : Q) :
  0 < x → round_pos (round_pos x) == round_pos x.
Proof.
  intros Hx. pose proof (round_pos_pos x Hx) as Hr.
  pose proof (significand_bounds x Hx) as [Hm1 Hm2].
  set (u := (binade x - 52)%Z). set (m := significand x) in *.
  assert (round_pos x == inject_Z m * pow2 u) as Hval by reflexivity.
  pose proof (pow2_pos u) as Hu.
  pose proof Hm1 as Hq1. pose proof Hm2 as Hq2. rewrite Zle_Qle in Hq1, Hq2.
  destruct (Z.eq_dec m (2 ^ 53)%Z) as [Htop|Hlow].
  - assert (binade (round_pos x) = u + 53)%Z as Hb.
    { apply binade_unique; rewrite Hval, Htop.
      - rewrite pow2_add, (pow2_Z 53) by lia. lra.
      - replace (u + 53 + 1)%Z with (u + 54)%Z by lia.
        rewrite pow2_add, (pow2_Z 54) by lia.
        assert (inject_Z (2 ^ 53) < inject_Z (2 ^ 54)) by (by rewrite <-Zlt_Qlt).
        nra. }
    rewrite (round_pos_eq (round_pos x)). unfold significand. rewrite Hb.
    replace (u + 53 - 52)%Z with (u + 1)%Z by lia.
    assert (round_pos x / pow2 (u + 1) == inject_Z (2 ^ 52)) as Hs.
    { rewrite Hval, Htop, pow2_add. change (pow2 1) with 2.
      change (inject_Z (2 ^ 53)) with (2 * inject_Z (2 ^ 52)). field.
      apply pow2_nonzero. }
    rewrite (rne_proper _ _ Hs), rne_Z, Hval, Htop, pow2_add.
    change (pow2 1) with 2.
    change (inject_Z (2 ^ 53)) with (2 * inject_Z (2 ^ 52)). ring.
  - assert (inject_Z m < inject_Z (2 ^ 53)) as Hm3 by (rewrite <-Zlt_Qlt; lia).
    assert (binade (round_pos x) = u + 52)%Z as Hb.
    { apply binade_unique; rewrite Hval.
      - rewrite pow2_add, (pow2_Z 52) by lia. nra.
      - replace (u + 52 + 1)%Z with (u + 53)%Z by lia.
        rewrite pow2_add, (pow2_Z 53) by lia. nra. }
    rewrite (round_pos_eq (round_pos x)). unfold significand. rewrite Hb.
    replace (u + 52 - 52)%Z with u by lia.
    assert (round_pos x / pow2 u == inject_Z m) as Hs
      by (rewrite Hval; field; apply pow2_nonzero).
    by rewrite (rne_proper _ _ Hs), rne_Z.
Qed.

Lemma fl_Q_pos_eq (x : Q) : 0 < x → fl_Q x = round_pos x.
Proof.
  intros Hx. unfold fl_Q. destruct x as [[|p|p] d]; [| done |];
    unfold Qlt in Hx; simpl in Hx; lia.
Qed.

Lemma fl_Q_neg_eq (x : Q) : x < 0 → fl_Q x = - round_pos (- x).
Proof.
  intros Hx. unfold fl_Q. destruct x as [[|p|p] d]; [| | done];
    unfold Qlt in Hx; simpl in Hx; lia.
Qed.

Lemma fl_Q_zero_eq (x : Q) : x == 0 → fl_Q x = 0.
Proof.
  intros Hx. unfold fl_Q. destruct x as [[|p|p] d]; [done | |];
    unfold Qeq in Hx; simpl in Hx; lia.
Qed.

Lemma fl_Q_sign (x : Q) :
  (0 < x ∧ 0 < fl_Q x) ∨ (x == 0 ∧ fl_Q x == 0) ∨ (x < 0 ∧ fl_Q x < 0).
Proof.
  destruct (Q_dec x 0) as [[Hx|Hx]|Hx].
  - right; right. split; [done|]. rewrite fl_Q_neg_eq by done.
    assert (0 < round_pos (- x)) by (apply round_pos_pos; lra). lra.
  - left. split; [done|]. rewrite fl_Q_pos_eq by done. by apply round_pos_pos.
  - right; left. split; [done|]. by rewrite fl_Q_zero_eq.
Qed.

#[global] Instance fl_Q_proper : Proper (Qeq ==> Qeq) fl_Q.
Proof.
  intros x y Hxy. destruct (Q_dec x 0) as [[Hx|Hx]|Hx].
  - rewrite (fl_Q_neg_eq x), (fl_Q_neg_eq y) by lra.
    apply Qopp_comp, round_pos_compat; lra.
  - rewrite (fl_Q_pos_eq x), (fl_Q_pos_eq y) by lra.
    by apply round_pos_compat.
  - rewrite (fl_Q_zero_eq x), (fl_Q_zero_eq y) by lra. reflexivity.
Qed.

Lemma fl_Q_mono (x y : Q) : x <= y → fl_Q x <= fl_Q y.
Proof.
  intros Hxy.
  destruct (fl_Q_sign x) as [[Hx Hfx]|[[Hx Hfx]|[Hx Hfx]]];
    destruct (fl_Q_sign y) as [[Hy Hfy]|[[Hy Hfy]|[Hy Hfy]]];
    try lra.
  - rewrite (fl_Q_pos_eq x), (fl_Q_pos_eq y) by done.
    by apply round_pos_mono.
  - rewrite (fl_Q_neg_eq x), (fl_Q_neg_eq y) by done.
    assert (round_pos (- y) <= round_pos (- x))
      by (apply round_pos_mono; lra).
    lra.
Qed.

Lemma fl_Q_idem (x : Q) : fl_Q (fl_Q x) == fl_Q x.
Proof.
  destruct (fl_Q_sign x) as [[Hx Hfx]|[[Hx Hfx]|[Hx Hfx]]].
  - rewrite (fl_Q_pos_eq (fl_Q x)) by done. rewrite (fl_Q_pos_eq x) by done.
    by apply round_pos_idem.
  - rewrite (fl_Q_zero_eq (fl_Q x)) by done. by symmetry.
  - rewrite (fl_Q_neg_eq (fl_Q x)) by done. rewrite (fl_Q_neg_eq x) by done.
    apply Qopp_comp.
    assert (0 < round_pos (- x)) as Hr by (apply round_pos_pos; lra).
    transitivity (round_pos (round_pos (- x))).
    + apply round_pos_compat; [lra | ring].
    + apply round_pos_idem. lra.
Qed.

Local Close Scope Q_scope.

(** Rounding is monotone, leaves rounded values alone and keeps the sign. *)
Lemma fl_mono (x y : Qc) : (x ≤ y)%Qc → (fl x ≤ fl y)%Qc.
Proof.
  intros Hxy. unfold fl, Qcle. cbn [this Q2Qc]. rewrite !Qred_correct.
  by apply fl_Q_mono.
Qed.

Lemma fl_idem (x : Qc) : fl (fl x) = fl x.
Proof.
  unfold fl. apply Qc_is_canon. cbn [this Q2Qc]. rewrite !Qred_correct.
  apply fl_Q_idem.
Qed.

Lemma fl_0 : fl 0%Qc = 0%Qc.
Proof. by apply Qc_is_canon. Qed.

Lemma fl_pos (x : Qc) : (0 < x)%Qc → (0 < fl x)%Qc.
Proof.
  intros Hx. unfold fl, Qclt in *. cbn [this Q2Qc] in *.
  rewrite !Qred_correct. rewrite Qred_correct in Hx.
  destruct (fl_Q_sign x) as [[_ ?]|[[Hz _]|[Hz _]]]; [done | lra | lra].
Qed.

Lemma fl_nonneg (x : Qc) : (0 ≤ x)%Qc → (0 ≤ fl x)%Qc.
Proof. intros Hx. rewrite <-fl_0. by apply fl_mono. Qed.

Lemma fl_eq_0 (x : Qc) : fl x = 0%Qc ↔ x = 0%Qc.
Proof.
  split; [|intros ->; apply fl_0].
  intros Hfx. apply Qc_is_canon. cbn [this Q2Qc]. rewrite Qred_correct.
  assert (this (fl x) == 0)%Q as Hf by (by rewrite Hfx).
  unfold fl in Hf. cbn [this Q2Qc] in Hf. rewrite Qred_correct in Hf.
  destruct (fl_Q_sign x) as [[_ ?]|[[Hz _]|[_ ?]]]; [lra | done | lra].
Qed.

(** The floats nearest to 0.1 and to 0.05; a tie goes to the even
    significand, 2^53 + 1 down and 2^53 + 3 up; integers below 2^53 are
    floats. *)
Example fl_samples :
  fl (float 1 / float 10)%Qc
    = Q2Qc (3602879701896397 # 36028797018963968) ∧
  five_percent = Q2Qc (3602879701896397 # 72057594037927936) ∧
  py_float 9007199254740993 = float 9007199254740992 ∧
  py_float 9007199254740995 = float 9007199254740996 ∧
  py_float 9007199254740991 = float 9007199254740991 ∧
  py_float 200000000000000001 = float 200000000000000000.
Proof. split_and!; by apply Qc_is_canon. Qed.

(** *** Stable sorting *)

Lemma stable_insert_Permutation {A} (R : relation A) `{!RelDecision R}
    (x : A) (l : list A) : stable_insert R x l ≡ₚ x :: l.
Proof.
  induction l as [|y l IH]; simpl; [done|]. case_decide; [done|].
  by rewrite IH, Permutation_swap.
Qed.

Lemma stable_sort_Permutation {A} (R : relation A) `{!RelDecision R}
    (l : list A) : stable_sort R l ≡ₚ l.
Proof.
  unfold stable_sort. induction l as [|x l IH]; simpl; [done|].
  by rewrite stable_insert_Permutation, IH.
Qed.

Lemma StronglySorted_stable_insert {A} (R : relation A) `{!RelDecision R}
    `{!Transitive R, !Total R} (x : A) (l : list A) :
  StronglySorted R l → StronglySorted R (stable_insert R x l).
Proof.
  induction 1 as [|y l Hl IH Hy]; simpl; [by repeat constructor|].
  case_decide as Hxy.
  - constructor; [by constructor|]. constructor; [done|].
    eapply Forall_impl; [|exact Hy]. simpl. intros z Hz. by etrans.
  - constructor; [done|].
    rewrite stable_insert_Permutation. constructor; [|done].
    by destruct (total R x y).
Qed.

Lemma StronglySorted_stable_sort {A} (R : relation A) `{!RelDecision R}
    `{!Transitive R, !Total R} (l : list A) :
  StronglySorted R (stable_sort R l).
Proof.
  unfold stable_sort. induction l as [|x l IH]; simpl; [constructor|].
  by apply StronglySorted_stable_insert.
Qed.

(** *** Float arithmetic *)

Lemma float_pos (a : Z) : 0 < a → (0 < float a)%Qc.
Proof. intros. unfold float. by rewrite <-Z2Qc_inj_0, <-Z2Qc_inj_lt. Qed.

Lemma float_eq_0 (z : Z) : float z = 0%Qc ↔ z = 0.
Proof. unfold float. by rewrite <-Z2Qc_inj_0, Z2Qc_inj_iff. Qed.

Lemma float_pos_iff (z : Z) : (0 < float z)%Qc ↔ 0 < z.
Proof. unfold float. by rewrite <-Z2Qc_inj_0, <-Z2Qc_inj_lt. Qed.

Lemma float_le (n m : Z) : n ≤ m → (float n ≤ float m)%Qc.
Proof. intros. unfold float. by rewrite <-Z2Qc_inj_le. Qed.

Lemma py_float_pos (z : Z) : 0 < z → (0 < py_float z)%Qc.
Proof. intros. by apply fl_pos, float_pos. Qed.

Lemma py_float_nonneg (z : Z) : 0 ≤ z → (0 ≤ py_float z)%Qc.
Proof.
  intros. apply fl_nonneg. unfold float. by rewrite <-Z2Qc_inj_0, <-Z2Qc_inj_le.
Qed.

Lemma py_float_eq_0 (z : Z) : py_float z = 0%Qc ↔ z = 0.
Proof. unfold py_float. by rewrite fl_eq_0, float_eq_0. Qed.

Lemma fl_pos_iff (x : Qc) : (0 < fl x)%Qc ↔ (0 < x)%Qc.
Proof.
  split; [|apply fl_pos]. intros Hfx.
  apply Qcnot_le_lt. intros Hx. apply (fl_mono x 0) in Hx.
  rewrite fl_0 in Hx. by apply (Qclt_not_le _ _ Hfx).
Qed.

Lemma py_float_pos_iff (z : Z) : (0 < py_float z)%Qc ↔ 0 < z.
Proof. unfold py_float. by rewrite fl_pos_iff, float_pos_iff. Qed.

Lemma fl_1 : fl 1%Qc = 1%Qc.
Proof. by apply Qc_is_canon. Qed.

Lemma fl_100 : fl (float 100) = float 100.
Proof. by apply Qc_is_canon. Qed.

(** [0 + x] is [x] for a float [x]. *)
Lemma fadd_0_l (x : Qc) : fl x = x → fadd 0%Qc x = x.
Proof. intros Hx. unfold fadd. by rewrite Qcplus_0_l. Qed.

(** Adding a non-negative float does not lower a float. *)
Lemma fadd_nonneg_r (x y : Qc) : fl x = x → (0 ≤ y)%Qc → (x ≤ fadd x y)%Qc.
Proof.
  intros Hx Hy. rewrite <-Hx at 1. apply fl_mono.
  rewrite <-(Qcplus_0_r x) at 1. by apply Qcplus_le_mono_l.
Qed.

Lemma percentage_of_mono (a a' b : Qc) :
  (0 < b)%Qc → (a ≤ a')%Qc → (percentage_of a b ≤ percentage_of a' b)%Qc.
Proof.
  intros Hb Ha. unfold percentage_of, fmul, fdiv. apply fl_mono.
  apply Qcmult_le_mono_nonneg_r; [by vm_compute|]. apply fl_mono.
  unfold Qcdiv. apply Qcmult_le_mono_nonneg_r; [|done].
  by apply Qclt_le_weak, Qcinv_pos.
Qed.

Lemma percentage_of_whole (b : Qc) : b ≠ 0%Qc → percentage_of b b = float 100.
Proof.
  intros Hb. unfold percentage_of, fmul, fdiv, Qcdiv.
  rewrite Qcmult_inv_r by done. rewrite fl_1, Qcmult_1_l. apply fl_100.
Qed.

Lemma percentage_of_zero (b : Qc) : percentage_of 0%Qc b = 0%Qc.
Proof.
  unfold percentage_of, fmul, fdiv, Qcdiv.
  by rewrite Qcmult_0_l, fl_0.
Qed.

Lemma percentage_of_pos (a b : Qc) :
  (0 < a)%Qc → (0 < b)%Qc → (0 < percentage_of a b)%Qc.
Proof.
  intros Ha Hb. unfold percentage_of, fmul, fdiv, Qcdiv.
  apply fl_pos, Qcmult_pos_pos; [|by vm_compute].
  apply fl_pos, Qcmult_pos_pos; [done|]. by apply Qcinv_pos.
Qed.

Lemma percentage_of_nonneg (a b : Qc) :
  (0 ≤ a)%Qc → (0 < b)%Qc → (0 ≤ percentage_of a b)%Qc.
Proof.
  intros Ha Hb. rewrite <-(percentage_of_zero b). by apply percentage_of_mono.
Qed.

Lemma percentage_of_le_100 (a b : Qc) :
  (0 < b)%Qc → (a ≤ b)%Qc → (percentage_of a b ≤ float 100)%Qc.
Proof.
  intros Hb Ha. rewrite <-(percentage_of_whole b).
  - by apply percentage_of_mono.
  - intros ->. by apply (irreflexivity Qclt 0%Qc).
Qed.

(** *** Sums of amounts *)

Lemma sum_amounts_app (l k : list holder) :
  sum_amounts (l ++ k) = foldl add_amount (sum_amounts l) k.
Proof. unfold sum_amounts. by rewrite foldl_app. Qed.

Lemma sum_amounts_snoc (l : list holder) (h : holder) :
  sum_amounts (l ++ [h]) = fadd (sum_amounts l) (py_float (amount h)).
Proof. by rewrite sum_amounts_app. Qed.

(** A sum of amounts is a float. *)
Lemma sum_amounts_fl (l : list holder) : fl (sum_amounts l) = sum_amounts l.
Proof.
  induction l as [|h l _] using rev_ind; [apply fl_0|].
  rewrite sum_amounts_snoc. apply fl_idem.
Qed.

Lemma foldl_add_amount_fl (acc : Qc) (k : list holder) :
  fl acc = acc → fl (foldl add_amount acc k) = foldl add_amount acc k.
Proof.
  revert acc. induction k as [|h k IH]; intros acc Hacc; simpl; [done|].
  apply IH, fl_idem.
Qed.

Lemma foldl_add_amount_le (acc : Qc) (k : list holder) :
  fl acc = acc → Forall (λ h, 0 ≤ amount h) k →
  (acc ≤ foldl add_amount acc k)%Qc.
Proof.
  intros Hacc Hk. revert acc Hacc.
  induction Hk as [|h k Hh _ IH]; intros acc Hacc; simpl; [done|].
  etrans; [|apply IH, fl_idem].
  apply fadd_nonneg_r; [done|]. by apply py_float_nonneg.
Qed.

Lemma sum_amounts_app_le (l k : list holder) :
  Forall (λ h, 0 ≤ amount h) k → (sum_amounts l ≤ sum_amounts (l ++ k))%Qc.
Proof.
  intros Hk. rewrite sum_amounts_app.
  apply foldl_add_amount_le; [apply sum_amounts_fl | done].
Qed.

Lemma sum_amounts_nonneg (l : list holder) :
  Forall (λ h, 0 ≤ amount h) l → (0 ≤ sum_amounts l)%Qc.
Proof. intros Hl. by apply (sum_amounts_app_le [] l). Qed.

Lemma sum_amounts_take (n : nat) (l : list holder) :
  Forall (λ h, 0 ≤ amount h) l → (sum_amounts (take n l) ≤ sum_amounts l)%Qc.
Proof.
  intros Hl. rewrite <-(take_drop n l) at 2.
  apply sum_amounts_app_le. by apply Forall_drop.
Qed.

Lemma sum_amounts_take_le (n m : nat) (l : list holder) :
  (n ≤ m)%nat → Forall (λ h, 0 ≤ amount h) l →
  (sum_amounts (take n l) ≤ sum_amounts (take m l))%Qc.
Proof.
  intros Hnm Hl.
  replace (take n l) with (take n (take m l))
    by (rewrite take_take; f_equal; lia).
  apply sum_amounts_take. by apply Forall_take.
Qed.

Lemma sum_amounts_cons_le (h : holder) (l : list holder) :
  Forall (λ h, 0 ≤ amount h) l →
  (py_float (amount h) ≤ sum_amounts (h :: l))%Qc.
Proof.
  intros Hl. change (h :: l) with ([h] ++ l).
  etrans; [|by apply sum_amounts_app_le].
  unfold sum_amounts. cbn [foldl]. rewrite fadd_0_l by apply fl_idem. done.
Qed.

Lemma sum_int_amounts_snoc (l : list holder) (h : holder) :
  sum_int_amounts (l ++ [h]) = sum_int_amounts l + amount h.
Proof. unfold sum_int_amounts. by rewrite foldl_app. Qed.

(** With non-negative amounts the float sum is positive exactly when the
    integer sum is. *)
Lemma sum_amounts_pos (l : list holder) :
  Forall (λ h, 0 ≤ amount h) l →
  0 ≤ sum_int_amounts l ∧ ((0 < sum_amounts l)%Qc ↔ 0 < sum_int_amounts l).
Proof.
  induction l as [|h l IH] using rev_ind; intros Hl.
  - split; [done|]. split; [|by intros ?].
    intros H. by apply (irreflexivity Qclt 0%Qc) in H.
  - apply Forall_app in Hl as [Hl Hh]. apply Forall_inv in Hh.
    destruct (IH Hl) as [Hi Hiff].
    pose proof (sum_amounts_nonneg l Hl) as Hs.
    pose proof (py_float_nonneg _ Hh) as Hp.
    pose proof (py_float_pos_iff (amount h)) as Hpiff.
    rewrite sum_int_amounts_snoc, sum_amounts_snoc. split; [lia|].
    unfold fadd. rewrite fl_pos_iff. split.
    + intros Hsum.
      destruct (decide (0 < sum_int_amounts l)) as [|Hn]; [lia|].
      destruct (decide (0 < amount h)) as [|Hn']; [lia|]. exfalso.
      assert (sum_amounts l = 0%Qc) as Hs0.
      { apply Qcle_antisym; [|done]. apply Qcnot_lt_le. tauto. }
      assert (py_float (amount h) = 0%Qc) as Hp0.
      { apply Qcle_antisym; [|done]. apply Qcnot_lt_le. tauto. }
      rewrite Hs0, Hp0 in Hsum. by apply (irreflexivity Qclt 0%Qc) in Hsum.
    + intros Hsum.
      destruct (decide (0 < amount h)) as [Ha|Ha].
      * apply Qcplus_nonneg_pos; [done | by apply Hpiff].
      * apply Qcplus_pos_nonneg; [|done]. apply Hiff. lia.
Qed.

Lemma sum_amounts_eq_0 (l : list holder) :
  Forall (λ h, 0 ≤ amount h) l →
  sum_amounts l = 0%Qc ↔ sum_int_amounts l = 0.
Proof.
  intros Hl. destruct (sum_amounts_pos l Hl) as [Hi Hiff].
  pose proof (sum_amounts_nonneg l Hl) as Hs. split.
  - intros Hz. rewrite Hz in Hiff.
    destruct (decide (0 < sum_int_amounts l)) as [Hp|]; [|lia].
    apply Hiff in Hp. by apply (irreflexivity Qclt 0%Qc) in Hp.
  - intros Hz. apply Qcle_antisym; [|done].
    apply Qcnot_lt_le. rewrite Hiff. lia.
Qed.


(** ** Risk levels *)

(** C3. For every integer score the risk level is [low] from 85 upwards,
    [medium] from 70 to 84, [high] from 50 to 69 and [critical] up to 49; the
    six boundary scores 85, 84, 70, 69, 50 and 49 fall accordingly. *)
Theorem classify_risk_level_bands (score : Z) :
  ((85 ≤ score)%Z → classify_risk_level score = "low") ∧
  ((70 ≤ score ≤ 84)%Z → classify_risk_level score = "medium") ∧
  ((50 ≤ score ≤ 69)%Z → classify_risk_level score = "high") ∧
  ((score ≤ 49)%Z → classify_risk_level score = "critical") ∧
  classify_risk_level 85 = "low" ∧
  classify_risk_level 84 = "medium" ∧
  classify_risk_level 70 = "medium" ∧
  classify_risk_level 69 = "high" ∧
  classify_risk_level 50 = "high" ∧
  classify_risk_level 49 = "critical".
Proof.
  unfold classify_risk_level.
  repeat split; try reflexivity; intros; repeat case_decide; done || lia.
Qed.

(** ** Chain detection *)

Lemma detect_chain_cases (token_address : string) :
  let n := String.length token_address in
  let p := String.prefix "0x" token_address in
  detect_chain token_address =
    if bool_decide (32 ≤ n ≤ 44)%nat && negb p then "solana"
    else if p && bool_decide (n = 42%nat) then "ethereum"
    else "unknown".
Proof.
  simpl. unfold detect_chain.
  destruct (String.prefix "0x" token_address);
    repeat (case_bool_decide; simpl); try done; lia.
Qed.

Lemma detect_chain_ethereum (token_address : string) :
  String.prefix "0x" token_address = true →
  String.length token_address = 42%nat →
  detect_chain token_address = "ethereum".
Proof.
  intros Hp Hn. rewrite detect_chain_cases, Hp, Hn. reflexivity.
Qed.

Lemma detect_chain_solana (token_address : string) :
  (32 ≤ String.length token_address ≤ 44)%nat →
  String.prefix "0x" token_address = false →
  detect_chain token_address = "solana".
Proof.
  intros Hn Hp. rewrite detect_chain_cases, Hp.
  by rewrite bool_decide_eq_true_2.
Qed.

Lemma detect_chain_unknown (token_address : string) :
  ¬ (String.prefix "0x" token_address = true ∧
     String.length token_address = 42%nat) →
  ¬ ((32 ≤ String.length token_address ≤ 44)%nat ∧
     String.prefix "0x" token_address = false) →
  detect_chain token_address = "unknown".
Proof.
  intros He Hs. rewrite detect_chain_cases.
  destruct (String.prefix "0x" token_address); simpl.
  - rewrite andb_false_r. case_bool_decide; [by destruct He | done].
  - rewrite andb_true_r. case_bool_decide; [by destruct Hs | done].
Qed.

Lemma scan_token_unknown `{SecurityChecks}
    (token_address : string) (more_args : list string) (up : upstream) :
  detect_chain token_address = "unknown" →
  scan_token (token_address :: more_args) up =
    [send_chat_action "typing"; reply_text invalid_address_message].
Proof. intros Hu. unfold scan_token. by rewrite Hu, decide_True. Qed.

(** C7. An address that starts with [0x] and has length 42 is [ethereum]; one
    of length 32 to 44 that does not start with [0x] is [solana]; every other
    address is [unknown], and then the scan answers with the invalid-address
    message only: [analyze_token] is not called. *)
Theorem detect_chain_by_shape (token_address : string) :
  (String.prefix "0x" token_address = true →
   String.length token_address = 42%nat →
   detect_chain token_address = "ethereum") ∧
  ((32 ≤ String.length token_address ≤ 44)%nat →
   String.prefix "0x" token_address = false →
   detect_chain token_address = "solana") ∧
  (¬ (String.prefix "0x" token_address = true ∧
      String.length token_address = 42%nat) →
   ¬ ((32 ≤ String.length token_address ≤ 44)%nat ∧
      String.prefix "0x" token_address = false) →
   detect_chain token_address = "unknown") ∧
  (detect_chain token_address = "unknown" →
   ∀ (checks : SecurityChecks) (more_args : list string) (up : upstream),
     scan_token (token_address :: more_args) up =
       [send_chat_action "typing"; reply_text invalid_address_message] ∧
     ∀ a c, call_analyze_token a c ∉ scan_token (token_address :: more_args) up).
Proof.
  split_and!.
  - apply detect_chain_ethereum.
  - apply detect_chain_solana.
  - apply detect_chain_unknown.
  - intros Hu checks more_args up.
    rewrite (scan_token_unknown _ _ _ Hu). split; [done|].
    intros a c. rewrite !elem_of_cons, elem_of_nil.
    intros [?|[?|[]]]; discriminate.
Qed.

(** ** The security scorer *)

Lemma holder_concentration_checks_score (ha : holder_analysis) (t : tally) :
  (holder_concentration_checks ha t).1 = t.1 - holder_penalty (Some ha).
Proof.
  unfold holder_concentration_checks, holder_penalty,
    dev_penalty, top_10_penalty, bundle_penalty, penalise.
  destruct (bundle_detected ha); repeat case_decide; simpl; lia.
Qed.

(** The unclamped score is 100 minus one penalty per category. *)
Lemma score_holder_analysis_sum `{SecurityChecks}
    (token_address chain : string) (oha : option holder_analysis) :
  security_score (score_holder_analysis token_address chain oha) =
    0 `max` (100
             - verification_penalty (check_contract_verification token_address chain)
             - holder_penalty oha
             - honeypot_penalty (check_honeypot_indicators token_address chain)
             - rug_penalty (check_rug_pull_indicators token_address chain)).
Proof.
  unfold score_holder_analysis, verification_penalty, honeypot_penalty,
    rug_penalty, penalise.
  destruct (check_contract_verification _ _), (check_honeypot_indicators _ _),
    (check_rug_pull_indicators _ _), oha as [ha|]; simpl;
    rewrite ?holder_concentration_checks_score; simpl;
    f_equal; lia.
Qed.

Lemma dev_penalty_range d : dev_penalty d ∈ [0; 25; 40; 60].
Proof. unfold dev_penalty. repeat case_decide; set_solver. Qed.

Lemma top_10_penalty_range p : top_10_penalty p ∈ [0; 15; 30; 50].
Proof. unfold top_10_penalty. repeat case_decide; set_solver. Qed.

Lemma bundle_penalty_range b p : bundle_penalty b p ∈ [0; 10; 25; 40].
Proof. unfold bundle_penalty. destruct b; repeat case_decide; set_solver. Qed.

Lemma holder_penalty_nonneg oha : 0 ≤ holder_penalty oha.
Proof.
  destruct oha as [ha|]; simpl; [|done].
  pose proof (dev_penalty_range (dev_wallet_percentage ha)) as Hd.
  pose proof (top_10_penalty_range (top_10_percentage ha)) as Ht.
  pose proof (bundle_penalty_range (bundle_detected ha) (bundle_percentage ha))
    as Hb.
  rewrite !elem_of_cons, elem_of_nil in Hd, Ht, Hb. lia.
Qed.

(** C8. Whatever the holder services answer and whatever the three static
    checks return, the [security_score] of the returned analysis lies
    between 0 and 100: it is 100 minus penalties that are never negative,
    clamped below at 0. *)
Theorem security_score_range `{SecurityChecks}
    (token_address chain : string) (up : holder_services)
    (oha : option holder_analysis) :
  0 ≤ security_score (get_security_analysis token_address chain up) ≤ 100 ∧
  0 ≤ security_score (score_holder_analysis token_address chain oha) ≤ 100 ∧
  0 ≤ verification_penalty (check_contract_verification token_address chain) ∧
  0 ≤ holder_penalty oha ∧
  0 ≤ honeypot_penalty (check_honeypot_indicators token_address chain) ∧
  0 ≤ rug_penalty (check_rug_pull_indicators token_address chain).
Proof.
  assert (∀ b, 0 ≤ verification_penalty b) as Hv by (by intros []).
  assert (∀ b, 0 ≤ honeypot_penalty b) as Hh by (by intros []).
  assert (∀ b, 0 ≤ rug_penalty b) as Hr by (by intros []).
  assert (∀ o, 0 ≤ security_score (score_holder_analysis token_address chain o)
               ≤ 100) as Hs.
  { intros o. rewrite score_holder_analysis_sum.
    pose proof (holder_penalty_nonneg o).
    pose proof (Hv (check_contract_verification token_address chain)).
    pose proof (Hh (check_honeypot_indicators token_address chain)).
    pose proof (Hr (check_rug_pull_indicators token_address chain)).
    lia. }
  split_and!; [apply Hs | apply Hs | apply Hs | apply Hs
              | apply Hv | apply holder_penalty_nonneg | apply Hh | apply Hr].
Qed.

Ltac qc_order :=
  match goal with
  | Hlt : (?c < ?x)%Qc, Hle : (?x ≤ ?y)%Qc, Hn : ¬ (?c < ?y)%Qc |- _ =>
      destruct Hn; exact (Qclt_le_trans _ _ _ Hlt Hle)
  end.

Lemma dev_penalty_mono (x y : Qc) :
  (x ≤ y)%Qc → dev_penalty x ≤ dev_penalty y.
Proof. intros. unfold dev_penalty. repeat case_decide; lia || qc_order. Qed.

Lemma top_10_penalty_mono (x y : Qc) :
  (x ≤ y)%Qc → top_10_penalty x ≤ top_10_penalty y.
Proof. intros. unfold top_10_penalty. repeat case_decide; lia || qc_order. Qed.

Lemma bundle_penalty_mono (b b' : bool) (x y : Qc) :
  (b = true → b' = true) → (x ≤ y)%Qc →
  bundle_penalty b x ≤ bundle_penalty b' y.
Proof.
  intros Hb ?. unfold bundle_penalty.
  destruct b, b'; try (by specialize (Hb eq_refl));
    repeat case_decide; lia || qc_order.
Qed.

Lemma holder_penalty_mono (a b : option holder_analysis) :
  worse_holders a b → holder_penalty a ≤ holder_penalty b.
Proof.
  destruct a as [ha|], b as [hb|]; simpl; try done.
  intros (Hd & Ht & Hb & Hp).
  pose proof (dev_penalty_mono _ _ Hd).
  pose proof (top_10_penalty_mono _ _ Ht).
  pose proof (bundle_penalty_mono _ _ _ _ Hb Hp).
  lia.
Qed.

Lemma security_score_mono (a b : SecurityChecks)
    (token_address chain : string) (oha ohb : option holder_analysis) :
  worse_checks a b token_address chain →
  worse_holders oha ohb →
  security_score (@score_holder_analysis b token_address chain ohb)
  ≤ security_score (@score_holder_analysis a token_address chain oha).
Proof.
  intros (Hv & Hh & Hr) Hw. rewrite !score_holder_analysis_sum.
  pose proof (holder_penalty_mono _ _ Hw).
  unfold verification_penalty, honeypot_penalty, rug_penalty.
  destruct (@check_contract_verification a _ _),
    (@check_contract_verification b _ _),
    (@check_honeypot_indicators a _ _), (@check_honeypot_indicators b _ _),
    (@check_rug_pull_indicators a _ _), (@check_rug_pull_indicators b _ _);
    try (by specialize (Hv eq_refl)); try (by specialize (Hh eq_refl));
    try (by specialize (Hr eq_refl)); lia.
Qed.

Lemma shipped_score_at_most_80
    (token_address chain : string) (oha : option holder_analysis) :
  security_score (@score_holder_analysis shipped_checks token_address chain oha)
  ≤ 80.
Proof.
  rewrite score_holder_analysis_sum. simpl.
  pose proof (holder_penalty_nonneg oha). lia.
Qed.

(** C2, as amended.  The score never rises when the scorer's inputs get
    worse (each percentage may grow, each flag may turn bad, the others
    staying put or getting worse too).  It is 100 minus one penalty per
    category, each penalty being a single entry of its category's table.
    With checks that report the contract verified, dev-wallet percentages 10,
    25, 35 and 55 score 100, 75, 60 and 40; with the checks as shipped, which
    never report a verified contract, they score 80, 55, 40 and 20, and no
    input scores above 80. *)
Theorem security_score_monotone :
  (∀ (a b : SecurityChecks) token_address chain oha ohb,
     worse_checks a b token_address chain →
     worse_holders oha ohb →
     security_score (@score_holder_analysis b token_address chain ohb)
     ≤ security_score (@score_holder_analysis a token_address chain oha)) ∧
  (∀ (c : SecurityChecks) token_address chain oha,
     security_score (@score_holder_analysis c token_address chain oha) =
       0 `max` (100
         - verification_penalty (check_contract_verification token_address chain)
         - holder_penalty oha
         - honeypot_penalty (check_honeypot_indicators token_address chain)
         - rug_penalty (check_rug_pull_indicators token_address chain))) ∧
  (∀ ha,
     dev_penalty (dev_wallet_percentage ha) ∈ [0; 25; 40; 60] ∧
     top_10_penalty (top_10_percentage ha) ∈ [0; 15; 30; 50] ∧
     bundle_penalty (bundle_detected ha) (bundle_percentage ha)
       ∈ [0; 10; 25; 40]) ∧
  (∀ token_address chain,
     (λ d, security_score
             (@score_holder_analysis verified_checks token_address chain
                (Some (dev_only (float d)))))
       <$> [10; 25; 35; 55] = [100; 75; 60; 40]) ∧
  (∀ token_address chain,
     (λ d, security_score
             (@score_holder_analysis shipped_checks token_address chain
                (Some (dev_only (float d)))))
       <$> [10; 25; 35; 55] = [80; 55; 40; 20]) ∧
  (∀ token_address chain oha,
     security_score
       (@score_holder_analysis shipped_checks token_address chain oha) ≤ 80).
Proof.
  split_and!.
  - apply security_score_mono.
  - intros c. apply score_holder_analysis_sum.
  - intros ha. auto using dev_penalty_range, top_10_penalty_range,
      bundle_penalty_range.
  - reflexivity.
  - reflexivity.
  - apply shipped_score_at_most_80.
Qed.

(** C2, as stated, fails on the analyzer as shipped: a dev wallet holding 10%
    scores 80, not 100. *)
Lemma shipped_score_of_dev_10_is_not_100 :
  security_score
    (@score_holder_analysis shipped_checks "" "solana"
       (Some (dev_only (float 10)))) = 80 ∧
  security_score
    (@score_holder_analysis shipped_checks "" "solana"
       (Some (dev_only (float 10)))) ≠ 100.
Proof. split; [reflexivity | discriminate]. Qed.

(** ** Bundle detection *)

(** C5. A holder list with fewer than 5 entries has no bundle:
    [detect_bundles] returns [(False, 0)]. *)
Theorem detect_bundles_few_holders (holders : list holder) :
  (length holders < 5)%nat → detect_bundles holders = (false, 0%Qc).
Proof. intros Hlen. unfold detect_bundles. by rewrite decide_True. Qed.

Lemma detect_bundles_few_holders_witness :
  (length [Holder 7 "a" "A"; Holder 7 "b" "B"; Holder 7 "c" "C";
           Holder 7 "d" "D"] < 5)%nat ∧
  detect_bundles [Holder 7 "a" "A"; Holder 7 "b" "B"; Holder 7 "c" "C";
                  Holder 7 "d" "D"] = (false, 0%Qc).
Proof.
  split; [simpl; lia | apply detect_bundles_few_holders; simpl; lia].
Defined.

Lemma similar_amount_same (x : Qc) :
  (0 < x)%Qc → similar_amount x x = Some true.
Proof.
  intros Hx. unfold similar_amount, py_div.
  rewrite decide_True by done.
  rewrite decide_False by (intros ->; by apply (irreflexivity Qclt 0%Qc)).
  cbn [mbind option_bind]. f_equal. apply bool_decide_eq_true_2.
  unfold fsub. replace (x - x)%Qc with 0%Qc by ring. rewrite fl_0.
  unfold py_abs. rewrite decide_False by apply (irreflexivity Qclt).
  unfold fdiv, Qcdiv. rewrite Qcmult_0_l, fl_0. by vm_compute.
Qed.

Lemma index_is_Some (h : holder) (holders : list holder) :
  h ∈ holders → ∃ k, index h holders = Some k ∧ (k < length holders)%nat.
Proof.
  induction holders as [|y l IH]; [by rewrite elem_of_nil|].
  rewrite elem_of_cons. intros Hin. simpl. case_decide.
  - exists 0%nat. split; [done | lia].
  - destruct IH as (k & -> & ?); [by destruct Hin as [->|?]|].
    exists (S k). split; [done | lia].
Qed.

(** Marking a bundle whose members are holders never fails and only adds
    indices. *)
Lemma mark_bundle_grows (holders bundle : list holder) (used : gset nat) :
  bundle ⊆ holders →
  ∃ used', mark_bundle holders bundle used = Some used' ∧ used ⊆ used'.
Proof.
  revert used. induction bundle as [|h b IH]; intros used Hsub; simpl.
  - by exists used.
  - destruct (index_is_Some h holders) as (k & -> & _); [set_solver|]. simpl.
    destruct (IH ({[k]} ∪ used)) as (used' & -> & ?); [set_solver|].
    exists used'. split; [done | set_solver].
Qed.

(** The outer loop passes over holders that are all marked. *)
Lemma group_holders_all_used (holders rest : list holder) (i : nat)
    (bundles : list (list holder)) (used : gset nat) :
  (∀ k, (i ≤ k < i + length rest)%nat → k ∈ used) →
  group_holders holders i rest bundles used = Some bundles.
Proof.
  revert i. induction rest as [|h rest IH]; intros i Hused; simpl; [done|].
  rewrite decide_True by (apply Hused; simpl; lia).
  apply IH. intros k ?. apply Hused. simpl. lia.
Qed.

(** One turn of the outer loop. *)
Lemma group_holders_cons (holders : list holder) (i : nat) (holder_i : holder)
    (rest : list holder) (bundles : list (list holder)) (used : gset nat) :
  group_holders holders i (holder_i :: rest) bundles used =
    if decide (i ∈ used) then group_holders holders (S i) rest bundles used
    else
      '(bundle, used1) ←
        collect_similar (py_float (amount holder_i)) (S i) rest [holder_i] used;
      if decide (3 ≤ length bundle)%nat then
        used2 ← mark_bundle holders bundle used1;
        group_holders holders (S i) rest (bundles ++ [bundle]) used2
      else group_holders holders (S i) rest bundles used1.
Proof. reflexivity. Qed.

Ltac not_marked :=
  rewrite ?elem_of_union, ?elem_of_singleton, ?elem_of_empty; lia.

Section five_identical_balances.
Variables (h1 h2 h3 h4 h5 : holder) (a : Z).
Hypothesis same_amount :
  amount h1 = a ∧ amount h2 = a ∧ amount h3 = a ∧ amount h4 = a ∧
  amount h5 = a.
Hypothesis positive : 0 < a.

Let holders := [h1; h2; h3; h4; h5].
Let marked : gset nat :=
  {[4%nat]} ∪ ({[3%nat]} ∪ ({[2%nat]} ∪ ({[1%nat]} ∪ ∅))).

(** The first holder collects the other four. *)
Lemma collect_similar_five :
  collect_similar (py_float (amount h1)) 1 [h2; h3; h4; h5] [h1] ∅
  = Some (holders, marked).
Proof.
  destruct same_amount as (-> & E2 & E3 & E4 & E5).
  unfold collect_similar. rewrite E2, E3, E4, E5.
  pose proof (similar_amount_same _ (py_float_pos _ positive)) as Hsim.
  repeat (rewrite decide_False by not_marked; rewrite Hsim; simpl).
  done.
Qed.

Lemma group_holders_five :
  group_holders holders 0 holders [] ∅ = Some [holders].
Proof.
  unfold holders at 2. rewrite group_holders_cons.
  rewrite decide_False by not_marked.
  rewrite collect_similar_five. cbn [mbind option_bind].
  rewrite decide_True by (simpl; lia).
  destruct (mark_bundle_grows holders holders marked)
    as (used2 & -> & Hsub); [done|].
  cbn [mbind option_bind app].
  apply group_holders_all_used. intros k Hk. apply Hsub.
  simpl in Hk. unfold marked. not_marked.
Qed.

(** The one bundle is summed as the whole list is. *)
Lemma sum_amounts_five_pos : (0 < sum_amounts holders)%Qc.
Proof.
  destruct same_amount as (E1 & E2 & E3 & E4 & E5).
  apply sum_amounts_pos.
  - unfold holders. repeat (constructor; [simpl; lia|]). constructor.
  - unfold holders, sum_int_amounts. simpl. lia.
Qed.

Lemma detect_bundles_five : detect_bundles holders = (true, float 100).
Proof.
  unfold detect_bundles. rewrite decide_False by (simpl; lia).
  rewrite group_holders_five. cbn [foldl]. fold holders.
  rewrite fadd_0_l by apply sum_amounts_fl.
  pose proof sum_amounts_five_pos as Hsum.
  rewrite decide_True by exact Hsum. f_equal.
  apply percentage_of_whole.
  intros Hz. rewrite Hz in Hsum. by apply (irreflexivity Qclt 0%Qc).
Qed.
End five_identical_balances.

(** C6, as amended.  Five holders with one and the same positive balance
    form a single bundle that covers the whole observed supply:
    [detect_bundles] returns [(True, 100.0)].  The first holder collects the
    four others, each within the 5% variance, and no later holder starts a
    group of its own. *)
Theorem detect_bundles_five_identical (h1 h2 h3 h4 h5 : holder) (a : Z) :
  amount h1 = a ∧ amount h2 = a ∧ amount h3 = a ∧ amount h4 = a ∧
  amount h5 = a →
  0 < a →
  detect_bundles [h1; h2; h3; h4; h5] = (true, float 100) ∧
  group_holders [h1; h2; h3; h4; h5] 0 [h1; h2; h3; h4; h5] [] ∅
    = Some [[h1; h2; h3; h4; h5]].
Proof.
  intros Hsame Hpos. split.
  - by apply (detect_bundles_five h1 h2 h3 h4 h5 a).
  - by apply (group_holders_five h1 h2 h3 h4 h5 a).
Qed.

Lemma detect_bundles_five_identical_witness :
  0 < 7 ∧
  detect_bundles [Holder 7 "a" "A"; Holder 7 "b" "B"; Holder 7 "c" "C";
                  Holder 7 "d" "D"; Holder 7 "e" "E"] = (true, float 100).
Proof.
  split; [lia|].
  apply (detect_bundles_five_identical _ _ _ _ _ 7); [by repeat split | lia].
Defined.

(** A holder with amount 0 that meets a later unmarked holder with a
    positive amount divides by zero; the [except] branch discards the bundle
    found before and returns [(False, 0)]. *)
Example detect_bundles_division_by_zero :
  group_holders
    [Holder 5 "a" "A"; Holder 5 "b" "B"; Holder 5 "c" "C"; Holder 0 "d" "D";
     Holder 7 "e" "E"] 0
    [Holder 5 "a" "A"; Holder 5 "b" "B"; Holder 5 "c" "C"; Holder 0 "d" "D";
     Holder 7 "e" "E"] [] ∅ = None ∧
  detect_bundles
    [Holder 5 "a" "A"; Holder 5 "b" "B"; Holder 5 "c" "C"; Holder 0 "d" "D";
     Holder 7 "e" "E"] = (false, 0%Qc).
Proof. split; by vm_compute. Qed.

(** C6, as stated, fails when the common balance is zero: no holder passes
    the test [other_amount > 0], no group forms, the result is [(False, 0)]. *)
Lemma detect_bundles_five_zero_balances :
  detect_bundles [Holder 0 "a" "A"; Holder 0 "b" "B"; Holder 0 "c" "C";
                  Holder 0 "d" "D"; Holder 0 "e" "E"] = (false, 0%Qc) ∧
  detect_bundles [Holder 0 "a" "A"; Holder 0 "b" "B"; Holder 0 "c" "C";
                  Holder 0 "d" "D"; Holder 0 "e" "E"] ≠ (true, float 100).
Proof. split; [by vm_compute | by vm_compute]. Qed.

(** ** Concentration classification *)

Lemma classify_holder_distribution_positive (holders : list holder) :
  holders ≠ [] → (0 < sum_amounts holders)%Qc →
  classify_holder_distribution holders =
    distribution_of_share (top_5_percentage holders).
Proof.
  intros Hne Hpos. unfold classify_holder_distribution.
  destruct holders as [|h l]; [done|].
  rewrite decide_False; [done|].
  intros Hz. rewrite Hz in Hpos. by apply (irreflexivity Qclt 0%Qc).
Qed.

Lemma Qc_lt_le_absurd (x y : Qc) : (x < y)%Qc → (y ≤ x)%Qc → False.
Proof. intros Hlt Hle. exact (Qclt_not_le _ _ Hlt Hle). Qed.

(** Closes a goal whose hypotheses place a share on both sides of a
    threshold, or above a larger and below a smaller one. *)
Ltac qc_absurd :=
  exfalso;
  match goal with
  | Hn : ¬ ?P, Hy : ?P |- _ => exact (Hn Hy)
  | Hlt : (?c < ?s)%Qc, Hle : (?s ≤ ?d)%Qc |- _ =>
      apply (Qc_lt_le_absurd c d);
        [exact (Qclt_le_trans _ _ _ Hlt Hle) | by vm_compute]
  end.

Lemma distribution_of_share_bands (share : Qc) :
  ((float 80 < share)%Qc →
   distribution_of_share share = "highly_concentrated") ∧
  ((float 50 < share)%Qc → (share ≤ float 80)%Qc →
   distribution_of_share share = "concentrated") ∧
  ((float 20 < share)%Qc → (share ≤ float 50)%Qc →
   distribution_of_share share = "moderate") ∧
  ((share ≤ float 20)%Qc → distribution_of_share share = "distributed").
Proof.
  unfold distribution_of_share.
  split_and!; intros; repeat case_decide; try done; qc_absurd.
Qed.

(** In a list ordered by amount, largest first, the first five entries are
    the five largest holders. *)
Lemma sorted_first_five_largest (holders : list holder) :
  StronglySorted amount_ge holders →
  ∀ h h', h ∈ take 5 holders → h' ∈ drop 5 holders → amount h' ≤ amount h.
Proof.
  intros Hsorted h h' Hh Hh'.
  rewrite <-(take_drop 5 holders) in Hsorted.
  apply list_elem_of_lookup in Hh as [i Hi].
  apply list_elem_of_lookup in Hh' as [k Hk].
  generalize (take 5 holders) (drop 5 holders) Hsorted i Hi Hk.
  clear. intros l. induction l as [|x l IH]; intros r Hs i Hi Hk; [done|].
  rewrite <-app_comm_cons in Hs. apply StronglySorted_cons in Hs as [Hall Hs].
  destruct i as [|i]; [|by apply (IH r Hs i)].
  injection Hi as ->. rewrite Forall_lookup in Hall.
  apply (Hall (length l + k)%nat h').
  by rewrite lookup_app_r, Nat.add_comm, Nat.add_sub by lia.
Qed.

(** C4, as amended.  For a non-empty holder list with positive observed
    supply the classification follows the share of the first five entries of
    the list, as computed in floating point, every bound being strict: above
    80 [highly_concentrated], above 50 (up to 80) [concentrated], above 20 (up
    to 50) [moderate], else [distributed].  A computed share of exactly 81 is
    [highly_concentrated]; exactly 50 is [moderate].  The first five entries
    are the five largest holders when the list is ordered by amount, largest
    first; the function does not order it. *)
Theorem classify_holder_distribution_thresholds (holders : list holder) :
  holders ≠ [] → (0 < sum_amounts holders)%Qc →
  let share :=
    fmul (fdiv (sum_amounts (take 5 holders)) (sum_amounts holders))
      (float 100) in
  ((float 80 < share)%Qc →
   classify_holder_distribution holders = "highly_concentrated") ∧
  ((float 50 < share)%Qc → (share ≤ float 80)%Qc →
   classify_holder_distribution holders = "concentrated") ∧
  ((float 20 < share)%Qc → (share ≤ float 50)%Qc →
   classify_holder_distribution holders = "moderate") ∧
  ((share ≤ float 20)%Qc →
   classify_holder_distribution holders = "distributed") ∧
  (share = float 81 →
   classify_holder_distribution holders = "highly_concentrated") ∧
  (share = float 50 →
   classify_holder_distribution holders = "moderate") ∧
  (StronglySorted amount_ge holders →
   ∀ h h', h ∈ take 5 holders → h' ∈ drop 5 holders → amount h' ≤ amount h).
Proof.
  intros Hne Hpos share.
  rewrite (classify_holder_distribution_positive _ Hne Hpos).
  change (top_5_percentage holders) with share.
  destruct (distribution_of_share_bands share) as (Hh & Hc & Hm & Hd).
  split_and!; try assumption.
  - intros ->. reflexivity.
  - intros ->. reflexivity.
  - apply sorted_first_five_largest.
Qed.

(** Seven holders in descending order, the first five holding 81 of 100
    units; and ten holders of 10 units each, the first five holding 50. *)
Lemma classify_holder_distribution_thresholds_witness :
  classify_holder_distribution
    [Holder 17 "a" "A"; Holder 16 "b" "B"; Holder 16 "c" "C";
     Holder 16 "d" "D"; Holder 16 "e" "E"; Holder 10 "f" "F";
     Holder 9 "g" "G"]
    = "highly_concentrated" ∧
  classify_holder_distribution (replicate 10 (Holder 10 "a" "A"))
    = "moderate".
Proof.
  split.
  - apply classify_holder_distribution_thresholds;
      [done | by vm_compute | by apply Qc_is_canon].
  - apply classify_holder_distribution_thresholds;
      [done | by vm_compute | by apply Qc_is_canon].
Defined.

(** C4, as stated, fails on a list that is not ordered: the five largest of
    these six holders own 90% of the supply, which is above 80, but the
    first five own 50% and the list is classified [moderate]; ordered, the
    same holders are [highly_concentrated]. *)
Lemma classify_holder_distribution_unsorted :
  let holders :=
    [Holder 10 "a" "A"; Holder 10 "b" "B"; Holder 10 "c" "C";
     Holder 10 "d" "D"; Holder 10 "e" "E"; Holder 50 "f" "F"] in
  classify_holder_distribution holders = "moderate" ∧
  top_5_percentage holders = float 50 ∧
  top_5_percentage (stable_sort amount_ge holders) = float 90 ∧
  classify_holder_distribution (stable_sort amount_ge holders)
    = "highly_concentrated".
Proof.
  split_and!; [by vm_compute | by apply Qc_is_canon | by apply Qc_is_canon
              | by vm_compute].
Qed.

(** The share that decides is the computed one.  Here the first holder owns
    a little more than 20% of the supply; both amounts are rounded when they
    are converted, the computed share is exactly 20, and the list is
    [distributed]. *)
Example classify_holder_distribution_rounded_share :
  let holders :=
    [Holder 200000000000000001 "a" "A"; Holder 0 "b" "B"; Holder 0 "c" "C";
     Holder 0 "d" "D"; Holder 0 "e" "E"; Holder 799999999999999999 "f" "F"] in
  (float 20 < float (sum_int_amounts (take 5 holders))
              / float (sum_int_amounts holders) * float 100)%Qc ∧
  top_5_percentage holders = float 20 ∧
  classify_holder_distribution holders = "distributed".
Proof.
  split_and!; [by vm_compute | by apply Qc_is_canon | by vm_compute].
Qed.

(** ** The Solana holder analysis *)

Lemma sum_int_amounts_from (acc : Z) (hs : list holder) :
  foldl (λ acc h, acc + amount h) acc hs = acc + sum_int_amounts hs.
Proof.
  unfold sum_int_amounts. revert acc.
  induction hs as [|h hs IH]; intros acc; simpl; [lia|].
  rewrite IH, (IH (0 + amount h)). lia.
Qed.

Lemma sum_int_amounts_cons (h : holder) (hs : list holder) :
  sum_int_amounts (h :: hs) = amount h + sum_int_amounts hs.
Proof. unfold sum_int_amounts at 1. simpl. apply sum_int_amounts_from. Qed.

Lemma collect_accounts_from (hs : list holder) (ts : Z)
    (token_accounts : list (option holder)) :
  foldl (λ '(holders, total_supply) account,
           match account with
           | Some a =>
               if decide (amount a ≠ 0 ∧ 0 < amount a)
               then (holders ++ [a], total_supply + amount a)
               else (holders, total_supply)
           | None => (holders, total_supply)
           end)
        (hs, ts) token_accounts
  = (hs ++ positive_accounts token_accounts,
     ts + sum_int_amounts (positive_accounts token_accounts)).
Proof.
  revert hs ts.
  induction token_accounts as [|[a|] l IH]; intros hs ts; simpl.
  - by rewrite app_nil_r, Z.add_0_r.
  - case_decide as Hpos; case_decide as Hpos'; try lia.
    + rewrite IH, sum_int_amounts_cons.
      f_equal; [by rewrite <-app_assoc | lia].
    + apply IH.
  - apply IH.
Qed.

Lemma collect_accounts_positive (token_accounts : list (option holder)) :
  collect_accounts token_accounts =
    (positive_accounts token_accounts,
     sum_int_amounts (positive_accounts token_accounts)).
Proof. unfold collect_accounts. by rewrite collect_accounts_from. Qed.

#[global] Instance amount_ge_trans : Transitive amount_ge.
Proof. unfold amount_ge. intros x y z ??. lia. Qed.

#[global] Instance amount_ge_total : Total amount_ge.
Proof. unfold amount_ge. intros x y. lia. Qed.

(** What a successful call of [get_holder_distribution_from_helius] was
    given and what each field of its result holds. *)
Lemma get_holder_distribution_from_helius_Some
    (r : reply helius_body) (ha : holder_analysis) :
  get_holder_distribution_from_helius r = Some ha →
  ∃ resp token_accounts,
    r = Some resp ∧ status_code resp = 200 ∧ json resp = Some token_accounts ∧
    positive_accounts token_accounts ≠ [] ∧
    let holders := stable_sort amount_ge (positive_accounts token_accounts) in
    let supply := sum_int_amounts (positive_accounts token_accounts) in
    total_holders ha = length holders ∧
    total_supply ha = Some supply ∧
    top_10_percentage ha = share_of (sum_int_amounts (take 10 holders)) supply ∧
    bundle_detected ha = bool_decide (float 50 < top_10_percentage ha)%Qc ∧
    bundle_percentage ha =
      (if decide (float 50 < top_10_percentage ha)%Qc
       then top_10_percentage ha else 0%Qc) ∧
    top_10_holders ha = Some (entry_of supply <$> take 10 holders).
Proof.
  unfold get_holder_distribution_from_helius.
  destruct r as [[code body]|]; [|done]. 
  cbn [mbind option_bind status_code json].
  case_decide as Hstatus; [|done].
  destruct body as [token_accounts|]; [|done]. cbn [mbind option_bind].
  rewrite collect_accounts_positive.
  destruct (positive_accounts token_accounts) as [|h0 hs] eqn:Hpos; [done|].
  intros [= <-]. eexists _, token_accounts. rewrite Hpos.
  split_and!; done || reflexivity.
Qed.

Lemma get_holder_analysis_solana_Some (up : holder_services)
    (ha : holder_analysis) :
  get_holder_analysis "solana" up = Some ha →
  get_holder_distribution_from_helius (helius up) = Some ha.
Proof.
  unfold get_holder_analysis. rewrite decide_True by done.
  unfold analyze_solana_holders, get_solana_holders_from_helius.
  destruct (get_holder_distribution_from_helius (helius up)) as [hd|];
    [|done].
  by case_decide; intros [= ->].
Qed.



(** The percentage that decides is the computed one.  Of 10^18 units the ten
    largest holders own half and one unit more; the quotient rounds to 0.5,
    the percentage is 50.0, and no bundle is reported. *)
Example solana_bundle_rounded_share :
  ∃ ha entries supply,
    get_holder_analysis "solana" half_plus_one = Some ha ∧
    top_10_holders ha = Some entries ∧ total_supply ha = Some supply ∧
    2 * sum_balances entries = supply + 2 ∧
    top_10_percentage ha = float 50 ∧
    bundle_detected ha = false ∧ bundle_percentage ha = 0%Qc ∧
    security_score
      (@get_security_analysis shipped_checks "" "solana" half_plus_one) = 65.
Proof.
  eexists _, _, _.
  split_and!; [reflexivity | reflexivity | reflexivity | by vm_compute
              | by apply Qc_is_canon | by vm_compute | by vm_compute
              | by vm_compute].
Qed.

(** ** The top-10 list of a report *)

Lemma StronglySorted_take {A} (R : relation A) (n : nat) (l : list A) :
  StronglySorted R l → StronglySorted R (take n l).
Proof.
  intros Hs. rewrite <-(take_drop n l) in Hs.
  by apply StronglySorted_app_1_l in Hs.
Qed.

Lemma top_10_entries_sorted (supply : Z) (holders0 : list holder) :
  StronglySorted balance_ge
    (entry_of supply <$> take 10 (stable_sort amount_ge holders0)).
Proof.
  apply (StronglySorted_fmap _ amount_ge balance_ge).
  - by intros x y Hxy.
  - apply StronglySorted_take, StronglySorted_stable_sort; apply _.
Qed.

(** The head of the sorted list dominates every collected account. *)
Lemma stable_sort_head_largest (holders0 : list holder) (first : holder) :
  stable_sort amount_ge holders0 !! 0%nat = Some first →
  ∀ h, h ∈ holders0 → amount h ≤ amount first.
Proof.
  intros Hhead h Hin.
  pose proof (StronglySorted_stable_sort amount_ge holders0) as Hs.
  rewrite <-(stable_sort_Permutation amount_ge) in Hin.
  destruct (stable_sort amount_ge holders0) as [|x l];
    [by apply elem_of_nil in Hin|].
  injection Hhead as ->. apply StronglySorted_cons in Hs as [Hall _].
  apply elem_of_cons in Hin as [->|Hin]; [done|].
  rewrite Forall_lookup in Hall.
  apply list_elem_of_lookup in Hin as [k Hk]. exact (Hall k h Hk).
Qed.

Lemma process_holder_data_top_10 (holders : list holder) :
  top_10_holders (process_holder_data holders) = None.
Proof.
  unfold process_holder_data. destruct holders as [|h l]; [done|].
  case_decide; [done|]. by destruct (detect_bundles (h :: l)).
Qed.

Lemma moralis_top_10 (r : reply moralis_body) :
  top_10_holders (get_ethereum_holders_from_moralis r) = None ∧
  top_10_holders (get_bsc_holders_from_moralis r) = None.
Proof.
  unfold get_ethereum_holders_from_moralis, get_bsc_holders_from_moralis.
  destruct r as [[code body]|]; [|done]. cbn [status_code json].
  case_decide; [|done].
  destruct body; [done|]. split; apply process_holder_data_top_10.
Qed.

Lemma analyze_token_Some `{SecurityChecks}
    (token_address chain : string) (up : upstream) (report : token_report) :
  analyze_token token_address chain up = Some report →
  ∃ bd ha,
    get_basic_token_data token_address chain (dexscreener_basic up) = Some bd ∧
    get_holder_analysis chain (holders_for_report up) = Some ha ∧
    report =
      {| basic_data := bd;
         dex_pricing := get_dex_pricing_info (dexscreener_pricing up);
         report_holder_analysis := ha;
         report_security_analysis :=
           get_security_analysis token_address chain (holders_for_scorer up);
         analysis_timestamp := clock up |}.
Proof.
  unfold analyze_token.
  destruct (get_basic_token_data _ _ _) as [bd|]; [|done].
  destruct (get_holder_analysis _ _) as [ha|]; [|done].
  intros [= <-]. by exists bd, ha.
Qed.

(** C9, as amended.  A report for a Solana token carries a [top_10_holders]
    list: the accounts of the Helius reply with a positive amount, largest
    balance first, cut after ten; it has [min 10 total_holders] entries, so
    exactly 10 when the reply lists at least 10 such accounts, and the balance
    of its first entry is the largest of them all.  A report for [ethereum] or
    [bsc] has no [top_10_holders] key. *)
Theorem report_top_10_holders `{SecurityChecks}
    (token_address chain : string) (up : upstream) (report : token_report) :
  analyze_token token_address chain up = Some report →
  let ha := report_holder_analysis report in
  (chain = "solana" →
   ∃ entries resp token_accounts,
     top_10_holders ha = Some entries ∧
     helius (holders_for_report up) = Some resp ∧
     json resp = Some token_accounts ∧
     total_holders ha = length (positive_accounts token_accounts) ∧
     (length entries ≤ 10)%nat ∧
     length entries = (10 `min` total_holders ha)%nat ∧
     ((10 ≤ total_holders ha)%nat → length entries = 10%nat) ∧
     StronglySorted balance_ge entries ∧
     (∀ first, entries !! 0%nat = Some first →
        ∀ a, a ∈ positive_accounts token_accounts →
             amount a ≤ balance first)) ∧
  (chain = "ethereum" ∨ chain = "bsc" → top_10_holders ha = None).
Proof.
  intros Hreport ha.
  apply analyze_token_Some in Hreport as (bd & ha' & _ & Hha & ->).
  simpl in ha. subst ha. split.
  - intros ->.
    apply get_holder_analysis_solana_Some,
      get_holder_distribution_from_helius_Some in Hha
      as (resp & accts & Hr & _ & Hj & _ & Hn & _ & _ & _ & _ & Hent).
    cbv zeta in Hn, Hent.
    assert (total_holders ha' = length (positive_accounts accts)) as Hn'
      by (by rewrite Hn, (stable_sort_Permutation amount_ge)).
    assert (length (entry_of (sum_int_amounts (positive_accounts accts)) <$>
                      take 10 (stable_sort amount_ge (positive_accounts accts)))
            = (10 `min` total_holders ha')%nat) as Hlen
      by (by rewrite length_fmap, length_take, Hn).
    eexists _, resp, accts.
    split_and!; [exact Hent | exact Hr | exact Hj | exact Hn' | lia | exact Hlen
                | lia | apply top_10_entries_sorted |].
    intros first Hfirst a Ha.
    rewrite list_lookup_fmap, lookup_take_lt in Hfirst by lia.
    destruct (stable_sort amount_ge (positive_accounts accts) !! 0%nat)
      as [h|] eqn:Hh; [|done].
    injection Hfirst as <-. simpl.
    by apply (stable_sort_head_largest _ _ Hh).
  - unfold get_holder_analysis in Hha.
    intros [-> | ->]; simpl in Hha; injection Hha as <-; apply moralis_top_10.
Qed.

(** *** A Solana scan with twelve holders and an Ethereum scan *)

Lemma report_top_10_holders_witness :
  ∃ report,
    @analyze_token shipped_checks solana_address "solana" solana_upstream
      = Some report ∧
    ∃ entries resp token_accounts,
      top_10_holders (report_holder_analysis report) = Some entries ∧
      helius (holders_for_report solana_upstream) = Some resp ∧
      json resp = Some token_accounts ∧
      total_holders (report_holder_analysis report)
        = length (positive_accounts token_accounts) ∧
      (length entries ≤ 10)%nat ∧
      length entries
        = (10 `min` total_holders (report_holder_analysis report))%nat ∧
      ((10 ≤ total_holders (report_holder_analysis report))%nat →
       length entries = 10%nat) ∧
      StronglySorted balance_ge entries ∧
      (∀ first, entries !! 0%nat = Some first →
         ∀ a, a ∈ positive_accounts token_accounts →
              amount a ≤ balance first).
Proof.
  eexists. split; [reflexivity|].
  apply (@report_top_10_holders shipped_checks solana_address "solana"
           solana_upstream _ eq_refl).
  reflexivity.
Defined.

(** The twelve-holder Solana report: ten entries, largest first, the dev
    wallet at 40%. *)
Example solana_report_top_10 :
  ∃ report entries,
    @analyze_token shipped_checks solana_address "solana" solana_upstream
      = Some report ∧
    top_10_holders (report_holder_analysis report) = Some entries ∧
    balance <$> entries = [40; 10; 9; 8; 7; 6; 5; 4; 4; 3] ∧
    total_holders (report_holder_analysis report) = 12%nat ∧
    dev_wallet_percentage (report_holder_analysis report) = float 40.
Proof.
  eexists _, _. split_and!; [reflexivity | reflexivity | by vm_compute
                            | by vm_compute | by apply Qc_is_canon].
Qed.

(** C9, as stated, fails for an Ethereum token: the report of a scan that
    fetched twelve holders has no [top_10_holders] at all. *)
Lemma ethereum_report_has_no_top_10 :
  ∃ report,
    @analyze_token shipped_checks ethereum_address "ethereum" ethereum_upstream
      = Some report ∧
    total_holders (report_holder_analysis report) = 12%nat ∧
    top_10_holders (report_holder_analysis report) = None ∧
    ¬ ∃ entries,
        top_10_holders (report_holder_analysis report) = Some entries ∧
        length entries = 10%nat.
Proof.
  eexists. split_and!; [reflexivity | by vm_compute | by vm_compute |].
  intros (entries & Hent & _). by vm_compute in Hent.
Qed.

(** ** Failure modes of the aggregator *)

Lemma get_basic_token_data_None (token_address chain : string)
    (r : reply dexscreener_body) :
  get_basic_token_data token_address chain r = None ↔ no_pairs r.
Proof.
  unfold get_basic_token_data, no_pairs.
  destruct r as [[code body]|]; [|done].
  cbn [mbind option_bind status_code json].
  case_decide; [|by intuition].
  destruct body; [by intuition|].
  split; [done | by intros [?|?]].
Qed.

Lemma get_holder_distribution_from_helius_None (r : reply helius_body) :
  helius_unavailable r → get_holder_distribution_from_helius r = None.
Proof.
  unfold get_holder_distribution_from_helius, helius_unavailable.
  destruct r as [[code body]|]; [|done].
  cbn [mbind option_bind status_code json].
  case_decide; [|done]. intros [?|Hbody]; [done|].
  destruct body as [token_accounts|]; [|done]. cbn [mbind option_bind].
  by rewrite collect_accounts_positive, Hbody.
Qed.

Lemma get_holder_analysis_solana_None (up : holder_services) :
  helius_unavailable (helius up) → get_holder_analysis "solana" up = None.
Proof.
  intros Hun. unfold get_holder_analysis. rewrite decide_True by done.
  unfold analyze_solana_holders, get_solana_holders_from_helius.
  by rewrite get_holder_distribution_from_helius_None.
Qed.

Lemma moralis_unavailable_default (r : reply moralis_body) :
  moralis_unavailable r →
  get_ethereum_holders_from_moralis r = get_default_holder_analysis ∧
  get_bsc_holders_from_moralis r = get_default_holder_analysis.
Proof.
  unfold get_ethereum_holders_from_moralis, get_bsc_holders_from_moralis,
    moralis_unavailable.
  destruct r as [[code body]|]; [|done]. cbn [status_code json].
  case_decide; [|done]. by intros [?| ->].
Qed.

(** C1.  Without market data [analyze_token] fails, whatever the chain.
    When the holder fetch is unavailable, a Solana analysis fails, while an
    Ethereum or BSC analysis (market data being there) returns a report
    whose holder section is the default one: no holders, every percentage 0,
    distribution [unknown].  Every report that is returned carries the holder
    analysis that was fetched and the security analysis of the scorer. *)
Theorem analyze_token_failure_modes `{SecurityChecks}
    (token_address chain : string) (up : upstream) :
  (no_pairs (dexscreener_basic up) →
   analyze_token token_address chain up = None) ∧
  (chain = "solana" →
   helius_unavailable (helius (holders_for_report up)) →
   analyze_token token_address chain up = None) ∧
  (¬ no_pairs (dexscreener_basic up) →
   (chain = "ethereum" ∧
    moralis_unavailable (moralis_eth (holders_for_report up))) ∨
   (chain = "bsc" ∧
    moralis_unavailable (moralis_bsc (holders_for_report up))) →
   ∃ report,
     analyze_token token_address chain up = Some report ∧
     report_holder_analysis report = get_default_holder_analysis ∧
     total_holders (report_holder_analysis report) = 0%nat ∧
     holder_distribution (report_holder_analysis report) = "unknown" ∧
     report_security_analysis report =
       get_security_analysis token_address chain (holders_for_scorer up)) ∧
  (∀ report,
     analyze_token token_address chain up = Some report →
     ∃ ha,
       get_holder_analysis chain (holders_for_report up) = Some ha ∧
       report_holder_analysis report = ha ∧
       report_security_analysis report =
         get_security_analysis token_address chain (holders_for_scorer up)).
Proof.
  split_and!.
  - intros Hno. unfold analyze_token.
    apply (get_basic_token_data_None token_address chain) in Hno.
    by rewrite Hno.
  - intros -> Hun. unfold analyze_token.
    rewrite (get_holder_analysis_solana_None _ Hun).
    by destruct (get_basic_token_data _ _ _).
  - intros Hpairs Hun. unfold analyze_token.
    destruct (get_basic_token_data token_address chain (dexscreener_basic up))
      as [bd|] eqn:Hbd;
      [|by apply get_basic_token_data_None in Hbd].
    destruct Hun as [[-> Hun] | [-> Hun]];
      apply moralis_unavailable_default in Hun as [Heth Hbsc];
      unfold get_holder_analysis; simpl;
      unfold analyze_ethereum_holders, analyze_bsc_holders;
      rewrite ?Heth, ?Hbsc; by eexists.
  - intros report Hreport.
    apply analyze_token_Some in Hreport as (bd & ha & _ & Hha & ->).
    by exists ha.
Qed.

(** The three outcomes on concrete replies: no pairs; Helius down on Solana;
    Moralis down on Ethereum. *)
Example analyze_token_outcomes :
  @analyze_token shipped_checks solana_address "solana"
    {| dexscreener_basic := Some (Response 200 []);
       dexscreener_pricing := one_pair;
       holders_for_report := solana_services;
       holders_for_scorer := solana_services;
       clock := 0 |} = None ∧
  @analyze_token shipped_checks solana_address "solana"
    {| dexscreener_basic := one_pair;
       dexscreener_pricing := one_pair;
       holders_for_report := HolderServices None None None;
       holders_for_scorer := solana_services;
       clock := 0 |} = None ∧
  report_holder_analysis <$>
    @analyze_token shipped_checks ethereum_address "ethereum"
      {| dexscreener_basic := one_pair;
         dexscreener_pricing := one_pair;
         holders_for_report := HolderServices None None None;
         holders_for_scorer := ethereum_services;
         clock := 0 |} = Some get_default_holder_analysis.
Proof. split_and!; reflexivity. Qed.

(** * Further properties of the analyzer *)

(** ** The scorer: risk level, warnings, shipped checks *)

Lemma classify_risk_level_clamp (t : Z) :
  classify_risk_level (0 `max` t) = classify_risk_level t.
Proof. unfold classify_risk_level. repeat case_decide; done || lia. Qed.

Lemma risk_level_score_holder_analysis `{SecurityChecks}
    (token_address chain : string) (oha : option holder_analysis) :
  risk_level (score_holder_analysis token_address chain oha) =
    classify_risk_level
      (security_score (score_holder_analysis token_address chain oha)).
Proof.
  unfold score_holder_analysis.
  cbn [risk_level security_score]. by rewrite classify_risk_level_clamp.
Qed.

(** X1. The risk level is computed from the score before it is clamped at 0,
    and still it is the level of the score that is returned: clamping never
    changes the band. *)
Theorem risk_level_matches_returned_score `{SecurityChecks}
    (token_address chain : string) (up : holder_services)
    (oha : option holder_analysis) :
  risk_level (score_holder_analysis token_address chain oha) =
    classify_risk_level
      (security_score (score_holder_analysis token_address chain oha)) ∧
  risk_level (get_security_analysis token_address chain up) =
    classify_risk_level
      (security_score (get_security_analysis token_address chain up)).
Proof. split; apply risk_level_score_holder_analysis. Qed.

(** A tally that has lost points has a warning for it, and conversely. *)
Definition tally_consistent (t : tally) : Prop :=
  t.1 ≤ 100 ∧ (t.1 = 100 ↔ t.2 = []) ∧ (100 - t.1 ≤ 60 * Z.of_nat (length t.2)).

Lemma penalise_consistent (t : tally) (points : Z) (warning : string) :
  0 < points ≤ 60 → tally_consistent t →
  tally_consistent (penalise t points warning).
Proof.
  intros Hp (Hle & Hiff & Hlen). unfold tally_consistent, penalise.
  cbn [fst snd]. rewrite length_app. cbn [length].
  split_and!; [lia | | lia].
  split; [lia|]. intros Hnil. by apply app_eq_nil in Hnil as [_ ?].
Qed.

Lemma holder_concentration_checks_consistent (ha : holder_analysis)
    (t : tally) :
  tally_consistent t → tally_consistent (holder_concentration_checks ha t).
Proof.
  intros Ht. unfold holder_concentration_checks.
  destruct (bundle_detected ha); repeat case_decide;
    repeat (apply penalise_consistent; [lia|]); exact Ht.
Qed.

Lemma holder_concentration_checks_warnings (ha : holder_analysis)
    (t : tally) :
  (length (holder_concentration_checks ha t).2 ≤ length t.2 + 3)%nat.
Proof.
  unfold holder_concentration_checks, penalise.
  destruct (bundle_detected ha); repeat case_decide;
    cbn [fst snd]; rewrite ?length_app; cbn [length]; lia.
Qed.

Lemma score_holder_analysis_consistent `{SecurityChecks}
    (token_address chain : string) (oha : option holder_analysis) :
  ∃ t : tally,
    tally_consistent t ∧
    security_score (score_holder_analysis token_address chain oha)
      = 0 `max` t.1 ∧
    warnings (score_holder_analysis token_address chain oha) = t.2.
Proof.
  unfold score_holder_analysis. cbn [security_score warnings].
  eexists. split; [|split; reflexivity].
  assert (tally_consistent (100, [])) as H0 by (by split_and!).
  destruct (check_contract_verification _ _), (check_honeypot_indicators _ _),
    (check_rug_pull_indicators _ _), oha as [ha|]; cbn [negb];
    repeat (apply penalise_consistent; [lia|]);
    try apply holder_concentration_checks_consistent;
    repeat (apply penalise_consistent; [lia|]); exact H0.
Qed.

(** X2. The warnings account for the score: the list is empty exactly when
    the score is 100, every warning stands for a loss of at most 60 points,
    and there are at most six of them. *)
Theorem warnings_account_for_score `{SecurityChecks}
    (token_address chain : string) (oha : option holder_analysis) :
  let sa := score_holder_analysis token_address chain oha in
  (warnings sa = [] ↔ security_score sa = 100) ∧
  100 - security_score sa ≤ 60 * Z.of_nat (length (warnings sa)) ∧
  (length (warnings sa) ≤ 6)%nat.
Proof.
  intros sa. subst sa.
  destruct (score_holder_analysis_consistent token_address chain oha)
    as (t & (Hle & Hiff & Hlen) & -> & Hw).
  split_and!.
  - rewrite Hw, <-Hiff. lia.
  - rewrite Hw. lia.
  - clear. unfold score_holder_analysis. cbn [warnings].
    set (t1 := if negb _ then _ else _).
    assert (length t1.2 ≤ 1)%nat as H1
      by (subst t1; destruct (negb _); cbn; lia).
    clearbody t1.
    set (t2 := match oha with Some ha => _ | None => _ end).
    assert (length t2.2 ≤ 4)%nat as H2.
    { subst t2. destruct oha as [ha|]; [|lia].
      pose proof (holder_concentration_checks_warnings ha t1). lia. }
    clearbody t2.
    destruct (check_honeypot_indicators _ _), (check_rug_pull_indicators _ _);
      unfold penalise; cbn [fst snd]; rewrite ?length_app; cbn [length]; lia.
Qed.

(** X3. With the three checks as shipped no token is rated [low]: the
    contract counts as unverified, the first warning says so, the score is at
    most 80 and the level is [medium], [high] or [critical]; the honeypot and
    rug flags are never raised. *)
Theorem shipped_analysis_is_never_low
    (token_address chain : string) (up : holder_services) :
  let sa := @get_security_analysis shipped_checks token_address chain up in
  security_score sa ≤ 80 ∧
  risk_level sa ∈ ["medium"; "high"; "critical"] ∧
  is_verified sa = false ∧ is_honeypot sa = false ∧
  rug_indicators sa = false ∧
  warnings sa !! 0%nat = Some "Contract not verified".
Proof.
  intros sa. subst sa. unfold get_security_analysis.
  set (oha := get_holder_analysis chain up). clearbody oha.
  pose proof (shipped_score_at_most_80 token_address chain oha) as H80.
  rewrite (@risk_level_score_holder_analysis shipped_checks).
  split_and!; try done.
  - unfold classify_risk_level. repeat case_decide; set_solver by lia.
  - unfold score_holder_analysis, holder_concentration_checks, penalise.
    cbn [warnings shipped_checks check_contract_verification
         check_honeypot_indicators check_rug_pull_indicators negb fst snd].
    destruct oha as [ha|]; [|done].
    destruct (bundle_detected ha); repeat case_decide; done.
Qed.

(** ** A chain outside the three names *)

Lemma get_holder_analysis_other_chain (chain : string) (up : holder_services) :
  chain ≠ "solana" → chain ≠ "ethereum" → chain ≠ "bsc" →
  get_holder_analysis chain up = Some get_default_holder_analysis.
Proof.
  intros. unfold get_holder_analysis. by rewrite !decide_False by done.
Qed.

(** X4. [analyze_token] does not reject a chain it does not know: for a chain
    other than [solana], [ethereum] and [bsc] no holder service is asked, the
    holder section is the default one, and a report is returned exactly when
    the market data is there. *)
Theorem analyze_token_other_chain `{SecurityChecks}
    (token_address chain : string) (up : upstream) :
  chain ≠ "solana" → chain ≠ "ethereum" → chain ≠ "bsc" →
  get_holder_analysis chain (holders_for_report up)
    = Some get_default_holder_analysis ∧
  (analyze_token token_address chain up = None
   ↔ no_pairs (dexscreener_basic up)) ∧
  (∀ report,
     analyze_token token_address chain up = Some report →
     report_holder_analysis report = get_default_holder_analysis ∧
     report_security_analysis report =
       score_holder_analysis token_address chain
         (Some get_default_holder_analysis)).
Proof.
  intros Hs He Hb.
  pose proof (get_holder_analysis_other_chain chain) as Hother.
  split_and!.
  - by apply Hother.
  - unfold analyze_token. rewrite Hother by done.
    rewrite <-(get_basic_token_data_None token_address chain).
    by destruct (get_basic_token_data _ _ _).
  - intros report Hreport.
    apply analyze_token_Some in Hreport as (bd & ha & _ & Hha & ->).
    rewrite Hother in Hha by done. injection Hha as <-.
    split; [done|]. cbn [report_security_analysis].
    unfold get_security_analysis. by rewrite Hother.
Qed.

Lemma analyze_token_other_chain_witness :
  get_holder_analysis "unknown" (holders_for_report solana_upstream)
    = Some get_default_holder_analysis ∧
  (@analyze_token shipped_checks "abc" "unknown" solana_upstream = None
   ↔ no_pairs (dexscreener_basic solana_upstream)) ∧
  (∀ report,
     @analyze_token shipped_checks "abc" "unknown" solana_upstream
       = Some report →
     report_holder_analysis report = get_default_holder_analysis ∧
     report_security_analysis report =
       @score_holder_analysis shipped_checks "abc" "unknown"
         (Some get_default_holder_analysis)).
Proof.
  apply (@analyze_token_other_chain shipped_checks "abc" "unknown"
           solana_upstream); done.
Defined.

(** ** Invariants of the Solana holder analysis *)

Lemma sum_int_amounts_app (l k : list holder) :
  sum_int_amounts (l ++ k) = sum_int_amounts l + sum_int_amounts k.
Proof.
  induction l as [|h l IH]; [done|].
  rewrite <-app_comm_cons, !sum_int_amounts_cons, IH. lia.
Qed.

Lemma sum_int_amounts_perm (l k : list holder) :
  l ≡ₚ k → sum_int_amounts l = sum_int_amounts k.
Proof.
  induction 1; rewrite ?sum_int_amounts_cons; lia.
Qed.

Lemma sum_int_amounts_nonneg (l : list holder) :
  Forall (λ h, 0 ≤ amount h) l → 0 ≤ sum_int_amounts l.
Proof.
  induction 1 as [|h l Hh _ IH]; [done|]. rewrite sum_int_amounts_cons. lia.
Qed.

Lemma sum_int_amounts_take (n : nat) (l : list holder) :
  Forall (λ h, 0 ≤ amount h) l →
  sum_int_amounts (take n l) ≤ sum_int_amounts l.
Proof.
  intros Hall. rewrite <-(take_drop n l) at 2. rewrite sum_int_amounts_app.
  pose proof (sum_int_amounts_nonneg (drop n l) (Forall_drop _ n _ Hall)).
  lia.
Qed.

Lemma sum_int_amounts_take_le (n m : nat) (l : list holder) :
  (n ≤ m)%nat → Forall (λ h, 0 ≤ amount h) l →
  sum_int_amounts (take n l) ≤ sum_int_amounts (take m l).
Proof.
  intros Hnm Hall.
  replace (take n l) with (take n (take m l))
    by (rewrite take_take; f_equal; lia).
  apply sum_int_amounts_take. by apply Forall_take.
Qed.

Lemma positive_accounts_positive (token_accounts : list (option holder)) :
  Forall (λ h, 0 < amount h) (positive_accounts token_accounts).
Proof.
  induction token_accounts as [|[a|] l IH]; simpl; [done| |done].
  case_decide; [by constructor | done].
Qed.

Lemma share_of_percentage (n supply : Z) :
  0 < supply → share_of n supply = percentage_of (float n) (float supply).
Proof. intros Hs. unfold share_of. by rewrite decide_True. Qed.

Lemma share_of_le (n m supply : Z) :
  0 < supply → n ≤ m → (share_of n supply ≤ share_of m supply)%Qc.
Proof.
  intros Hs Hnm. rewrite !share_of_percentage by done.
  apply percentage_of_mono; [by apply float_pos | by apply float_le].
Qed.

Lemma share_of_whole (supply : Z) :
  0 < supply → share_of supply supply = float 100.
Proof.
  intros Hs. rewrite share_of_percentage by done.
  apply percentage_of_whole. rewrite float_eq_0. lia.
Qed.

Lemma share_of_pos (n supply : Z) :
  0 < supply → 0 < n → (0 < share_of n supply)%Qc.
Proof.
  intros Hs Hn. rewrite share_of_percentage by done.
  apply percentage_of_pos; by apply float_pos.
Qed.

(** The dev-wallet and top-50 fields of a successful Helius analysis. *)
Lemma get_holder_distribution_from_helius_shares
    (r : reply helius_body) (ha : holder_analysis) :
  get_holder_distribution_from_helius r = Some ha →
  ∃ resp token_accounts dev_wallet,
    let holders := stable_sort amount_ge (positive_accounts token_accounts) in
    let supply := sum_int_amounts (positive_accounts token_accounts) in
    r = Some resp ∧ json resp = Some token_accounts ∧
    top_10_holders ha = Some (entry_of supply <$> take 10 holders) ∧
    holders !! 0%nat = Some dev_wallet ∧
    total_holders ha = length holders ∧
    total_supply ha = Some supply ∧
    dev_wallet_percentage ha = share_of (amount dev_wallet) supply ∧
    top_10_percentage ha = share_of (sum_int_amounts (take 10 holders)) supply ∧
    top_50_percentage ha = share_of (sum_int_amounts (take 50 holders)) supply ∧
    holder_distribution ha = classify_holder_distribution holders.
Proof.
  unfold get_holder_distribution_from_helius.
  destruct r as [[code body]|]; [|done].
  cbn [mbind option_bind status_code json].
  case_decide as Hstatus; [|done].
  destruct body as [token_accounts|]; [|done]. cbn [mbind option_bind].
  rewrite collect_accounts_positive.
  destruct (positive_accounts token_accounts) as [|h0 hs] eqn:Hpos; [done|].
  intros [= <-]. cbn [total_holders total_supply dev_wallet_percentage
    top_10_percentage top_50_percentage holder_distribution top_10_holders].
  destruct (stable_sort amount_ge (h0 :: hs)) as [|d l] eqn:Hsort.
  - pose proof (stable_sort_Permutation amount_ge (h0 :: hs)) as Hperm.
    rewrite Hsort in Hperm. by apply Permutation_nil_cons in Hperm.
  - eexists _, token_accounts, d. rewrite Hpos. cbv zeta. rewrite Hsort.
    by split_and!.
Qed.

Lemma solana_holder_shares (up : holder_services)
    (ha : holder_analysis) :
  get_holder_analysis "solana" up = Some ha →
  (0 < total_holders ha)%nat ∧
  (∃ supply, total_supply ha = Some supply ∧ 0 < supply) ∧
  (0 < dev_wallet_percentage ha)%Qc ∧
  (dev_wallet_percentage ha ≤ top_10_percentage ha)%Qc ∧
  (top_10_percentage ha ≤ top_50_percentage ha)%Qc ∧
  (top_50_percentage ha ≤ float 100)%Qc ∧
  ((total_holders ha ≤ 10)%nat → top_10_percentage ha = float 100) ∧
  ((total_holders ha ≤ 50)%nat → top_50_percentage ha = float 100).
Proof.
  intros Hha.
  apply get_holder_analysis_solana_Some,
    get_holder_distribution_from_helius_shares in Hha
    as (resp & accts & d & _ & _ & _ & Hd & Hn & Hts & Hdev & Ht10 & Ht50 & _).
  cbv zeta in *.
  set (hs := positive_accounts accts) in *.
  set (sorted := stable_sort amount_ge hs) in *.
  assert (sorted ≡ₚ hs) as Hperm by apply stable_sort_Permutation.
  assert (Forall (λ h, 0 < amount h) sorted) as Hpos
    by (rewrite Hperm; apply positive_accounts_positive).
  assert (Forall (λ h, 0 ≤ amount h) sorted) as Hnn
    by (eapply Forall_impl; [|exact Hpos]; simpl; intros; lia).
  assert (sum_int_amounts hs = sum_int_amounts sorted) as Hsum
    by (symmetry; by apply sum_int_amounts_perm).
  destruct sorted as [|d' l] eqn:Hsorted; [done|].
  injection Hd as ->.
  assert (0 < amount d) as Hdpos by (by apply Forall_cons_1 in Hpos as [? _]).
  assert (amount d ≤ sum_int_amounts (take 10 (d :: l))) as Hd10.
  { cbn [take]. rewrite sum_int_amounts_cons.
    pose proof (sum_int_amounts_nonneg (take 9 l)) as H9.
    apply Forall_cons_1 in Hnn as [_ Hl].
    specialize (H9 (Forall_take _ 9 _ Hl)). lia. }
  pose proof (sum_int_amounts_take_le 10 50 (d :: l) ltac:(lia) Hnn) as H1050.
  pose proof (sum_int_amounts_take 50 (d :: l) Hnn) as H50.
  assert (0 < sum_int_amounts hs) as Hspos by lia.
  rewrite Hdev, Ht10, Ht50, Hn, Hts.
  split_and!.
  - simpl. lia.
  - by eexists.
  - by apply share_of_pos.
  - by apply share_of_le.
  - by apply share_of_le.
  - rewrite <-(share_of_whole (sum_int_amounts hs)) by done.
    apply share_of_le; [done | lia].
  - intros Hlen. rewrite take_ge by done. rewrite <-Hsum.
    by apply share_of_whole.
  - intros Hlen. rewrite take_ge by done. rewrite <-Hsum.
    by apply share_of_whole.
Qed.

(** X5. A Solana holder analysis that is returned is consistent: there is at
    least one holder and the observed supply is positive; the dev wallet, the
    top 10 and the top 50 hold increasing shares, 0 < dev <= top 10 <= top 50
    <= 100; with at most 10 holders the top 10 hold 100%, with at most 50 the
    top 50 do. *)
Theorem solana_holder_shares_ordered (up : holder_services)
    (ha : holder_analysis) :
  get_holder_analysis "solana" up = Some ha →
  (0 < total_holders ha)%nat ∧
  (∃ supply, total_supply ha = Some supply ∧ 0 < supply) ∧
  (0 < dev_wallet_percentage ha)%Qc ∧
  (dev_wallet_percentage ha ≤ top_10_percentage ha)%Qc ∧
  (top_10_percentage ha ≤ top_50_percentage ha)%Qc ∧
  (top_50_percentage ha ≤ float 100)%Qc ∧
  ((total_holders ha ≤ 10)%nat → top_10_percentage ha = float 100) ∧
  ((total_holders ha ≤ 50)%nat → top_50_percentage ha = float 100).
Proof. apply solana_holder_shares. Qed.

Lemma solana_holder_shares_ordered_witness :
  ∃ ha,
    get_holder_analysis "solana" solana_services = Some ha ∧
    (dev_wallet_percentage ha ≤ top_10_percentage ha)%Qc ∧
    (top_10_percentage ha ≤ top_50_percentage ha)%Qc ∧
    (top_50_percentage ha ≤ float 100)%Qc.
Proof.
  eexists. split; [reflexivity|].
  pose proof (solana_holder_shares_ordered solana_services _ eq_refl)
    as (_ & _ & _ & H1 & H2 & H3 & _).
  exact (conj H1 (conj H2 H3)).
Defined.

(** The facts about a Solana analysis that the scorer's reading of it needs. *)
Lemma solana_bundle_fields_aux (up : holder_services) (ha : holder_analysis) :
  get_holder_analysis "solana" up = Some ha →
  (bundle_detected ha = true ↔ (float 50 < top_10_percentage ha)%Qc) ∧
  bundle_percentage ha =
    (if decide (float 50 < top_10_percentage ha)%Qc
     then top_10_percentage ha else 0%Qc).
Proof.
  intros Hha.
  apply get_holder_analysis_solana_Some,
    get_holder_distribution_from_helius_Some in Hha
    as (resp & accts & _ & _ & _ & _ & _ & _ & _ & Hbd & Hbp & _).
  split; [|done]. rewrite Hbd. apply bool_decide_eq_true.
Qed.

Lemma top_10_penalty_above_50 (p : Qc) :
  (float 50 < p)%Qc → 30 ≤ top_10_penalty p.
Proof. intros. unfold top_10_penalty. repeat case_decide; done || lia. Qed.

Lemma bundle_penalty_above_30 (p : Qc) :
  (float 30 < p)%Qc → bundle_penalty true p = 40.
Proof. intros. unfold bundle_penalty. by rewrite decide_True. Qed.

(** X6. On Solana a concentrated top 10 is counted twice: when the ten
    largest holders own more than 50%, the scorer takes the top-10 penalty
    and, the same share being reported as a bundle, the largest bundle
    penalty too; whatever the checks return the score is at most 30 and the
    level is [critical].  This covers every token with at most 10 holders. *)
Theorem solana_concentration_is_critical `{SecurityChecks}
    (token_address : string) (up : holder_services) (ha : holder_analysis) :
  get_holder_analysis "solana" up = Some ha →
  (float 50 < top_10_percentage ha)%Qc ∨ (total_holders ha ≤ 10)%nat →
  security_score (get_security_analysis token_address "solana" up) ≤ 30 ∧
  risk_level (get_security_analysis token_address "solana" up) = "critical".
Proof.
  intros Hha Hconc.
  assert (float 50 < top_10_percentage ha)%Qc as Htop.
  { destruct Hconc as [?|Hn]; [done|].
    destruct (solana_holder_shares up ha Hha)
      as (_ & _ & _ & _ & _ & _ & H10 & _).
    rewrite (H10 Hn). by vm_compute. }
  destruct (solana_bundle_fields_aux up ha Hha) as (Hbd & Hbp).
  assert (security_score (get_security_analysis token_address "solana" up)
          ≤ 30) as Hscore.
  { unfold get_security_analysis. rewrite Hha, score_holder_analysis_sum.
    cbn [holder_penalty].
    apply Hbd in Htop as Hflag. rewrite Hflag, Hbp, decide_True by done.
    rewrite bundle_penalty_above_30
      by (eapply Qclt_trans; [|exact Htop]; by vm_compute).
    pose proof (top_10_penalty_above_50 _ Htop).
    pose proof (dev_penalty_range (dev_wallet_percentage ha)) as Hd.
    rewrite !elem_of_cons, elem_of_nil in Hd.
    destruct (check_contract_verification _ _),
      (check_honeypot_indicators _ _), (check_rug_pull_indicators _ _);
      cbn [verification_penalty honeypot_penalty rug_penalty]; lia. }
  split; [done|].
  unfold get_security_analysis in *.
  rewrite risk_level_score_holder_analysis.
  unfold classify_risk_level. repeat case_decide; done || lia.
Qed.

Lemma solana_concentration_is_critical_witness :
  security_score
    (@get_security_analysis shipped_checks solana_address "solana"
       solana_services) ≤ 30 ∧
  risk_level
    (@get_security_analysis shipped_checks solana_address "solana"
       solana_services) = "critical".
Proof.
  eapply (@solana_concentration_is_critical shipped_checks solana_address
            solana_services); [reflexivity | left; by vm_compute].
Defined.

Lemma elem_of_positive_accounts (a : holder)
    (token_accounts : list (option holder)) :
  a ∈ positive_accounts token_accounts ↔
  Some a ∈ token_accounts ∧ 0 < amount a.
Proof.
  induction token_accounts as [|[b|] l IH]; simpl.
  - rewrite !elem_of_nil. tauto.
  - case_decide; rewrite !elem_of_cons, IH; split.
    + intros [->|[? ?]]; auto.
    + intros [[[= ->]|?] ?]; auto.
    + intros [? ?]; auto.
    + intros [[[= ->]|?] ?]; [lia | auto].
  - rewrite elem_of_cons, IH. split.
    + intros [? ?]; auto.
    + intros [[?|?] ?]; [done | auto].
Qed.

(** X7. Each entry of the Solana top-10 list is an account of the Helius
    reply with a positive amount: it carries that account's address and
    amount, and its percentage is its share of the observed supply, above 0
    and at most 100.  The first entry is the dev wallet: its percentage is
    [dev_wallet_percentage]. *)
Theorem solana_top_10_entries (up : holder_services) (ha : holder_analysis) :
  get_holder_analysis "solana" up = Some ha →
  ∃ entries resp token_accounts supply,
    top_10_holders ha = Some entries ∧
    helius up = Some resp ∧ json resp = Some token_accounts ∧
    total_supply ha = Some supply ∧
    (∀ e, e ∈ entries →
       (∃ a, Some a ∈ token_accounts ∧
             entry_address e = address a ∧ balance e = amount a) ∧
       0 < balance e ≤ supply ∧
       percentage e = share_of (balance e) supply ∧
       (0 < percentage e)%Qc ∧ (percentage e ≤ float 100)%Qc) ∧
    (percentage <$> entries !! 0%nat) = Some (dev_wallet_percentage ha).
Proof.
  intros Hha.
  apply get_holder_analysis_solana_Some,
    get_holder_distribution_from_helius_shares in Hha
    as (resp & accts & d & Hr & Hj & Hent & Hd & _ & Hts & Hdev & _).
  cbv zeta in *.
  set (hs := positive_accounts accts) in *.
  eexists _, resp, accts, _.
  split_and!; [exact Hent | exact Hr | exact Hj | exact Hts | |].
  - intros e He. apply list_elem_of_fmap in He as (h & -> & Hh).
    apply list_elem_of_lookup in Hh as (i & Hh).
    apply lookup_take_Some in Hh as [Hh _].
    apply list_elem_of_lookup_2 in Hh.
    rewrite (stable_sort_Permutation amount_ge) in Hh.
    pose proof (positive_accounts_positive accts) as Hall. fold hs in Hall.
    assert (0 < amount h ≤ sum_int_amounts hs) as Hbounds.
    { clear -Hh Hall. induction Hall as [|x l Hx Hl IH];
        [by apply elem_of_nil in Hh|].
      rewrite sum_int_amounts_cons.
      pose proof (sum_int_amounts_nonneg l) as Hnn.
      assert (Forall (λ h, 0 ≤ amount h) l) as Hl'
        by (eapply Forall_impl; [|exact Hl]; simpl; intros; lia).
      specialize (Hnn Hl').
      apply elem_of_cons in Hh as [->|Hh]; [lia|].
      specialize (IH Hh). lia. }
    cbn [entry_of entry_address balance percentage].
    split_and!; try done; try lia.
    + exists h. by apply elem_of_positive_accounts in Hh as [? _].
    + apply share_of_pos; lia.
    + rewrite <-(share_of_whole (sum_int_amounts hs)) by lia.
      apply share_of_le; lia.
  - rewrite list_lookup_fmap, lookup_take_lt, Hd by lia.
    cbn. by rewrite Hdev.
Qed.

Lemma solana_top_10_entries_witness :
  ∃ ha entries,
    get_holder_analysis "solana" solana_services = Some ha ∧
    top_10_holders ha = Some entries ∧
    (percentage <$> entries !! 0%nat) = Some (dev_wallet_percentage ha).
Proof.
  destruct (solana_top_10_entries solana_services _ eq_refl)
    as (entries & _ & _ & _ & Hent & _ & _ & _ & _ & Hfirst).
  eexists _, entries. split_and!; [reflexivity | exact Hent | exact Hfirst].
Defined.

(** ** Invariants of the EVM holder analysis *)

Lemma share_of_zero (supply : Z) : share_of 0 supply = 0%Qc.
Proof.
  unfold share_of. case_decide; [|done].
  replace (float 0) with 0%Qc by (by apply Qc_is_canon).
  apply percentage_of_zero.
Qed.

Lemma share_of_nonneg (n supply : Z) :
  0 < supply → 0 ≤ n → (0 ≤ share_of n supply)%Qc.
Proof.
  intros Hs Hn. rewrite <-(share_of_zero supply). by apply share_of_le.
Qed.

(** The fields of [process_holder_data] on a list whose amounts add up to a
    positive float. *)
Lemma process_holder_data_fields (holders : list holder) :
  (0 < sum_amounts holders)%Qc →
  let ha := process_holder_data holders in
  let supply := sum_amounts holders in
  total_holders ha = length holders ∧
  top_10_percentage ha
    = percentage_of (sum_amounts (take 10 holders)) supply ∧
  top_50_percentage ha
    = percentage_of (sum_amounts (take 50 holders)) supply ∧
  dev_wallet_percentage ha =
    percentage_of (py_float (default 0 (amount <$> holders !! 0%nat))) supply ∧
  (bundle_detected ha, bundle_percentage ha) = detect_bundles holders ∧
  holder_distribution ha = classify_holder_distribution holders.
Proof.
  intros Hsum. cbv zeta. unfold process_holder_data.
  destruct holders as [|d l];
    [by apply (irreflexivity Qclt 0%Qc) in Hsum|].
  rewrite decide_False
    by (intros Hz; rewrite Hz in Hsum;
        by apply (irreflexivity Qclt 0%Qc) in Hsum).
  destruct (detect_bundles (d :: l)) as [b p].
  cbn [total_holders top_10_percentage top_50_percentage
       dev_wallet_percentage bundle_detected bundle_percentage
       holder_distribution].
  rewrite !decide_True by done. by split_and!.
Qed.

(** X8. [process_holder_data] on holders with non-negative amounts: when some
    amount is positive the result counts every holder and its shares are
    ordered, 0 <= dev <= top 10 <= top 50 <= 100, the top 10 holding 100%
    when there are at most 10 holders; when every amount is 0 the result is
    the default analysis, which reports no holder at all. *)
Theorem process_holder_data_shares_ordered (holders : list holder) :
  Forall (λ h, 0 ≤ amount h) holders →
  let ha := process_holder_data holders in
  (sum_int_amounts holders = 0 → ha = get_default_holder_analysis) ∧
  (sum_int_amounts holders ≠ 0 →
   total_holders ha = length holders ∧
   (0 ≤ dev_wallet_percentage ha)%Qc ∧
   (dev_wallet_percentage ha ≤ top_10_percentage ha)%Qc ∧
   (top_10_percentage ha ≤ top_50_percentage ha)%Qc ∧
   (top_50_percentage ha ≤ float 100)%Qc ∧
   ((length holders ≤ 10)%nat → top_10_percentage ha = float 100)).
Proof.
  intros Hnn ha. subst ha.
  destruct (sum_amounts_pos holders Hnn) as [Hint Hiff].
  split.
  - intros Hz. unfold process_holder_data.
    destruct holders as [|d l]; [done|].
    by rewrite decide_True by (by apply sum_amounts_eq_0).
  - intros Hsum.
    assert (0 < sum_amounts holders)%Qc as Hpos by (apply Hiff; lia).
    destruct (process_holder_data_fields holders Hpos)
      as (Hn & Ht10 & Ht50 & Hdev & _).
    cbv zeta in *. rewrite Hn, Hdev, Ht10, Ht50.
    assert ((0 ≤ py_float (default 0%Z (amount <$> holders !! 0%nat)))%Qc ∧
            (py_float (default 0%Z (amount <$> holders !! 0%nat))
             ≤ sum_amounts (take 10 holders))%Qc) as [Hd0 Hd].
    { destruct holders as [|d l]; [done|].
      apply Forall_cons_1 in Hnn as [Hd Hl].
      split; [by apply py_float_nonneg|].
      change (take 10 (d :: l)) with (d :: take 9 l).
      apply sum_amounts_cons_le. by apply Forall_take. }
    split_and!; try done.
    + by apply percentage_of_nonneg.
    + by apply percentage_of_mono.
    + apply percentage_of_mono; [done|].
      apply sum_amounts_take_le; [lia | done].
    + apply percentage_of_le_100; [done|]. by apply sum_amounts_take.
    + intros Hlen. rewrite take_ge by done. apply percentage_of_whole.
      intros Hz. rewrite Hz in Hpos. by apply (irreflexivity Qclt 0%Qc) in Hpos.
Qed.

Lemma process_holder_data_shares_ordered_witness :
  let ha := process_holder_data (positive_accounts twelve_accounts) in
  total_holders ha = 12%nat ∧
  (dev_wallet_percentage ha ≤ top_10_percentage ha)%Qc.
Proof.
  destruct (process_holder_data_shares_ordered
              (positive_accounts twelve_accounts)) as [_ H].
  - repeat constructor; by vm_compute.
  - destruct H as (Hn & _ & Hd & _); [by vm_compute|].
    exact (conj Hn Hd).
Defined.

(** ** The grouping of [detect_bundles] *)

(** The holders of [rest] (which starts at index [i]) whose index is not
    marked. *)
Fixpoint unmarked (i : nat) (rest : list holder) (used : gset nat)
  : list holder :=
  match rest with
  | [] => []
  | h :: rest' =>
      if decide (i ∈ used) then unmarked (S i) rest' used
      else h :: unmarked (S i) rest' used
  end.

(** A bundle as the outer loop records it: a representative followed by
    holders that passed the 5% test against it, three members at least. *)
Definition well_formed_bundle (bundle : list holder) : Prop :=
  (3 ≤ length bundle)%nat ∧
  ∃ representative others,
    bundle = representative :: others ∧
    Forall (λ h, similar_amount (py_float (amount representative))
                   (py_float (amount h)) = Some true) others.

Lemma unmarked_agree (i : nat) (rest : list holder) (u u' : gset nat) :
  (∀ k, (i ≤ k)%nat → k ∈ u ↔ k ∈ u') →
  unmarked i rest u = unmarked i rest u'.
Proof.
  revert i. induction rest as [|h r IH]; intros i Hagree; simpl; [done|].
  rewrite (IH (S i)) by (intros k ?; apply Hagree; lia).
  pose proof (Hagree i ltac:(lia)).
  repeat case_decide; done || tauto.
Qed.

Lemma unmarked_shrinks (i : nat) (rest : list holder) (u u' : gset nat) :
  u ⊆ u' → unmarked i rest u' ⊆+ unmarked i rest u.
Proof.
  intros Hsub. revert i.
  induction rest as [|h r IH]; intros i; simpl; [done|].
  repeat case_decide;
    first [ apply IH | apply submseteq_skip, IH | apply submseteq_cons, IH
          | exfalso; auto ].
Qed.

Lemma unmarked_empty (rest : list holder) (i : nat) : unmarked i rest ∅ = rest.
Proof.
  revert i. induction rest as [|h r IH]; intros i; simpl; [done|].
  rewrite decide_False by apply not_elem_of_empty. by rewrite IH.
Qed.

(** What the inner loop does to its two accumulators. *)
Lemma collect_similar_spec (amount_i : Qc) (others : list holder) :
  ∀ (j : nat) (bundle bundle' : list holder) (used used' : gset nat),
    collect_similar amount_i j others bundle used = Some (bundle', used') →
    ∃ selected,
      bundle' = bundle ++ selected ∧
      used ⊆ used' ∧
      (∀ k, k ∈ used' → k ∈ used ∨ (j ≤ k)%nat) ∧
      selected ++ unmarked j others used' ≡ₚ unmarked j others used ∧
      Forall (λ h, similar_amount amount_i (py_float (amount h)) = Some true)
        selected.
Proof.
  induction others as [|h others IH]; intros j bundle bundle' used used' Hrun;
    simpl in Hrun.
  { injection Hrun as <- <-. exists []. rewrite app_nil_r.
    split_and!; [done | done | by left | done | done]. }
  cbn [unmarked]. case_decide as Hj.
  - apply IH in Hrun as (sel & -> & Hsub & Hnew & Hperm & Hsim).
    exists sel. rewrite decide_True by (by apply Hsub).
    split_and!; [done | done | | done | done].
    intros k Hk. destruct (Hnew k Hk); [by left | right; lia].
  - destruct (similar_amount amount_i (py_float (amount h))) as [[]|] eqn:Hh;
      cbn [mbind option_bind] in Hrun; [| |done].
    + apply IH in Hrun as (sel & -> & Hsub & Hnew & Hperm & Hsim).
      exists (h :: sel).
      assert (j ∈ used') as Hj' by (apply Hsub; set_solver).
      rewrite decide_True by done.
      split_and!.
      * by rewrite <-app_assoc.
      * set_solver.
      * intros k Hk. destruct (Hnew k Hk) as [Hk'|?]; [|right; lia].
        apply elem_of_union in Hk' as [Hk'|?]; [|by left].
        apply elem_of_singleton in Hk' as ->. by right.
      * rewrite <-app_comm_cons, Hperm.
        f_equiv.
        rewrite (unmarked_agree (S j) others ({[j]} ∪ used) used); [done|].
        intros k ?.
        rewrite elem_of_union, elem_of_singleton. split; [|by right].
        intros [?|?]; [lia | done].
      * by constructor.
    + apply IH in Hrun as (sel & -> & Hsub & Hnew & Hperm & Hsim).
      exists sel.
      assert (j ∉ used') as Hj'
        by (intros Hin; destruct (Hnew j Hin); [done | lia]).
      rewrite decide_False by done.
      split_and!; [done | done | | | done].
      * intros k Hk. destruct (Hnew k Hk); [by left | right; lia].
      * by rewrite <-Permutation_middle, Hperm.
Qed.

Lemma mark_bundle_superset (holders bundle : list holder)
    (used used' : gset nat) :
  mark_bundle holders bundle used = Some used' → used ⊆ used'.
Proof.
  revert used. induction bundle as [|h b IH]; intros used; simpl.
  - by intros [= ->].
  - destruct (index h holders) as [k|]; [|done]. cbn [mbind option_bind].
    intros Hrun. apply IH in Hrun. set_solver.
Qed.

(** What the outer loop adds to [bundles]: well-formed bundles, drawn without
    repetition from the holders that were not marked. *)
Lemma group_holders_spec (holders rest : list holder) :
  ∀ (i : nat) (bundles result : list (list holder)) (used : gset nat),
    group_holders holders i rest bundles used = Some result →
    ∃ new,
      result = bundles ++ new ∧
      Forall well_formed_bundle new ∧
      concat new ⊆+ unmarked i rest used.
Proof.
  induction rest as [|h rest IH]; intros i bundles result used Hrun.
  { injection Hrun as <-. exists []. by rewrite app_nil_r. }
  rewrite group_holders_cons in Hrun. cbn [unmarked].
  case_decide as Hi; [by apply IH in Hrun|].
  destruct (collect_similar (py_float (amount h)) (S i) rest [h] used)
    as [[bundle used1]|] eqn:Hcollect; [|done].
  cbn [mbind option_bind] in Hrun.
  apply collect_similar_spec in Hcollect
    as (sel & -> & Hsub & _ & Hperm & Hsim).
  case_decide as Hlen.
  - destruct (mark_bundle holders ([h] ++ sel) used1) as [used2|] eqn:Hmark;
      [|done].
    cbn [mbind option_bind] in Hrun.
    apply mark_bundle_superset in Hmark.
    apply IH in Hrun as (new & -> & Hwf & Hsubm).
    exists (([h] ++ sel) :: new). split_and!.
    + by rewrite <-app_assoc.
    + constructor; [|done]. split; [done|]. by exists h, sel.
    + cbn [concat app]. apply submseteq_skip.
      rewrite <-Hperm. apply submseteq_app; [done|].
      etrans; [exact Hsubm|]. by apply unmarked_shrinks.
  - apply IH in Hrun as (new & -> & Hwf & Hsubm).
    exists new. split_and!; [done | done |].
    apply submseteq_cons. rewrite <-Hperm.
    etrans; [exact Hsubm|]. apply submseteq_inserts_l. reflexivity.
Qed.

(** The float sum over the bundles does not fall below its start. *)
Lemma foldl_add_bundle_le (acc : Qc) (bundles : list (list holder)) :
  fl acc = acc → Forall (Forall (λ h, 0 ≤ amount h)) bundles →
  (acc ≤ foldl add_bundle acc bundles)%Qc.
Proof.
  intros Hacc Hbs. revert acc Hacc.
  induction Hbs as [|b bs Hb _ IH]; intros acc Hacc; simpl; [done|].
  etrans; [|apply IH, fl_idem].
  apply fadd_nonneg_r; [done|]. by apply sum_amounts_nonneg.
Qed.

Lemma Forall_concat_nonneg (holders : list holder)
    (bundles : list (list holder)) :
  Forall (λ h, 0 ≤ amount h) holders → concat bundles ⊆+ holders →
  Forall (Forall (λ h, 0 ≤ amount h)) bundles.
Proof.
  intros Hnn Hsub. apply Forall_forall. intros b Hb.
  apply Forall_forall. intros h Hh.
  assert (h ∈ holders) as Hin.
  { apply (elem_of_submseteq (concat bundles)); [|done].
    apply list_elem_of_In, in_concat. by exists b. }
  rewrite Forall_lookup in Hnn.
  apply list_elem_of_lookup in Hin as [k Hk]. exact (Hnn k h Hk).
Qed.

Lemma sum_int_amounts_submseteq (l k : list holder) :
  Forall (λ h, 0 ≤ amount h) k → l ⊆+ k →
  0 ≤ sum_int_amounts l ≤ sum_int_amounts k.
Proof.
  intros Hnn Hsub. apply submseteq_Permutation in Hsub as [k' Hperm].
  rewrite (sum_int_amounts_perm _ _ Hperm), sum_int_amounts_app.
  rewrite Hperm in Hnn. apply Forall_app in Hnn as [Hl Hk'].
  pose proof (sum_int_amounts_nonneg _ Hl).
  pose proof (sum_int_amounts_nonneg _ Hk'). lia.
Qed.

(** X9. Bundles never overlap and never count a holder twice: on a list with
    non-negative amounts the bundles that [detect_bundles] sums are
    well-formed (a representative and at least two holders that passed the 5%
    test against it) and together form a sub-multiset of the holders, so
    they hold no more than the holders do, and the percentage is not
    negative.  The percentage is still not bounded by 100: the bundles are
    summed one by one and the supply holder by holder, and the two float
    sums of the same amounts can differ, as for three holders of 2^52 + 1
    units followed by three holders of 1 unit. *)
Theorem detect_bundles_disjoint_bundles :
  (∀ holders : list holder,
     Forall (λ h, 0 ≤ amount h) holders →
     (0 ≤ (detect_bundles holders).2)%Qc ∧
     (∀ bundles,
        group_holders holders 0 holders [] ∅ = Some bundles →
        Forall well_formed_bundle bundles ∧
        concat bundles ⊆+ holders ∧
        sum_int_amounts (concat bundles) ≤ sum_int_amounts holders)) ∧
  (let holders :=
     [Holder 4503599627370497 "a" "A"; Holder 4503599627370497 "b" "B";
      Holder 4503599627370497 "c" "C"; Holder 1 "d" "D"; Holder 1 "e" "E";
      Holder 1 "f" "F"] in
   group_holders holders 0 holders [] ∅
     = Some [take 3 holders; drop 3 holders] ∧
   (float 100 < (detect_bundles holders).2)%Qc).
Proof.
  split; [|split; by vm_compute].
  intros holders Hnn.
  assert (∀ bundles,
            group_holders holders 0 holders [] ∅ = Some bundles →
            Forall well_formed_bundle bundles ∧ concat bundles ⊆+ holders)
    as Hspec.
  { intros bundles Hrun.
    apply group_holders_spec in Hrun as (new & -> & Hwf & Hsub).
    by rewrite unmarked_empty in Hsub. }
  split.
  - unfold detect_bundles. case_decide; [done|].
    destruct (group_holders holders 0 holders [] ∅) as [[|b bs]|] eqn:Hrun;
      [done| |done].
    destruct (Hspec _ eq_refl) as [_ Hsub]. cbn [snd].
    case_decide as Hpos; [|done].
    apply percentage_of_nonneg; [|done].
    apply (foldl_add_bundle_le 0%Qc (b :: bs) fl_0).
    by apply (Forall_concat_nonneg holders).
  - intros bundles Hrun. destruct (Hspec bundles Hrun) as [Hwf Hsub].
    split_and!; [done | done |].
    by apply (sum_int_amounts_submseteq _ _ Hnn) in Hsub as [_ ?].
Qed.

Lemma similar_amount_defined (amount_i other_amount : Qc) :
  amount_i ≠ 0%Qc → is_Some (similar_amount amount_i other_amount).
Proof.
  intros Hne. unfold similar_amount, py_div.
  case_decide; [|done]. by rewrite decide_False by done.
Qed.

Lemma collect_similar_defined (amount_i : Qc) (others : list holder) :
  amount_i ≠ 0%Qc →
  ∀ j bundle used, is_Some (collect_similar amount_i j others bundle used).
Proof.
  intros Hne. induction others as [|h others IH]; intros j bundle used; simpl;
    [done|].
  case_decide; [apply IH|].
  destruct (similar_amount_defined amount_i (py_float (amount h)) Hne)
    as [[] ->]; cbn [mbind option_bind]; apply IH.
Qed.

Lemma unmarked_submseteq (i : nat) (rest : list holder) (used : gset nat) :
  unmarked i rest used ⊆+ rest.
Proof.
  rewrite <-(unmarked_empty rest i) at 2.
  apply unmarked_shrinks, empty_subseteq.
Qed.

Lemma group_holders_defined (holders rest : list holder) :
  Forall (λ h, 0 < amount h) rest → rest ⊆ holders →
  ∀ i bundles used, is_Some (group_holders holders i rest bundles used).
Proof.
  induction rest as [|h rest IH]; intros Hpos Hsub i bundles used; [done|].
  apply Forall_cons_1 in Hpos as [Hh Hrest].
  assert (rest ⊆ holders) as Hsub' by set_solver.
  rewrite group_holders_cons. case_decide; [by apply IH|].
  assert (py_float (amount h) ≠ 0%Qc) as Hne by (rewrite py_float_eq_0; lia).
  destruct (collect_similar_defined (py_float (amount h)) rest Hne (S i) [h] used)
    as [[bundle used1] Hcollect].
  rewrite Hcollect. cbn [mbind option_bind].
  case_decide; [|by apply IH].
  apply collect_similar_spec in Hcollect as (sel & -> & _ & _ & Hperm & _).
  assert (sel ⊆ rest) as Hsel.
  { intros x Hx.
    apply (elem_of_submseteq (unmarked (S i) rest used));
      [|apply unmarked_submseteq].
    rewrite <-Hperm. set_solver. }
  destruct (mark_bundle_grows holders ([h] ++ sel) used1) as (used2 & -> & _).
  { intros x Hx. apply elem_of_app in Hx as [Hx|Hx].
    - apply list_elem_of_singleton in Hx as ->. apply Hsub. by left.
    - by apply Hsub', Hsel. }
  cbn [mbind option_bind]. by apply IH.
Qed.

(** X10. With positive amounts throughout, the grouping runs to its end: no
    division by zero, no failed [index], so the [except] branch is not
    taken.  Bundles are detected exactly when the list has at least 5 holders
    and some group of three formed, and then the percentage is positive. *)
Theorem detect_bundles_positive_amounts (holders : list holder) :
  Forall (λ h, 0 < amount h) holders →
  ∃ bundles,
    group_holders holders 0 holders [] ∅ = Some bundles ∧
    ((detect_bundles holders).1 = true
     ↔ (5 ≤ length holders)%nat ∧ bundles ≠ []) ∧
    ((detect_bundles holders).1 = true → (0 < (detect_bundles holders).2)%Qc) ∧
    ((detect_bundles holders).1 = false → (detect_bundles holders).2 = 0%Qc).
Proof.
  intros Hpos.
  destruct (group_holders_defined holders holders Hpos ltac:(done) 0%nat [] ∅)
    as [bundles Hrun].
  exists bundles. split; [done|].
  unfold detect_bundles. rewrite Hrun.
  case_decide as Hlen; cbn [fst snd].
  { split_and!; [split; [done | lia] | done | done]. }
  destruct bundles as [|b bs]; cbn [fst snd].
  { split_and!; [split; [done | by intros [_ ?]] | done | done]. }
  split_and!; [split; [split; [lia | done] | done] | | done].
  intros _.
  apply group_holders_spec in Hrun as (new & Hnew & Hwf & Hsub).
  cbn [app] in Hnew. subst new. rewrite unmarked_empty in Hsub.
  assert (Forall (λ h, 0 ≤ amount h) holders) as Hnn
    by (eapply Forall_impl; [|exact Hpos]; simpl; intros; lia).
  pose proof (Forall_concat_nonneg _ _ Hnn Hsub) as Hbnn.
  apply Forall_cons_1 in Hwf as [(Hlen3 & rep & others & -> & _) _].
  assert (∀ h, h ∈ concat ((rep :: others) :: bs) → h ∈ holders) as Hin
    by (intros h ?; by apply (elem_of_submseteq _ _ h) in Hsub).
  assert (0 < amount rep) as Hrep.
  { rewrite Forall_lookup in Hpos.
    destruct (list_elem_of_lookup_1 holders rep) as [k Hk];
      [apply Hin; cbn [concat app]; by left|].
    exact (Hpos k rep Hk). }
  assert (0 < sum_amounts (rep :: others))%Qc as Hb.
  { apply Forall_cons_1 in Hbnn as [Hbn _].
    apply Forall_cons_1 in Hbn as [_ Hothers].
    eapply Qclt_le_trans; [|by apply sum_amounts_cons_le].
    by apply py_float_pos. }
  assert (0 < foldl add_bundle 0%Qc ((rep :: others) :: bs))%Qc as Htotal.
  { cbn [foldl]. apply Forall_cons_1 in Hbnn as [_ Hbsn].
    eapply Qclt_le_trans; [|apply foldl_add_bundle_le; [apply fl_idem|done]].
    unfold add_bundle. by rewrite fadd_0_l by apply sum_amounts_fl. }
  assert (0 < sum_amounts holders)%Qc as Hsum.
  { apply sum_amounts_pos; [done|].
    pose proof (sum_int_amounts_submseteq _ _ Hnn Hsub) as [_ Hle].
    eapply Z.lt_le_trans; [|exact Hle]. cbn [concat app].
    rewrite sum_int_amounts_cons.
    assert (Forall (λ h, 0 ≤ amount h) (others ++ concat bs)) as Hrest.
    { apply Forall_forall. intros h Hh. apply list_elem_of_In in Hh.
      rewrite Forall_lookup in Hnn.
      destruct (list_elem_of_lookup_1 holders h) as [k Hk];
        [apply Hin; cbn [concat app]; by right|].
      exact (Hnn k h Hk). }
    pose proof (sum_int_amounts_nonneg _ Hrest). lia. }
  rewrite decide_True by done.
  by apply percentage_of_pos.
Qed.

Lemma detect_bundles_positive_amounts_witness :
  ∃ bundles,
    group_holders
      [Holder 5 "a" "A"; Holder 5 "b" "B"; Holder 5 "c" "C"; Holder 7 "d" "D";
       Holder 9 "e" "E"] 0
      [Holder 5 "a" "A"; Holder 5 "b" "B"; Holder 5 "c" "C"; Holder 7 "d" "D";
       Holder 9 "e" "E"] [] ∅ = Some bundles ∧
    bundles ≠ [].
Proof.
  destruct (detect_bundles_positive_amounts
              [Holder 5 "a" "A"; Holder 5 "b" "B"; Holder 5 "c" "C";
               Holder 7 "d" "D"; Holder 9 "e" "E"])
    as (bundles & Hrun & Hiff & _).
  - repeat constructor; by vm_compute.
  - exists bundles. split; [exact Hrun|].
    apply Hiff. by vm_compute.
Defined.

(** * The Bubblemaps analysis *)

(** A node and a cluster of a Bubblemaps reply, with the defaults of the
    [get] calls applied: a missing [share] or [size] is 0. *)
Record bubble_node := BubbleNode {
  node_address : string;
  share : Qc
}.

Record bubble_cluster := BubbleCluster {
  size : Z;
  cluster_share : Qc
}.

(** The body lists [data.get('nodes', [])] and [data.get('clusters', [])];
    the relationships are read and not used. *)
Record bubblemaps_body := BubblemapsBody {
  nodes : list bubble_node;
  clusters : list bubble_cluster
}.

(** [sum(node.get('share', 0) for node in ns)] *)
Definition sum_shares (ns : list bubble_node) : Qc :=
  foldl (λ acc n, acc + share n)%Qc 0%Qc ns.

(** The loop of [analyze_bubblemaps_clusters] over
    [(total_bundle_share, bundle_count)]; the shares are added as floats. *)
Definition count_clusters (clusters : list bubble_cluster) : Qc * Z :=
  foldl (λ '(total_bundle_share, bundle_count) cluster,
           if decide (3 ≤ size cluster)
           then (fadd total_bundle_share (cluster_share cluster),
                 bundle_count + 1)
           else (total_bundle_share, bundle_count))
        (0%Qc, 0) clusters.

Definition analyze_bubblemaps_clusters
    (clusters : list bubble_cluster) (nodes : list bubble_node) : bool * Qc :=
  match clusters, nodes with
  | [], _ | _, [] => (false, 0%Qc)
  | _, _ =>
      let '(total_bundle_share, bundle_count) := count_clusters clusters in
      let bundle_detected :=
        bool_decide (0 < bundle_count)
        && bool_decide (float 5 < total_bundle_share)%Qc in
      (bundle_detected, total_bundle_share)
  end.

Definition classify_holder_distribution_from_bubblemaps
    (sorted_nodes : list bubble_node) : string :=
  match sorted_nodes with
  | [] => "unknown"
  | _ =>
      let top_5_share := sum_shares (take 5 sorted_nodes) in
      if decide (float 80 < top_5_share)%Qc then "highly_concentrated"
      else if decide (float 50 < top_5_share)%Qc then "concentrated"
      else if decide (float 20 < top_5_share)%Qc then "moderate"
      else "distributed"
  end.

(** The order of [sorted(nodes, key=share, reverse=True)]. *)
Definition share_ge (x y : bubble_node) : Prop := (share y ≤ share x)%Qc.

#[global] Instance share_ge_dec : RelDecision share_ge.
Proof. intros x y. unfold share_ge. apply _. Defined.

Definition get_bubblemaps_data (r : reply bubblemaps_body)
  : option holder_analysis :=
  resp ← r;
  if decide (status_code resp = 200) then
    match nodes (json resp) with
    | [] => None
    | _ =>
        let total_holders := length (nodes (json resp)) in
        let sorted_nodes := stable_sort share_ge (nodes (json resp)) in
        let top_10_shares := sum_shares (take 10 sorted_nodes) in
        let top_50_shares := sum_shares (take 50 sorted_nodes) in
        let dev_share :=
          match sorted_nodes with
          | first_node :: _ => share first_node
          | [] => 0%Qc
          end in
        let '(bundle_detected, bundle_percentage) :=
          analyze_bubblemaps_clusters (clusters (json resp))
            (nodes (json resp)) in
        Some {| total_holders := total_holders;
                total_supply := None;
                top_10_percentage := top_10_shares;
                top_50_percentage := top_50_shares;
                dev_wallet_percentage := dev_share;
                dev_has_sold := false;
                bundle_detected := bundle_detected;
                bundle_percentage := bundle_percentage;
                holder_distribution :=
                  classify_holder_distribution_from_bubblemaps sorted_nodes;
                top_10_holders := None |}
    end
  else None.

(** The shares of the clusters that count, those of size 3 or more, added
    from left to right as floats, on top of [start]. *)
Definition counted_share_from (start : Qc) (clusters : list bubble_cluster)
  : Qc :=
  foldl (λ acc cluster,
           if decide (3 ≤ size cluster) then fadd acc (cluster_share cluster)
           else acc)
        start clusters.

Definition counted_share (clusters : list bubble_cluster) : Qc :=
  counted_share_from 0%Qc clusters.

Lemma count_clusters_from (clusters : list bubble_cluster) (t : Qc) (n : Z) :
  0 ≤ n →
  ∃ m, foldl (λ '(total_bundle_share, bundle_count) cluster,
                if decide (3 ≤ size cluster)
                then (fadd total_bundle_share (cluster_share cluster),
                      bundle_count + 1)
                else (total_bundle_share, bundle_count))
             (t, n) clusters
       = (counted_share_from t clusters, m) ∧
       n ≤ m ∧ (m = n → counted_share_from t clusters = t).
Proof.
  revert t n. induction clusters as [|c cs IH]; intros t n Hn; simpl.
  - by exists n.
  - case_decide.
    + destruct (IH (fadd t (cluster_share c)) (n + 1)) as (m & -> & Hm & _);
        [lia|].
      exists m. split_and!; [done | lia | lia].
    + destruct (IH t n Hn) as (m & -> & Hm & Hz). by exists m.
Qed.

(** X11. [analyze_bubblemaps_clusters] reports as percentage the shares of
    the clusters of size 3 or more, added from left to right as floats,
    whether or not it reports a bundle, and it reports a bundle exactly when
    that computed sum exceeds 5: the count of clusters adds nothing to the
    test.  Without clusters or without nodes the result is [(False, 0)].
    The sum that decides is the computed one: the shares 0.1, 0.2 and 4.7
    add up to 5.0 and no bundle is reported, the shares 0.03, 4.07 and 0.90
    add up to more than 5.0 and a bundle is. *)
Theorem analyze_bubblemaps_clusters_threshold :
  (∀ (clusters : list bubble_cluster) (nodes : list bubble_node),
     (clusters = [] ∨ nodes = [] →
      analyze_bubblemaps_clusters clusters nodes = (false, 0%Qc)) ∧
     (clusters ≠ [] → nodes ≠ [] →
      analyze_bubblemaps_clusters clusters nodes =
        (bool_decide (float 5 < counted_share clusters)%Qc,
         counted_share clusters))) ∧
  (let cluster (n d : Z) := BubbleCluster 3 (fl (float n / float d)) in
   let nodes := [BubbleNode "node" (float 100)] in
   analyze_bubblemaps_clusters
     [cluster 1 10; cluster 2 10; cluster 47 10] nodes = (false, float 5) ∧
   (analyze_bubblemaps_clusters
      [cluster 3 100; cluster 407 100; cluster 90 100] nodes).1 = true ∧
   (float 5 <
    (analyze_bubblemaps_clusters
       [cluster 3 100; cluster 407 100; cluster 90 100] nodes).2)%Qc).
Proof.
  split.
  - intros clusters nodes. split.
    + intros [-> | ->]; [done|]. by destruct clusters.
    + intros Hc Hn. unfold analyze_bubblemaps_clusters.
      destruct clusters as [|c cs]; [done|].
      destruct nodes as [|n ns]; [done|].
      unfold count_clusters.
      destruct (count_clusters_from (c :: cs) 0%Qc 0 ltac:(done))
        as (m & -> & Hm & Hz).
      fold (counted_share (c :: cs)) in Hz |- *. f_equal.
      destruct (decide (m = 0)) as [->|Hne].
      * rewrite (Hz eq_refl). by vm_compute.
      * by rewrite (bool_decide_eq_true_2 (0 < m)) by lia.
  - cbv zeta. split_and!; [|by vm_compute|by vm_compute].
    vm_compute. f_equal. by apply Qc_is_canon.
Qed.

Lemma sum_shares_from (acc : Qc) (ns : list bubble_node) :
  foldl (λ acc n, acc + share n)%Qc acc ns = (acc + sum_shares ns)%Qc.
Proof.
  unfold sum_shares. revert acc.
  induction ns as [|n ns IH]; intros acc; simpl; [ring|].
  rewrite IH, (IH (0 + share n)%Qc). ring.
Qed.

Lemma sum_shares_cons (n : bubble_node) (ns : list bubble_node) :
  sum_shares (n :: ns) = (share n + sum_shares ns)%Qc.
Proof.
  unfold sum_shares at 1. simpl. rewrite sum_shares_from. ring.
Qed.

Lemma sum_shares_app (l k : list bubble_node) :
  sum_shares (l ++ k) = (sum_shares l + sum_shares k)%Qc.
Proof.
  induction l as [|n l IH]; simpl.
  - unfold sum_shares at 2. simpl. ring.
  - rewrite !sum_shares_cons, IH. ring.
Qed.

Lemma sum_shares_nonneg (ns : list bubble_node) :
  Forall (λ n, 0 ≤ share n)%Qc ns → (0 ≤ sum_shares ns)%Qc.
Proof.
  induction 1 as [|n ns Hn _ IH]; [done|].
  rewrite sum_shares_cons. by apply Qcplus_nonneg_nonneg.
Qed.

Lemma sum_shares_take (k : nat) (ns : list bubble_node) :
  Forall (λ n, 0 ≤ share n)%Qc ns →
  (sum_shares (take k ns) ≤ sum_shares ns)%Qc.
Proof.
  intros Hall. rewrite <-(take_drop k ns) at 2. rewrite sum_shares_app.
  rewrite <-(Qcplus_0_r (sum_shares (take k ns))) at 1.
  apply Qcplus_le_mono_l, sum_shares_nonneg. by apply Forall_drop.
Qed.

#[global] Instance share_ge_trans : Transitive share_ge.
Proof. unfold share_ge. intros x y z ??. by etrans. Qed.

#[global] Instance share_ge_total : Total share_ge.
Proof. unfold share_ge. intros x y. apply Qc_le_total. Qed.

(** X12. [get_bubblemaps_data] answers [None] unless the status is 200 and
    the reply lists a node.  Otherwise every node counts as a holder, the
    dev-wallet figure is the largest share of all, and with non-negative
    shares dev <= top 10 <= top 50; the result has no top-10 list. *)
Theorem get_bubblemaps_data_shares (r : reply bubblemaps_body) :
  (get_bubblemaps_data r = None ↔
   ∀ resp, r = Some resp → status_code resp ≠ 200 ∨ nodes (json resp) = []) ∧
  (∀ resp ha,
     r = Some resp → get_bubblemaps_data r = Some ha →
     total_holders ha = length (nodes (json resp)) ∧
     (0 < total_holders ha)%nat ∧
     top_10_holders ha = None ∧
     (∀ n, n ∈ nodes (json resp) → (share n ≤ dev_wallet_percentage ha)%Qc) ∧
     (Forall (λ n, 0 ≤ share n)%Qc (nodes (json resp)) →
      (0 ≤ dev_wallet_percentage ha)%Qc ∧
      (dev_wallet_percentage ha ≤ top_10_percentage ha)%Qc ∧
      (top_10_percentage ha ≤ top_50_percentage ha)%Qc)).
Proof.
  unfold get_bubblemaps_data. destruct r as [resp|];
    cbn [mbind option_bind]; [|split; [done | by intros ??]].
  case_decide as Hstatus.
  2:{ split; [split; [by intros _ ? [= <-]; left | done] | done]. }
  destruct (nodes (json resp)) as [|n0 ns] eqn:Hnodes.
  { split; [split; [by intros _ ? [= <-]; right | done] | done]. }
  destruct (analyze_bubblemaps_clusters _ _) as [bd bp].
  split.
  { split; [done|]. intros Hall.
    destruct (Hall resp eq_refl); [done | congruence]. }
  intros resp' ha [= <-] [= <-].
  cbn [total_holders top_10_holders dev_wallet_percentage top_10_percentage
       top_50_percentage].
  rewrite Hnodes.
  set (sorted := stable_sort share_ge (n0 :: ns)).
  assert (sorted ≡ₚ n0 :: ns) as Hperm by apply stable_sort_Permutation.
  assert (StronglySorted share_ge sorted) as Hsorted
    by (apply StronglySorted_stable_sort; apply _).
  destruct sorted as [|d l] eqn:Hs;
    [by apply Permutation_nil_cons in Hperm|].
  apply StronglySorted_cons in Hsorted as [Hhead _].
  split_and!; [done | simpl; lia | done | |].
  - intros n Hn. rewrite <-Hperm in Hn.
    apply elem_of_cons in Hn as [->|Hn]; [done|].
    rewrite Forall_lookup in Hhead.
    apply list_elem_of_lookup in Hn as [k Hk]. exact (Hhead k n Hk).
  - intros Hnn. rewrite <-Hperm in Hnn.
    pose proof Hnn as Hnn'. apply Forall_cons_1 in Hnn' as [Hd Hl].
    split_and!; [done | |].
    + cbn [take]. rewrite sum_shares_cons.
      rewrite <-(Qcplus_0_r (share d)) at 1.
      apply Qcplus_le_mono_l, sum_shares_nonneg. by apply Forall_take.
    + replace (take 10 (d :: l)) with (take 10 (take 50 (d :: l)))
        by (rewrite take_take; f_equal).
      apply sum_shares_take. by apply Forall_take.
Qed.

(** * Estimated holder data *)

(** [int(x)] on a float: truncation towards zero. *)
Definition py_int (x : Qc) : Z :=
  if decide (0 ≤ x)%Qc then Qfloor x else Qceiling x.

Definition estimate_holders_from_market_data (market_cap liquidity : Qc) : Z :=
  if decide (float 10000000 < market_cap)%Qc then
    500 `max` py_int (market_cap / float 20000)
  else if decide (float 1000000 < market_cap)%Qc then
    200 `max` py_int (market_cap / float 5000)
  else if decide (float 100000 < market_cap)%Qc then
    100 `max` py_int (market_cap / float 1000)
  else 50 `max` py_int (market_cap / float 500).

(** The estimate built from the first pair; the constant estimate when the
    status is not 200 or no pair is listed; the default analysis when the
    request raises. *)
Definition get_estimated_holder_data (r : reply dexscreener_body)
  : holder_analysis :=
  let fallback :=
    {| total_holders := 150;
       total_supply := None;
       top_10_percentage := float 45;
       top_50_percentage := float 75;
       dev_wallet_percentage := float 15;
       dev_has_sold := false;
       bundle_detected := true;
       bundle_percentage := float 12;
       holder_distribution := "moderate";
       top_10_holders := None |} in
  match r with
  | None => get_default_holder_analysis
  | Some resp =>
      if decide (status_code resp = 200) then
        match json resp with
        | [] => fallback
        | p :: _ =>
            let market_cap := marketCap p in
            let liquidity := liquidity_usd p in
            let estimated_holders :=
              estimate_holders_from_market_data market_cap liquidity in
            let '(top_10_pct, dev_pct, bundle_detected, bundle_pct,
                  distribution) :=
              if decide (float 10000000 < market_cap)%Qc then
                (float 25, float 8, false, 0%Qc, "distributed")
              else if decide (float 1000000 < market_cap)%Qc then
                (float 35, float 12, false, 0%Qc, "moderate")
              else if decide (float 100000 < market_cap)%Qc then
                (float 45, float 18, true, float 8, "concentrated")
              else (float 60, float 25, true, float 15, "highly_concentrated")
            in
            {| total_holders := Z.to_nat estimated_holders;
               total_supply := None;
               top_10_percentage := top_10_pct;
               top_50_percentage := (top_10_pct + float 25)%Qc;
               dev_wallet_percentage := dev_pct;
               dev_has_sold := false;
               bundle_detected := bundle_detected;
               bundle_percentage := bundle_pct;
               holder_distribution := distribution;
               top_10_holders := None |}
        end
      else fallback
  end.

Lemma this_float (z : Z) : this (float z) = inject_Z z.
Proof. reflexivity. Qed.

Lemma py_int_ge (n : Z) (x : Qc) : 0 ≤ n → (float n ≤ x)%Qc → n ≤ py_int x.
Proof.
  intros Hn Hx. unfold py_int.
  rewrite decide_True.
  - rewrite <-(Qfloor_Z n). apply Qfloor_resp_le. exact Hx.
  - etrans; [|exact Hx]. unfold float.
    by rewrite <-Z2Qc_inj_0, <-Z2Qc_inj_le.
Qed.

Lemma py_int_le (n : Z) (x : Qc) : (x ≤ float n)%Qc → py_int x ≤ n.
Proof.
  intros Hx. unfold py_int. case_decide.
  - rewrite <-(Qfloor_Z n). apply Qfloor_resp_le. exact Hx.
  - rewrite <-(Qceiling_Z n). apply Qceiling_resp_le. exact Hx.
Qed.

Lemma py_int_lt (n : Z) (x : Qc) :
  (0 ≤ x)%Qc → (x < float n)%Qc → py_int x < n.
Proof.
  intros H0 Hx. unfold py_int. rewrite decide_True by done.
  rewrite Zlt_Qlt. eapply Qle_lt_trans; [apply Qfloor_le|]. exact Hx.
Qed.

Lemma float_mul (a b : Z) : float (a * b) = (float a * float b)%Qc.
Proof. unfold float. apply Z2Qc_inj_mul. Qed.

(** Dividing by a positive integer constant keeps the order. *)
Lemma div_float_le (x y : Qc) (d : Z) :
  0 < d → (x ≤ y)%Qc → (x / float d ≤ y / float d)%Qc.
Proof.
  intros Hd Hxy. unfold Qcdiv. apply Qcmult_le_mono_nonneg_r; [|done].
  by apply Qclt_le_weak, Qcinv_pos, float_pos.
Qed.

Lemma div_float_lt (x y : Qc) (d : Z) :
  0 < d → (x < y)%Qc → (x / float d < y / float d)%Qc.
Proof.
  intros Hd Hxy. unfold Qcdiv.
  apply Qcmult_lt_mono_pos_r; [|done]. by apply Qcinv_pos, float_pos.
Qed.

Lemma div_float_exact (k d : Z) :
  0 < d → (float (k * d) / float d)%Qc = float k.
Proof.
  intros Hd. rewrite float_mul. apply Qcdiv_mult_l.
  rewrite float_eq_0. lia.
Qed.

Lemma estimate_quotient_bounds (x : Qc) (lo hi d : Z) :
  0 < d → 0 ≤ lo →
  (float (lo * d) ≤ x)%Qc → (x ≤ float (hi * d))%Qc →
  lo ≤ py_int (x / float d) ≤ hi.
Proof.
  intros Hd Hlo Hl Hh. split.
  - apply py_int_ge; [done|]. rewrite <-(div_float_exact lo d) by done.
    by apply div_float_le.
  - apply py_int_le. rewrite <-(div_float_exact hi d) by done.
    by apply div_float_le.
Qed.

(** X13. [estimate_holders_from_market_data] by bracket of the market cap:
    above 10M the estimate is [int(cap / 20000)], at least 500; from 1M to
    10M it is [int(cap / 5000)], between 200 and 2000; from 100K to 1M it is
    [int(cap / 1000)], between 100 and 1000; up to 100K it lies between 50
    and 200.  So the floors 500, 200 and 100 of the first three brackets
    never apply, the estimate is at least 50 throughout, and it is not
    monotone: every cap between 10M and 40M gets a smaller estimate than a
    cap of exactly 10M. *)
Theorem estimate_holders_brackets (market_cap liquidity : Qc) :
  let n := estimate_holders_from_market_data market_cap liquidity in
  50 ≤ n ∧
  ((float 10000000 < market_cap)%Qc →
   n = py_int (market_cap / float 20000) ∧ 500 ≤ n) ∧
  ((float 1000000 < market_cap)%Qc → (market_cap ≤ float 10000000)%Qc →
   n = py_int (market_cap / float 5000) ∧ 200 ≤ n ≤ 2000) ∧
  ((float 100000 < market_cap)%Qc → (market_cap ≤ float 1000000)%Qc →
   n = py_int (market_cap / float 1000) ∧ 100 ≤ n ≤ 1000) ∧
  ((market_cap ≤ float 100000)%Qc → 50 ≤ n ≤ 200) ∧
  ((float 10000000 < market_cap)%Qc → (market_cap < float 40000000)%Qc →
   n < estimate_holders_from_market_data (float 10000000) liquidity).
Proof.
  cbv zeta.
  assert (estimate_holders_from_market_data (float 10000000) liquidity = 2000)
    as -> by (by vm_compute).
  unfold estimate_holders_from_market_data.
  assert (∀ a b : Qc, (a < b)%Qc → (b ≤ a)%Qc → False) as Habs
    by (intros a b; apply Qc_lt_le_absurd).
  assert ((float 10000000 < market_cap)%Qc →
          500 ≤ py_int (market_cap / float 20000)) as H1.
  { intros Hm. apply py_int_ge; [done|].
    rewrite <-(div_float_exact 500 20000) by done.
    apply div_float_le; [done|]. by apply Qclt_le_weak. }
  assert ((float 1000000 < market_cap)%Qc → (market_cap ≤ float 10000000)%Qc →
          200 ≤ py_int (market_cap / float 5000) ≤ 2000) as H2.
  { intros Hl Hh. apply estimate_quotient_bounds; [done | done | | done].
    by apply Qclt_le_weak. }
  assert ((float 100000 < market_cap)%Qc → (market_cap ≤ float 1000000)%Qc →
          100 ≤ py_int (market_cap / float 1000) ≤ 1000) as H3.
  { intros Hl Hh. apply estimate_quotient_bounds; [done | done | | done].
    by apply Qclt_le_weak. }
  assert ((market_cap ≤ float 100000)%Qc →
          py_int (market_cap / float 500) ≤ 200) as H4.
  { intros Hh. apply py_int_le.
    rewrite <-(div_float_exact 200 500) by done. by apply div_float_le. }
  repeat case_decide.
  all: split_and!; intros; try (exfalso; eauto; fail).
  all: repeat match goal with
         | Hn : ¬ (_ < _)%Qc |- _ => apply Qcnot_lt_le in Hn
         end.
  all: try (exfalso; eauto; fail).
  all: try (qc_absurd; fail).
  all: try specialize (H1 ltac:(done)).
  all: try specialize (H2 ltac:(done) ltac:(done)).
  all: try specialize (H3 ltac:(done) ltac:(done)).
  all: try specialize (H4 ltac:(done)).
  all: try lia.
  rewrite Z.max_r by lia.
  apply py_int_lt.
  - etrans; [|apply (div_float_le (float 10000000)); [done|]].
    + by vm_compute.
    + by apply Qclt_le_weak.
  - rewrite <-(div_float_exact 2000 20000) by done. by apply div_float_lt.
Qed.

Lemma estimate_holders_at_least_50 (market_cap liquidity : Qc) :
  50 ≤ estimate_holders_from_market_data market_cap liquidity.
Proof.
  unfold estimate_holders_from_market_data. repeat case_decide; lia.
Qed.

(** X14. Estimated holder data, whenever the request does not raise: at
    least 50 holders, no top-10 list, shares ordered dev <= top 10 <= top 50
    <= 85, and a bundle flagged exactly when a bundle percentage above 0 is
    given, which is the case exactly when the status is not 200, no pair is
    listed, or the market cap of the first pair is at most 1,000,000.  When
    the request raises, the result is the default analysis. *)
Theorem get_estimated_holder_data_consistent (r : reply dexscreener_body) :
  (r = None → get_estimated_holder_data r = get_default_holder_analysis) ∧
  (∀ resp,
     r = Some resp →
     let ha := get_estimated_holder_data r in
     (50 ≤ total_holders ha)%nat ∧
     top_10_holders ha = None ∧
     (dev_wallet_percentage ha ≤ top_10_percentage ha)%Qc ∧
     (top_10_percentage ha ≤ top_50_percentage ha)%Qc ∧
     (top_50_percentage ha ≤ float 85)%Qc ∧
     (bundle_detected ha = true ↔ (0 < bundle_percentage ha)%Qc) ∧
     (bundle_detected ha = true ↔
      status_code resp ≠ 200 ∨
      match json resp with
      | [] => True
      | p :: _ => (marketCap p ≤ float 1000000)%Qc
      end)).
Proof.
  split; [by intros ->|]. intros resp ->. cbv zeta.
  unfold get_estimated_holder_data.
  case_decide as Hstatus.
  2:{ split_and!; try by vm_compute.
      - cbn. lia.
      - split; [by intros _; left | done]. }
  destruct (json resp) as [|p ps].
  { split_and!; try by vm_compute.
    - cbn. lia.
    - split; [by intros _; right | done]. }
  pose proof (estimate_holders_at_least_50 (marketCap p) (liquidity_usd p))
    as H50.
  repeat case_decide; cbn [total_holders top_10_holders dev_wallet_percentage
    top_10_percentage top_50_percentage bundle_detected bundle_percentage].
  all: split_and!; try (by vm_compute); try lia.
  all: split; try done; try (intros [?|?]; try done).
  all: try (by intros _; right; apply Qcnot_lt_le).
  all: try (by intros _; right; apply Qcnot_lt_le;
            match goal with H : ¬ (float 1000000 < _)%Qc |- _ => exact H end).
  all: try qc_absurd.
  all: try (exfalso; apply (Qc_lt_le_absurd (float 1000000) (marketCap p));
            [done || (eapply Qclt_trans; [|eassumption]; by vm_compute)
            | done]).
Qed.

(** * The bot: explorer links, the holders view and the button callbacks *)

(** ** Python string operations *)

(** [s.replace(old, new)] for a non-empty [old]: the occurrences of [old]
    are replaced from left to right, without overlap.  [skip] counts the
    characters of a matched occurrence that are still to be passed over. *)
Fixpoint replace_from (old new : string) (skip : nat) (s : string) : string :=
  match s with
  | EmptyString => EmptyString
  | String c s' =>
      match skip with
      | S k => replace_from old new k s'
      | O =>
          if String.prefix old s then
            new +:+ replace_from old new (String.length old - 1) s'
          else String c (replace_from old new 0 s')
      end
  end.

Definition py_replace (old new s : string) : string := replace_from old new 0 s.

(** [s.split(sep)] for a separator of one character; the result is never
    empty. *)
Fixpoint py_split (sep : Ascii.ascii) (s : string) : list string :=
  match s with
  | EmptyString => [EmptyString]
  | String c s' =>
      if decide (c = sep) then EmptyString :: py_split sep s'
      else
        match py_split sep s' with
        | piece :: pieces => String c piece :: pieces
        | [] => [String c EmptyString]
        end
  end.

(** ** Explorer links *)

Definition get_explorer_url (token_address chain : string) : string :=
  if decide (chain = "solana") then
    "https://solscan.io/token/" +:+ token_address
  else if decide (chain = "ethereum") then
    "https://etherscan.io/token/" +:+ token_address
  else if decide (chain = "bsc") then
    "https://bscscan.com/token/" +:+ token_address
  else "".

(** The inline keyboard that [scan_token] and the refresh callback attach to
    a report: label and callback data of each button. *)
Definition report_keyboard (token_address chain : string)
  : list (string * string) :=
  [("🔄 Refresh", "refresh_" +:+ token_address);
   ("📊 More Details", "details_" +:+ token_address);
   ("👥 Show All Holders", "holders_" +:+ token_address);
   ("🔗 View on Explorer",
    "explorer_" +:+ token_address +:+ "_" +:+ chain)].

Definition unknown_chain_message : string :=
  "❌ Could not determine the blockchain for this token address.".

Definition no_holders_message : string := "❌ No holder data available.".

Definition holders_failed_message : string :=
  "❌ Could not retrieve holder data.".

Definition loading_holders_message : string := "👥 Loading all holders...".

Definition holders_header : string :=
  "👥 **HOLDER BREAKDOWN** 👥" +:+ nl +:+ nl.

Definition explorer_header : string := "🔗 Blockchain Explorer:" +:+ nl.

Definition detailed_message : string :=
  "📈 Deep Analysis Report" +:+ nl +:+ nl
  +:+ "🔍 Advanced Metrics:" +:+ nl
  +:+ "• Liquidity depth analysis" +:+ nl
  +:+ "• Holder distribution patterns  " +:+ nl
  +:+ "• Trading volume trends" +:+ nl
  +:+ "• Bundle detection algorithms" +:+ nl
  +:+ "• Dev wallet tracking" +:+ nl +:+ nl
  +:+ "⚠️ Security Analysis:" +:+ nl
  +:+ "• Contract verification status" +:+ nl
  +:+ "• Honeypot detection" +:+ nl
  +:+ "• Rug pull indicators" +:+ nl
  +:+ "• Holder concentration risk" +:+ nl
  +:+ "• Bundle manipulation detection" +:+ nl +:+ nl
  +:+ "📊 Market Intelligence:" +:+ nl
  +:+ "• DexScreener promotion status" +:+ nl
  +:+ "• Top holder percentages" +:+ nl
  +:+ "• Dev sell detection" +:+ nl
  +:+ "• Bundle percentage analysis" +:+ nl
  +:+ "• Risk scoring algorithm" +:+ nl +:+ nl
  +:+ "🔒 Security Score Breakdown:" +:+ nl
  +:+ "• Contract verification: +20 points" +:+ nl
  +:+ "• Holder distribution: +30 points  " +:+ nl
  +:+ "• Liquidity analysis: +25 points" +:+ nl
  +:+ "• Bundle detection: +15 points" +:+ nl
  +:+ "• Dev wallet analysis: +10 points".

(** What a run of [handle_callback] does, in order. *)
Inductive callback_event :=
  | answer (text : option string)
  | edit_message_text (text : string)
  | edit_message_analysis (analysis : token_report)
  | callback_analyze_token (token_address chain : string).

Section callbacks.
Context `{SecurityChecks}.

(** The text of one holder, with its rank, address, percentage and balance:
    the rendering of the two floats is left open. *)
Variable format_holder : nat → holder_entry → string.

(** The body of the holders view once the top-10 list is known to be
    non-empty; the closing [strip()] finds no white space to remove, the
    text starting with the trophy and ending with two asterisks. *)
Definition holders_text (top_10_holders : list holder_entry) : string :=
  "🏆 **ALL TOP 10 HOLDERS:**" +:+ nl +:+ nl
  +:+ foldr String.append ""
        (imap (λ i holder, format_holder (S i) holder) top_10_holders)
  +:+ nl +:+ "🔙 **Click any button below to go back**".

(** [format_all_holders] on a report that was returned. *)
Definition format_all_holders (analysis : token_report) : string :=
  match top_10_holders (report_holder_analysis analysis) with
  | None | Some [] => no_holders_message
  | Some top_10_holders => holders_text top_10_holders
  end.

(** [handle_callback] on the callback data [data]; [None] stands for an
    exception that leaves the handler ([IndexError] on [parts[1]]). *)
Definition handle_callback (data : string) (up : upstream)
  : option (list callback_event) :=
  if String.prefix "refresh_" data then
    let token_address := py_replace "refresh_" "" data in
    let chain := detect_chain token_address in
    if decide (chain = "unknown") then
      Some [answer None; edit_message_text unknown_chain_message]
    else
      match analyze_token token_address chain up with
      | None =>
          Some [answer None; callback_analyze_token token_address chain;
                edit_message_text no_data_message]
      | Some token_analysis =>
          Some [answer None; callback_analyze_token token_address chain;
                edit_message_analysis token_analysis]
      end
  else if String.prefix "details_" data then
    Some [answer None; edit_message_text detailed_message]
  else if String.prefix "holders_" data then
    let token_address := py_replace "holders_" "" data in
    let chain := detect_chain token_address in
    match analyze_token token_address chain up with
    | Some token_analysis =>
        Some [answer None; answer (Some loading_holders_message);
              callback_analyze_token token_address chain;
              edit_message_text
                (holders_header +:+ format_all_holders token_analysis)]
    | None =>
        Some [answer None; answer (Some loading_holders_message);
              callback_analyze_token token_address chain;
              edit_message_text holders_failed_message]
    end
  else if String.prefix "explorer_" data then
    let parts := py_split "_"%char (py_replace "explorer_" "" data) in
    token_address ← parts !! 0%nat;
    chain ← parts !! 1%nat;
    Some [answer None;
          edit_message_text
            (explorer_header +:+ get_explorer_url token_address chain)]
  else Some [answer None].

End callbacks.

(** [c in s] for a character [c] *)
Fixpoint char_in (c : Ascii.ascii) (s : string) : bool :=
  match s with
  | EmptyString => false
  | String d s' => bool_decide (d = c) || char_in c s'
  end.

(** The two upstreams differ at most in what the BSC holder service
    answers. *)
Definition same_but_bsc (up up' : upstream) : Prop :=
  dexscreener_basic up = dexscreener_basic up' ∧
  dexscreener_pricing up = dexscreener_pricing up' ∧
  helius (holders_for_report up) = helius (holders_for_report up') ∧
  moralis_eth (holders_for_report up) = moralis_eth (holders_for_report up') ∧
  helius (holders_for_scorer up) = helius (holders_for_scorer up') ∧
  moralis_eth (holders_for_scorer up) = moralis_eth (holders_for_scorer up') ∧
  clock up = clock up'.

(** ** Properties of the scan command and the callbacks *)

Lemma detect_chain_values (token_address : string) :
  detect_chain token_address = "solana" ∨
  detect_chain token_address = "ethereum" ∨
  detect_chain token_address = "unknown".
Proof.
  rewrite detect_chain_cases. cbv zeta.
  destruct (_ && _); [by left|]. destruct (_ && _); [by right; left|].
  by right; right.
Qed.

Lemma get_holder_analysis_same_but_bsc (chain : string)
    (hs hs' : holder_services) :
  chain = "solana" ∨ chain = "ethereum" →
  helius hs = helius hs' → moralis_eth hs = moralis_eth hs' →
  get_holder_analysis chain hs = get_holder_analysis chain hs'.
Proof.
  intros [-> | ->] Hh He; unfold get_holder_analysis; simpl;
    by rewrite ?Hh, ?He.
Qed.

Lemma analyze_token_same_but_bsc `{SecurityChecks}
    (token_address chain : string) (up up' : upstream) :
  chain = "solana" ∨ chain = "ethereum" → same_but_bsc up up' →
  analyze_token token_address chain up = analyze_token token_address chain up'.
Proof.
  intros Hc (Hb & Hp & Hh & He & Hh' & He' & Hclock).
  unfold analyze_token, get_security_analysis.
  rewrite Hb, Hp, Hclock.
  rewrite (get_holder_analysis_same_but_bsc chain _ _ Hc Hh He).
  by rewrite (get_holder_analysis_same_but_bsc chain _ _ Hc Hh' He').
Qed.

(** X16. The scan command never treats a token as a BSC token: every call
    of [analyze_token] it makes is for its first argument, with the chain
    [detect_chain] gives, which is [solana] or [ethereum]; and what the BSC
    holder service would answer has no influence on the outcome. *)
Theorem scan_token_never_bsc `{SecurityChecks}
    (args : list string) (up : upstream) :
  (∀ a c,
     call_analyze_token a c ∈ scan_token args up →
     head args = Some a ∧ c = detect_chain a ∧
     (c = "solana" ∨ c = "ethereum")) ∧
  (∀ up', same_but_bsc up up' → scan_token args up = scan_token args up').
Proof.
  unfold scan_token. destruct args as [|a0 args]; [split; [|done]|].
  { intros a c Hin. apply list_elem_of_singleton in Hin. discriminate. }
  cbv zeta. destruct (decide (detect_chain a0 = "unknown")) as [Hu|Hu].
  { split; [|done]. intros a c. rewrite !elem_of_cons, elem_of_nil.
    intros [?|[?|[]]]; discriminate. }
  assert (detect_chain a0 = "solana" ∨ detect_chain a0 = "ethereum") as Hc
    by (destruct (detect_chain_values a0) as [?|[?|?]]; auto; done).
  split.
  - intros a c Hin.
    assert (call_analyze_token a c
            = call_analyze_token a0 (detect_chain a0)) as [= -> ->].
    { destruct (analyze_token a0 (detect_chain a0) up);
        rewrite !elem_of_cons, elem_of_nil in Hin;
        destruct Hin as [?|[?|[?|[]]]]; done || discriminate. }
    done.
  - intros up' Hsame.
    by rewrite (analyze_token_same_but_bsc a0 (detect_chain a0) up up').
Qed.

(** *** Strings

    [append] is kept folded by the library's settings: its two equations. *)
Lemma append_empty (s : string) : "" +:+ s = s.
Proof. reflexivity. Qed.

Lemma append_String (c : Ascii.ascii) (s r : string) :
  String c s +:+ r = String c (s +:+ r).
Proof. reflexivity. Qed.

Lemma prefix_app (old s : string) :
  String.prefix old s = true → ∃ r, s = old +:+ r.
Proof.
  revert s. induction old as [|c old IH]; intros s.
  - by exists s.
  - destruct s as [|d s]; simpl; [done|].
    destruct (Ascii.ascii_dec c d) as [->|]; [|done].
    intros [r ->]%IH. by exists r.
Qed.

Lemma prefix_append (old r : string) : String.prefix old (old +:+ r) = true.
Proof.
  induction old as [|c old IH]; [by destruct r|].
  rewrite append_String. cbn [String.prefix].
  by destruct (Ascii.ascii_dec c c).
Qed.

Lemma replace_from_skip (old new p s : string) :
  replace_from old new (String.length p) (p +:+ s) = replace_from old new 0 s.
Proof. induction p as [|c p IH]; [done|]. by rewrite append_String. Qed.

Lemma replace_from_occurrence (c : Ascii.ascii) (old new s : string) :
  replace_from (String c old) new 0 (String c old +:+ s)
  = new +:+ replace_from (String c old) new 0 s.
Proof.
  rewrite append_String. cbn [replace_from]. rewrite <-append_String.
  rewrite prefix_append.
  replace (String.length (String c old) - 1)%nat with (String.length old)
    by (cbn [String.length]; lia).
  by rewrite replace_from_skip.
Qed.

Lemma char_in_app (c : Ascii.ascii) (s r : string) :
  char_in c (s +:+ r) = char_in c s || char_in c r.
Proof.
  induction s as [|d s IH]; [done|].
  rewrite append_String. cbn [char_in]. by rewrite IH, orb_assoc.
Qed.

Lemma replace_from_no_char (c : Ascii.ascii) (old new s : string) :
  char_in c old = true → char_in c s = false →
  replace_from old new 0 s = s.
Proof.
  intros Hold. induction s as [|d s IH]; [done|].
  cbn [char_in replace_from]. intros [Hd Hs]%orb_false_iff.
  destruct (String.prefix old (String d s)) eqn:Hp.
  - apply prefix_app in Hp as [r Hr].
    assert (char_in c (String d s) = true) as Hin
      by (rewrite Hr, char_in_app, Hold; done).
    simpl in Hin. by rewrite Hd, Hs in Hin.
  - by rewrite IH.
Qed.

Lemma py_split_no_sep (sep : Ascii.ascii) (s : string) :
  char_in sep s = false → py_split sep s = [s].
Proof.
  induction s as [|c s IH]; simpl; [done|].
  intros [Hc Hs]%orb_false_iff. apply bool_decide_eq_false in Hc.
  rewrite decide_False by done. by rewrite IH.
Qed.

Lemma py_split_app (sep : Ascii.ascii) (s r : string) :
  char_in sep s = false →
  py_split sep (s +:+ String sep r) = s :: py_split sep r.
Proof.
  induction s as [|c s IH].
  - intros _. rewrite append_empty. cbn [py_split]. by rewrite decide_True.
  - rewrite append_String. cbn [char_in py_split].
    intros [Hc Hs]%orb_false_iff. apply bool_decide_eq_false in Hc.
    rewrite decide_False by done. by rewrite IH.
Qed.

Lemma replace_explorer (token_address chain : string) :
  char_in "_" token_address = false → char_in "l" token_address = false →
  char_in "_" chain = false →
  replace_from "explorer_" "" 0 (token_address +:+ String "_" chain)
  = token_address +:+ String "_" chain.
Proof.
  intros Ha Hl Hc. induction token_address as [|x a IH].
  - rewrite append_empty. cbn [replace_from String.prefix].
    destruct (Ascii.ascii_dec _ _); [done|].
    by rewrite (replace_from_no_char "_" "explorer_" "" chain eq_refl Hc).
  - cbn [char_in] in Ha, Hl.
    apply orb_false_iff in Ha as [_ Ha]. apply orb_false_iff in Hl as [Hx Hl].
    specialize (IH Ha Hl). rewrite append_String. cbn [replace_from].
    destruct (String.prefix _ _) eqn:Hp; [|by rewrite IH].
    exfalso. apply prefix_app in Hp as [r Hr].
    rewrite append_String in Hr. injection Hr as -> Hr.
    do 2 (destruct a as [|y a]; [discriminate|];
          rewrite !append_String in Hr; injection Hr as -> Hr;
          cbn [char_in] in Hl; apply orb_false_iff in Hl as [_ Hl]).
    destruct a as [|y a]; [discriminate|].
    rewrite !append_String in Hr. injection Hr as -> Hr.
    cbn [char_in] in Hl. by apply orb_false_iff in Hl as [Hy _].
Qed.

(** *** The callbacks *)

Lemma detect_chain_no_underscore (token_address : string) :
  char_in "_" (detect_chain token_address) = false.
Proof. by destruct (detect_chain_values token_address) as [->|[->| ->]]. Qed.

Lemma analyze_token_top_10 `{SecurityChecks}
    (token_address chain : string) (up : upstream) (report : token_report) :
  analyze_token token_address chain up = Some report →
  if decide (chain = "solana") then
    ∃ entries,
      top_10_holders (report_holder_analysis report) = Some entries ∧
      (0 < length entries ≤ 10)%nat
  else top_10_holders (report_holder_analysis report) = None.
Proof.
  intros (bd & ha & _ & Hha & ->)%analyze_token_Some.
  cbn [report_holder_analysis]. case_decide as Hc.
  - subst chain. apply get_holder_analysis_solana_Some in Hha.
    apply get_holder_distribution_from_helius_shares in Hha
      as (resp & accounts & dev & _ & _ & Htop & Hdev & _).
    eexists. split; [exact Htop|].
    rewrite length_fmap, length_take.
    apply lookup_lt_Some in Hdev. lia.
  - revert Hha. unfold get_holder_analysis. rewrite decide_False by done.
    repeat case_decide; intros [= <-]; try done;
      unfold analyze_ethereum_holders, analyze_bsc_holders;
      apply moralis_top_10.
Qed.

Lemma no_data_message_differs :
  no_data_message ≠ unknown_chain_message ∧
  no_data_message ≠ invalid_address_message.
Proof. split; intros Heq; vm_compute in Heq; discriminate. Qed.

Section callback_properties.
Context `{SecurityChecks}.
Variable format_holder : nat → holder_entry → string.

(** X17. The refresh button re-scans the token of the message: for an
    address without an underscore, the callback data [refresh_<address>] of
    the keyboard leads [handle_callback] to call [analyze_token] exactly as
    [scan_token] does on that address, to show a report exactly when
    [scan_token] replies with it, and to report missing data or an unknown
    chain exactly when [scan_token] does. *)
Theorem refresh_button_rescans (token_address : string) (up : upstream) :
  char_in "_" token_address = false →
  ∃ events,
    handle_callback format_holder ("refresh_" +:+ token_address) up
      = Some events ∧
    (∀ a c, callback_analyze_token a c ∈ events ↔
            call_analyze_token a c ∈ scan_token [token_address] up) ∧
    (∀ report, edit_message_analysis report ∈ events ↔
               reply_analysis report ∈ scan_token [token_address] up) ∧
    (edit_message_text no_data_message ∈ events ↔
       reply_text no_data_message ∈ scan_token [token_address] up) ∧
    (edit_message_text unknown_chain_message ∈ events ↔
       reply_text invalid_address_message ∈ scan_token [token_address] up).
Proof.
  intros Ha. unfold handle_callback, py_replace, scan_token.
  rewrite prefix_append.
  rewrite replace_from_occurrence, append_empty.
  rewrite (replace_from_no_char "_" "refresh_" "" token_address eq_refl Ha).
  cbv zeta. pose proof no_data_message_differs as [??]. case_decide as Hc.
  - eexists. split; [reflexivity|].
    split_and!; intros; rewrite !elem_of_cons, !elem_of_nil;
      intuition congruence.
  - destruct (analyze_token token_address (detect_chain token_address) up);
      (eexists; split; [reflexivity|]);
      split_and!; intros; rewrite !elem_of_cons, !elem_of_nil;
      intuition congruence.
Qed.

(** X18. The holders button, for an address without an underscore: the
    handler answers the query twice, calls [analyze_token] with the chain
    [detect_chain] gives, also when that chain is [unknown], and edits the
    message once.  Without a report the text is the failure message; with a
    report for a chain other than [solana] it is always the header followed
    by "No holder data available."; with a Solana report it is the header
    followed by the list of the report's one to ten top holders. *)
Theorem holders_button_view (token_address : string) (up : upstream) :
  char_in "_" token_address = false →
  ∃ text,
    handle_callback format_holder ("holders_" +:+ token_address) up
      = Some [answer None; answer (Some loading_holders_message);
              callback_analyze_token token_address
                (detect_chain token_address);
              edit_message_text text] ∧
    match analyze_token token_address (detect_chain token_address) up with
    | None => text = holders_failed_message
    | Some report =>
        if decide (detect_chain token_address = "solana") then
          ∃ entries,
            top_10_holders (report_holder_analysis report) = Some entries ∧
            (0 < length entries ≤ 10)%nat ∧
            text = holders_header +:+ holders_text format_holder entries
        else text = holders_header +:+ no_holders_message
    end.
Proof.
  intros Ha. unfold handle_callback, py_replace.
  change (String.prefix "refresh_" ("holders_" +:+ token_address)) with false.
  change (String.prefix "details_" ("holders_" +:+ token_address)) with false.
  rewrite prefix_append.
  rewrite replace_from_occurrence, append_empty.
  rewrite (replace_from_no_char "_" "holders_" "" token_address eq_refl Ha).
  cbv iota zeta.
  destruct (analyze_token token_address (detect_chain token_address) up)
    as [report|] eqn:Hreport; [|by eexists].
  eexists. split; [reflexivity|].
  apply analyze_token_top_10 in Hreport. unfold format_all_holders.
  case_decide.
  - destruct Hreport as (entries & -> & Hlen). exists entries.
    split; [done|]. split; [exact Hlen|].
    destruct entries; [simpl in Hlen; lia|done].
  - by rewrite Hreport.
Qed.

(** X19. The explorer button, for an address with neither an underscore nor
    a lower-case l (base58 and hexadecimal addresses have none): the data
    [explorer_<address>_<chain>] is taken apart into the same address and
    chain, and the message shows [get_explorer_url] of the two; with the
    chain that [detect_chain] recognises this is the Solscan or the Etherscan
    link of the address; data without a chain part makes the handler fail
    on [parts[1]]. *)
Theorem explorer_button_link (token_address chain : string) (up : upstream) :
  char_in "_" token_address = false → char_in "l" token_address = false →
  (char_in "_" chain = false →
   handle_callback format_holder
     ("explorer_" +:+ token_address +:+ "_" +:+ chain) up
   = Some [answer None;
           edit_message_text
             (explorer_header +:+ get_explorer_url token_address chain)]) ∧
  (detect_chain token_address ≠ "unknown" →
   handle_callback format_holder
     ("explorer_" +:+ token_address +:+ "_" +:+ detect_chain token_address) up
   = Some [answer None;
           edit_message_text
             (explorer_header
              +:+ (if decide (detect_chain token_address = "solana")
                   then "https://solscan.io/token/"
                   else "https://etherscan.io/token/")
              +:+ token_address)]) ∧
  handle_callback format_holder ("explorer_" +:+ token_address) up = None.
Proof.
  intros Ha Hl.
  assert (∀ chain, char_in "_" chain = false →
    handle_callback format_holder
      ("explorer_" +:+ token_address +:+ "_" +:+ chain) up
    = Some [answer None;
            edit_message_text
              (explorer_header +:+ get_explorer_url token_address chain)])
    as Hlink.
  { intros c Hc. unfold handle_callback, py_replace.
    change (String.prefix "refresh_" ("explorer_" +:+ token_address +:+ "_" +:+ c)) with false.
    change (String.prefix "details_" ("explorer_" +:+ token_address +:+ "_" +:+ c)) with false.
    change (String.prefix "holders_" ("explorer_" +:+ token_address +:+ "_" +:+ c)) with false.
    rewrite prefix_append.
    rewrite replace_from_occurrence, append_empty.
    change ("_" +:+ c) with (String "_" c).
    rewrite replace_explorer by done. cbv iota zeta.
    rewrite py_split_app by done. rewrite py_split_no_sep by done.
    done. }
  split_and!.
  - apply Hlink.
  - intros Hc. rewrite Hlink by apply detect_chain_no_underscore.
    unfold get_explorer_url.
    destruct (detect_chain_values token_address) as [->|[->|?]]; done.
  - unfold handle_callback, py_replace.
    change (String.prefix "refresh_" ("explorer_" +:+ token_address)) with false.
    change (String.prefix "details_" ("explorer_" +:+ token_address)) with false.
    change (String.prefix "holders_" ("explorer_" +:+ token_address)) with false.
    rewrite prefix_append.
    rewrite replace_from_occurrence, append_empty.
    rewrite (replace_from_no_char "_" "explorer_" "" token_address eq_refl Ha).
    cbv iota zeta. by rewrite py_split_no_sep.
Qed.

End callback_properties.

Lemma refresh_button_rescans_witness :
  ∃ events,
    @handle_callback shipped_checks (λ _ holder, entry_address holder)
      ("refresh_" +:+ solana_address) solana_upstream = Some events ∧
    (∀ report,
       edit_message_analysis report ∈ events ↔
       reply_analysis report
         ∈ @scan_token shipped_checks [solana_address] solana_upstream).
Proof.
  destruct (@refresh_button_rescans shipped_checks
              (λ _ holder, entry_address holder)
              solana_address solana_upstream eq_refl)
    as (events & Hevents & _ & Hreport & _).
  by exists events.
Defined.

Lemma holders_button_view_witness :
  ∃ text,
    @handle_callback shipped_checks (λ _ holder, entry_address holder)
      ("holders_" +:+ ethereum_address) ethereum_upstream
    = Some [answer None; answer (Some loading_holders_message);
            callback_analyze_token ethereum_address "ethereum";
            edit_message_text text].
Proof.
  destruct (@holders_button_view shipped_checks
              (λ _ holder, entry_address holder)
              ethereum_address ethereum_upstream eq_refl)
    as (text & Hevents & _).
  by exists text.
Defined.

Lemma explorer_button_link_witness :
  @handle_callback shipped_checks (λ _ holder, entry_address holder)
    ("explorer_" +:+ solana_address +:+ "_" +:+ "solana") solana_upstream
  = Some [answer None;
          edit_message_text
            (explorer_header +:+ get_explorer_url solana_address "solana")].
Proof.
  destruct (@explorer_button_link shipped_checks
              (λ _ holder, entry_address holder)
              solana_address "solana" solana_upstream eq_refl eq_refl)
    as (Hlink & _ & _).
  exact (Hlink eq_refl).
Defined.
